(** * Yori file enumeration, wildcard matching and path decomposition

    A shallow embedding of [lib/fileenum.c] (the enumerator
    [YoriLibForEachFileEnum], the pattern expander [YoriLibForEachFile],
    the wildcard matcher [YoriLibDoesFileMatchExpression] and
    [YoriLibUpdateFindDataFromFileInformation]) and of the decomposition
    performed by the entry point of [path/path.c].

    Conventions of the embedding.
    - A [TCHAR] is a character; a counted string ([YORI_STRING] used as a
      value) is the list of its [LengthInChars] characters.  Strings hold no
      embedded NUL, so reading one through [%s] or through [%y] is the same.
    - [DWORD] values are integers in [Z]; bit tests are [Z.land].
    - Heap allocation is assumed to succeed.  The full paths and recurse
      criteria are printed to buffers allocated for their length; the name
      printed to the fixed [cFileName] member is stored whole only when it
      fits ([PrintString]).
    - The operating system and the caller's [Context] are one abstract
      [World]; every platform call and every callback reads it, callbacks
      may change it.
    - Loops are recursive functions.  Where the recursion is not on the
      data, a natural number bounds it: the nesting of calls of the
      enumerator and of the expander is bounded by [fuel], and a call that
      needs more gives [None]. *)

From Stdlib Require Import String Ascii ZArith Arith Bool List Lia.
Import ListNotations.

Open Scope Z_scope.
Open Scope list_scope.

(* ================================================================== *)
(** * Characters and strings *)

Definition TCHAR := ascii.
Definition YORI_STRING := list TCHAR.
Definition DWORD := Z.

(** [_T("...")]: the characters of a literal. *)
Definition _T (s : string) : YORI_STRING := list_ascii_of_string s.

(** The terminating character of a C string. *)
Definition NUL : TCHAR := zero.

(** [s.StartOfString[i]]; the character at [LengthInChars] is the
    terminator. *)
Definition CharAt (s : YORI_STRING) (i : nat) : TCHAR := nth i s NUL.

Definition tchar_eqb (a b : TCHAR) : bool := Ascii.eqb a b.

Fixpoint string_eqb (a b : YORI_STRING) : bool :=
  match a, b with
  | [], [] => true
  | x :: a', y :: b' => tchar_eqb x y && string_eqb a' b'
  | _, _ => false
  end.

(** 32-bit wrap-around of unsigned arithmetic. *)
Definition u32 (z : Z) : Z := z mod 2 ^ 32.

(** Modelled from the spec: [YoriLibUpcaseChar] is defined outside [src/];
    the spec calls it a culture-independent upcase, so the letters [a]-[z]
    map to [A]-[Z] and every other character is unchanged. *)
Definition YoriLibUpcaseChar (c : TCHAR) : TCHAR :=
  let n := nat_of_ascii c in
  if ((97 <=? n) && (n <=? 122))%nat then ascii_of_nat (n - 32) else c.

(** Modelled from the spec: [YoriLibIsSep] is defined outside [src/]; the
    spec accepts both [\] and [/] as path separators. *)
Definition YoriLibIsSep (c : TCHAR) : bool :=
  tchar_eqb c "\"%char || tchar_eqb c "/"%char.

Definition IsLetter (c : TCHAR) : bool :=
  let n := nat_of_ascii c in
  (((65 <=? n) && (n <=? 90)) || ((97 <=? n) && (n <=? 122)))%nat.

(** Modelled from the spec: the path predicates of the library are defined
    outside [src/].  A drive letter with colon is [X:]; with colon and slash
    [X:\]; the prefixed forms are [\\?\X:] and [\\?\X:\]; a full UNC path
    starts with [\\?\UNC\]. *)
Definition YoriLibIsDriveLetterWithColon (s : YORI_STRING) : bool :=
  (2 <=? length s)%nat && IsLetter (CharAt s 0) && tchar_eqb (CharAt s 1) ":"%char.

Definition YoriLibIsDriveLetterWithColonAndSlash (s : YORI_STRING) : bool :=
  (3 <=? length s)%nat && YoriLibIsDriveLetterWithColon s && YoriLibIsSep (CharAt s 2).

Definition IsLongPrefix (s : YORI_STRING) : bool :=
  YoriLibIsSep (CharAt s 0) && YoriLibIsSep (CharAt s 1) &&
  (tchar_eqb (CharAt s 2) "?"%char || tchar_eqb (CharAt s 2) "."%char) &&
  YoriLibIsSep (CharAt s 3).

Definition YoriLibIsPrefixedDriveLetterWithColon (s : YORI_STRING) : bool :=
  (6 <=? length s)%nat && IsLongPrefix s &&
  IsLetter (CharAt s 4) && tchar_eqb (CharAt s 5) ":"%char.

Definition YoriLibIsPrefixedDriveLetterWithColonAndSlash (s : YORI_STRING) : bool :=
  (7 <=? length s)%nat && YoriLibIsPrefixedDriveLetterWithColon s &&
  YoriLibIsSep (CharAt s 6).

Definition YoriLibIsFullPathUnc (s : YORI_STRING) : bool :=
  (8 <=? length s)%nat && IsLongPrefix s &&
  tchar_eqb (YoriLibUpcaseChar (CharAt s 4)) "U"%char &&
  tchar_eqb (YoriLibUpcaseChar (CharAt s 5)) "N"%char &&
  tchar_eqb (YoriLibUpcaseChar (CharAt s 6)) "C"%char &&
  YoriLibIsSep (CharAt s 7).

(** Modelled from the spec: [YoriLibCountStringNotContainingChars] is
    defined outside [src/]; it counts the characters at the start of a
    string that are not in the given set (the expander uses it to scan
    left to right for the first operator). *)
Fixpoint YoriLibCountStringNotContainingChars (s chars : YORI_STRING) : nat :=
  match s with
  | [] => 0%nat
  | c :: s' =>
      if existsb (tchar_eqb c) chars then 0%nat
      else S (YoriLibCountStringNotContainingChars s' chars)
  end.

(** Modelled from the spec: [YoriLibCompareStringWithLiteralInsensitiveCount]
    is defined outside [src/]; the enumerator uses it to recognise the
    [file:///] prefix case-insensitively.  Zero means equal on the first
    [n] characters. *)
Definition YoriLibCompareStringWithLiteralInsensitiveCount
    (s lit : YORI_STRING) (n : nat) : Z :=
  if string_eqb (map YoriLibUpcaseChar (firstn n s))
                (map YoriLibUpcaseChar (firstn n lit))
  then 0 else 1.

(* ================================================================== *)
(** * The wildcard matcher, [YoriLibDoesFileMatchExpression] *)

Module Matcher.

Definition IsWild (c : TCHAR) : bool :=
  tchar_eqb c "*"%char || tchar_eqb c "?"%char.

(** The two loops headed "Skip over repeated wildcards": advance
    [WildIndex] while it is in range and points at [*] or [?]. *)
Fixpoint SkipWild (fuel : nat) (Wildcard : YORI_STRING) (WildIndex : nat) : nat :=
  match fuel with
  | O => WildIndex
  | S fuel' =>
      if (WildIndex <? length Wildcard)%nat then
        let CompareWild := YoriLibUpcaseChar (CharAt Wildcard WildIndex) in
        if negb (IsWild CompareWild) then WildIndex
        else SkipWild fuel' Wildcard (S WildIndex)
      else WildIndex
  end.

(** "look forward in the file name to see if it's there": advance
    [FileIndex] to the next character equal to [CompareWild]. *)
Fixpoint FindLiteral (fuel : nat) (FileName : YORI_STRING) (CompareWild : TCHAR)
    (FileIndex : nat) : nat :=
  match fuel with
  | O => FileIndex
  | S fuel' =>
      if (FileIndex <? length FileName)%nat then
        let CompareFile := YoriLibUpcaseChar (CharAt FileName FileIndex) in
        if tchar_eqb CompareFile CompareWild then FileIndex
        else FindLiteral fuel' FileName CompareWild (S FileIndex)
      else FileIndex
  end.

(** The code after the main loop. *)
Definition MatchTail (FileName Wildcard : YORI_STRING) (FileIndex WildIndex : nat) : bool :=
  let WildIndex := SkipWild (length Wildcard) Wildcard WildIndex in
  (FileIndex =? length FileName)%nat && (WildIndex =? length Wildcard)%nat.

(** The main loop.  Every iteration advances [WildIndex], so
    [length Wildcard] iterations are enough; [None] is fuel running out. *)
Fixpoint MatchLoop (fuel : nat) (FileName Wildcard : YORI_STRING)
    (FileIndex WildIndex : nat) : option bool :=
  if ((FileIndex <? length FileName) && (WildIndex <? length Wildcard))%nat then
    match fuel with
    | O => None
    | S fuel' =>
        let CompareFile := YoriLibUpcaseChar (CharAt FileName FileIndex) in
        let CompareWild := YoriLibUpcaseChar (CharAt Wildcard WildIndex) in
        let FileIndex := S FileIndex in
        let WildIndex := S WildIndex in
        if tchar_eqb CompareWild "?"%char then
          MatchLoop fuel' FileName Wildcard FileIndex WildIndex
        else if tchar_eqb CompareWild "*"%char then
          let WildIndex := SkipWild (length Wildcard) Wildcard WildIndex in
          if (WildIndex =? length Wildcard)%nat then Some true
          else
            let CompareWild := YoriLibUpcaseChar (CharAt Wildcard WildIndex) in
            let FileIndex := FindLiteral (length FileName) FileName CompareWild FileIndex in
            if (FileIndex =? length FileName)%nat then Some false
            else MatchLoop fuel' FileName Wildcard FileIndex WildIndex
        else if negb (tchar_eqb CompareFile CompareWild) then Some false
        else MatchLoop fuel' FileName Wildcard FileIndex WildIndex
    end
  else Some (MatchTail FileName Wildcard FileIndex WildIndex).

Definition YoriLibDoesFileMatchExpression (FileName Wildcard : YORI_STRING) : option bool :=
  MatchLoop (length Wildcard) FileName Wildcard 0 0.

End Matcher.

(* ================================================================== *)
(** * Platform data *)

Definition FILE_ATTRIBUTE_DIRECTORY : DWORD := 0x10.
Definition FILE_ATTRIBUTE_REPARSE_POINT : DWORD := 0x400.
Definition IO_REPARSE_TAG_MOUNT_POINT : DWORD := 0xA0000003.
Definition IO_REPARSE_TAG_SYMLINK : DWORD := 0xA000000C.

(** The number of characters of the [cFileName] member. *)
Definition MAX_PATH : nat := 260.

(** [(DWORD)-1], the value [GetFileAttributes] returns on failure. *)
Definition INVALID_FILE_ATTRIBUTES : DWORD := u32 (-1).

Record FILETIME := {
  dwLowDateTime : DWORD;
  dwHighDateTime : DWORD
}.

Record WIN32_FIND_DATA := {
  dwFileAttributes : DWORD;
  ftCreationTime : FILETIME;
  ftLastAccessTime : FILETIME;
  ftLastWriteTime : FILETIME;
  nFileSizeHigh : DWORD;
  nFileSizeLow : DWORD;
  dwReserved0 : DWORD;
  dwReserved1 : DWORD;
  cFileName : YORI_STRING;
  cAlternateFileName : YORI_STRING
}.

(** The fields of [BY_HANDLE_FILE_INFORMATION] that the code reads. *)
Record BY_HANDLE_FILE_INFORMATION := {
  bh_dwFileAttributes : DWORD;
  bh_ftCreationTime : FILETIME;
  bh_ftLastAccessTime : FILETIME;
  bh_ftLastWriteTime : FILETIME;
  bh_nFileSizeHigh : DWORD;
  bh_nFileSizeLow : DWORD
}.

(** The value of [hFind]: [INVALID_HANDLE_VALUE] (with the error that
    [GetLastError] reports), [NULL] (a record cooked up by hand), or an open
    handle, which holds the entries [FindNextFile] has still to deliver. *)
Inductive HANDLE :=
| INVALID_HANDLE_VALUE (LastError : DWORD)
| NULL_HANDLE
| OpenHandle (Remaining : list WIN32_FIND_DATA).

(** The [YORILIB_FILEENUM_*] masks are defined in [yorilib.h], outside
    [src/]; the embedding takes their values as parameters. *)
Class FileEnumFlags := {
  YORILIB_FILEENUM_RETURN_FILES : DWORD;
  YORILIB_FILEENUM_RETURN_DIRECTORIES : DWORD;
  YORILIB_FILEENUM_DIRECTORY_CONTENTS : DWORD;
  YORILIB_FILEENUM_RECURSE_BEFORE_RETURN : DWORD;
  YORILIB_FILEENUM_RECURSE_AFTER_RETURN : DWORD;
  YORILIB_FILEENUM_RECURSE_PRESERVE_WILD : DWORD;
  YORILIB_FILEENUM_INCLUDE_DOTFILES : DWORD;
  YORILIB_FILEENUM_NO_LINK_TRAVERSE : DWORD;
  YORILIB_FILEENUM_BASIC_EXPANSION : DWORD
}.

(** The calls the code makes into the operating system and into library
    routines defined outside [src/].  [FindFirstFile] gives the error code,
    or the first entry together with the entries that [FindNextFile] will
    deliver after it (the listing is fixed when the handle is opened).
    [OpenAndQueryFile] is [CreateFile] followed by
    [GetFileInformationByHandle] and [CloseHandle].  [YoriLibMalloc] gives
    the contents of the [FileInfo] member of a freshly allocated context,
    which the code does not initialise.  [YoriLibSPrintfS] gives what a
    buffer of the given number of characters holds after a string that
    does not fit it is printed to it with [%s]; the routine is defined in
    [printf.inc], outside [src/]. *)
Class Platform (World : Type) := {
  FindFirstFile : YORI_STRING -> World -> DWORD + (WIN32_FIND_DATA * list WIN32_FIND_DATA);
  GetFileAttributes : YORI_STRING -> World -> DWORD;
  OpenAndQueryFile : YORI_STRING -> World -> DWORD + BY_HANDLE_FILE_INFORMATION;
  YoriLibGetFullPathNameReturnAllocation : YORI_STRING -> World -> option YORI_STRING;
  YoriLibExpandHomeDirectories : YORI_STRING -> World -> option YORI_STRING;
  YoriLibIsOperationCancelled : World -> bool;
  YoriLibMalloc : World -> WIN32_FIND_DATA;
  YoriLibSPrintfS : nat -> YORI_STRING -> YORI_STRING
}.

(** [(MatchFlags & Mask) != 0] *)
Definition FlagTest (MatchFlags Mask : DWORD) : bool :=
  negb (Z.land MatchFlags Mask =? 0).

(** The part of [s] after its last backslash ([_tcsrchr(s, '\\') + 1]), if
    there is one. *)
Fixpoint AfterFinalBackslash (s : YORI_STRING) : option YORI_STRING :=
  match s with
  | [] => None
  | c :: s' =>
      match AfterFinalBackslash s' with
      | Some t => Some t
      | None => if tchar_eqb c "\"%char then Some s' else None
      end
  end.

(* ================================================================== *)
(** * [YoriLibUpdateFindDataFromFileInformation] *)

Section UpdateFindData.
Context {World : Type} {os : Platform World}.

(** [YoriLibSPrintfS(Buffer, Size, _T("%s"), String)]: a string that fits
    the buffer together with its terminator is stored whole. *)
Definition PrintString (Size : nat) (String : YORI_STRING) : YORI_STRING :=
  if (length String <? Size)%nat then String
  else YoriLibSPrintfS Size String.

(** [inl] is the routine returning [FALSE] (with the error of the failed
    [CreateFile]); [inr] is [TRUE] with the updated [FindData]. *)
Definition YoriLibUpdateFindDataFromFileInformation
    (FindData : WIN32_FIND_DATA) (FullPath : YORI_STRING) (CopyName : bool)
    (w : World) : DWORD + WIN32_FIND_DATA :=
  match OpenAndQueryFile FullPath w with
  | inr FileInfo =>
      inr {| dwFileAttributes := bh_dwFileAttributes FileInfo;
             ftCreationTime := bh_ftCreationTime FileInfo;
             ftLastAccessTime := bh_ftLastAccessTime FileInfo;
             ftLastWriteTime := bh_ftLastWriteTime FileInfo;
             nFileSizeHigh := bh_nFileSizeHigh FileInfo;
             nFileSizeLow := bh_nFileSizeLow FileInfo;
             dwReserved0 := dwReserved0 FindData;
             dwReserved1 := dwReserved1 FindData;
             cFileName :=
               if CopyName then
                 match AfterFinalBackslash FullPath with
                 | Some name => PrintString MAX_PATH name
                 | None => PrintString MAX_PATH FullPath
                 end
               else cFileName FindData;
             cAlternateFileName := cAlternateFileName FindData |}
  | inl err => inl err
  end.

End UpdateFindData.

(* ================================================================== *)
(** * The enumerator, [YoriLibForEachFileEnum] *)

(** What a call returns: [None] when the recursion budget of the model is
    used up, otherwise the [BOOL] result and the world the call leaves. *)
Definition Outcome (World : Type) : Type := option (bool * World).

(** The type of the enumerator and of the expander once the callbacks are
    fixed: file specification, match flags, depth and world. *)
Definition Recursion (World : Type) : Type :=
  YORI_STRING -> DWORD -> DWORD -> World -> Outcome World.

(** The members of [YORILIB_FOREACHFILE_CONTEXT] that are fixed before the
    phases start, and the local [FinalSlashFound].  [FullPath],
    [CurrentPhase], [RecurseCriteria] and [FileInfo] change as the function
    runs and are passed along explicitly. *)
Record YORILIB_FOREACHFILE_CONTEXT := {
  EffectiveFileSpec : YORI_STRING;
  ParentFullPath : YORI_STRING;
  NumberPhases : nat;
  CharsToFinalSlash : nat;
  FinalSlashFound : bool
}.

Section Enumerator.
Context {World : Type} {flags : FileEnumFlags} {os : Platform World}.

(** [PYORILIB_FILE_ENUM_FN] and [PYORILIB_FILE_ENUM_ERROR_FN]; a missing
    error callback ([NULL]) is [None].  The [Context] pointer they receive
    is part of the world. *)
Definition FILE_ENUM_FN : Type :=
  YORI_STRING -> WIN32_FIND_DATA -> DWORD -> World -> bool * World.
Definition FILE_ENUM_ERROR_FN : Type :=
  YORI_STRING -> DWORD -> DWORD -> World -> bool * World.

Variable Callback : FILE_ENUM_FN.
Variable ErrorCallback : option FILE_ENUM_ERROR_FN.

(** [sizeof("file:///")], which counts the terminator. *)
Definition sizeof_file_prefix : nat := 9.

(** Skip a [file:///] prefix. *)
Definition TrimFilePrefix (FileSpec : YORI_STRING) : YORI_STRING :=
  if (sizeof_file_prefix <=? length FileSpec)%nat then
    if YoriLibCompareStringWithLiteralInsensitiveCount
         FileSpec (_T "file:///") (sizeof_file_prefix - 1) =? 0
    then skipn (sizeof_file_prefix - 1) FileSpec
    else FileSpec
  else FileSpec.

Definition IsExistingDirectory (FileSpec : YORI_STRING) (w : World) : bool :=
  let FileAttributes := GetFileAttributes FileSpec w in
  negb (FileAttributes =? INVALID_FILE_ATTRIBUTES) &&
  FlagTest FileAttributes FILE_ATTRIBUTE_DIRECTORY.

Definition RecurseMask : DWORD :=
  Z.lor YORILIB_FILEENUM_RECURSE_AFTER_RETURN YORILIB_FILEENUM_RECURSE_BEFORE_RETURN.

(** The block under [if (Depth == 0)]: [None] is the early [return FALSE]. *)
Definition FirstLevelFileSpec (FileSpec Effective : YORI_STRING)
    (MatchFlags Depth : DWORD) (w : World) : option YORI_STRING :=
  if Depth =? 0 then
    if FlagTest MatchFlags YORILIB_FILEENUM_DIRECTORY_CONTENTS then
      if IsExistingDirectory FileSpec w
      then Some (Effective ++ _T "\*")
      else Some Effective
    else if FlagTest MatchFlags RecurseMask then
      if IsExistingDirectory FileSpec w
      then YoriLibGetFullPathNameReturnAllocation Effective w
      else Some Effective
    else Some Effective
  else Some Effective.

(** The loop that looks for the final separator, counting down from the
    end; the result is [(CharsToFinalSlash, FinalSlashFound)]. *)
Fixpoint FindFinalSlash (Effective : YORI_STRING) (Chars : nat) : nat * bool :=
  match Chars with
  | O => (O, false)
  | S Chars' =>
      if YoriLibIsSep (CharAt Effective Chars') then (S Chars', true)
      else if (Chars' =? 1)%nat && YoriLibIsDriveLetterWithColon Effective
           then (S Chars', true)
      else FindFinalSlash Effective Chars'
  end.

(** "Trim trailing slashes, except if the string is just a slash". *)
Definition TrimDirectoryPart (DirectoryPart : YORI_STRING) : YORI_STRING :=
  if ((3 <? length DirectoryPart)%nat ||
      negb (YoriLibIsDriveLetterWithColonAndSlash DirectoryPart)) &&
     (1 <? length DirectoryPart)%nat &&
     YoriLibIsSep (CharAt DirectoryPart (length DirectoryPart - 1))
  then removelast DirectoryPart
  else DirectoryPart.

(** "If the result ends with a \, truncate it". *)
Definition TrimParentFullPath (Parent : YORI_STRING) : YORI_STRING :=
  if (0 <? length Parent)%nat && YoriLibIsSep (CharAt Parent (length Parent - 1))
  then removelast Parent
  else Parent.

Definition ResolveParentFullPath (Effective : YORI_STRING)
    (Chars : nat) (Found : bool) (w : World) : option YORI_STRING :=
  if Found then
    YoriLibGetFullPathNameReturnAllocation (TrimDirectoryPart (firstn Chars Effective)) w
  else
    YoriLibGetFullPathNameReturnAllocation (_T ".") w.

(** The choice of [RecursePhase] at the head of the phase loop. *)
Definition IsRecursePhase (MatchFlags : DWORD) (CurrentPhase : nat) : bool :=
  if Z.land MatchFlags RecurseMask =? RecurseMask then (CurrentPhase =? 0)%nat
  else if FlagTest MatchFlags YORILIB_FILEENUM_RECURSE_AFTER_RETURN then (CurrentPhase =? 1)%nat
  else if FlagTest MatchFlags YORILIB_FILEENUM_RECURSE_BEFORE_RETURN then (CurrentPhase =? 0)%nat
  else false.

(** The string handed to [FindFirstFile] in a phase. *)
Definition SearchPath (ctx : YORILIB_FOREACHFILE_CONTEXT) (MatchFlags : DWORD)
    (RecursePhase : bool) : YORI_STRING :=
  if RecursePhase && FlagTest MatchFlags YORILIB_FILEENUM_RECURSE_PRESERVE_WILD then
    ParentFullPath ctx ++ _T "\*"
  else if FinalSlashFound ctx then
    ParentFullPath ctx ++ _T "\" ++ skipn (CharsToFinalSlash ctx) (EffectiveFileSpec ctx)
  else
    ParentFullPath ctx ++ _T "\" ++ EffectiveFileSpec ctx.

Definition IsBareVolumeRoot (FullPath : YORI_STRING) : bool :=
  ((length FullPath =? 3)%nat && YoriLibIsDriveLetterWithColonAndSlash FullPath) ||
  ((length FullPath =? 7)%nat && YoriLibIsPrefixedDriveLetterWithColonAndSlash FullPath).

(** Opening the find handle of a phase, with the volume root case.  The
    result is [hFind] and the contents of [FileInfo] afterwards. *)
Definition OpenFind (ctx : YORILIB_FOREACHFILE_CONTEXT) (MatchFlags : DWORD)
    (RecursePhase : bool) (FileInfo : WIN32_FIND_DATA) (w : World)
    : HANDLE * WIN32_FIND_DATA :=
  let FullPath := SearchPath ctx MatchFlags RecursePhase in
  if RecursePhase && FlagTest MatchFlags YORILIB_FILEENUM_RECURSE_PRESERVE_WILD then
    match FindFirstFile FullPath w with
    | inr (first, rest) => (OpenHandle rest, first)
    | inl err => (INVALID_HANDLE_VALUE err, FileInfo)
    end
  else
    match FindFirstFile FullPath w with
    | inr (first, rest) => (OpenHandle rest, first)
    | inl err =>
        if IsBareVolumeRoot FullPath then
          match YoriLibUpdateFindDataFromFileInformation FileInfo FullPath false w with
          | inr FindData =>
              (NULL_HANDLE,
               {| dwFileAttributes := dwFileAttributes FindData;
                  ftCreationTime := ftCreationTime FindData;
                  ftLastAccessTime := ftLastAccessTime FindData;
                  ftLastWriteTime := ftLastWriteTime FindData;
                  nFileSizeHigh := nFileSizeHigh FindData;
                  nFileSizeLow := nFileSizeLow FindData;
                  dwReserved0 := dwReserved0 FindData;
                  dwReserved1 := dwReserved1 FindData;
                  cFileName := [];
                  cAlternateFileName := [] |})
          | inl err' => (INVALID_HANDLE_VALUE err', FileInfo)
          end
        else (INVALID_HANDLE_VALUE err, FileInfo)
    end.

(** The tests on one entry. *)
Definition IsDotFile (FileInfo : WIN32_FIND_DATA) : bool :=
  string_eqb (cFileName FileInfo) (_T ".") || string_eqb (cFileName FileInfo) (_T "..").

Definition IsDirectory (FileInfo : WIN32_FIND_DATA) : bool :=
  FlagTest (dwFileAttributes FileInfo) FILE_ATTRIBUTE_DIRECTORY.

Definition ShouldReportObject (MatchFlags : DWORD) (FileInfo : WIN32_FIND_DATA) : bool :=
  let ReportObject := true in
  let ReportObject :=
    if IsDotFile FileInfo then
      if negb (FlagTest MatchFlags YORILIB_FILEENUM_INCLUDE_DOTFILES) then false
      else ReportObject
    else ReportObject in
  if IsDirectory FileInfo then
    if negb (FlagTest MatchFlags YORILIB_FILEENUM_RETURN_DIRECTORIES) then false
    else ReportObject
  else
    if negb (FlagTest MatchFlags YORILIB_FILEENUM_RETURN_FILES) then false
    else ReportObject.

Definition EntryIsLink (MatchFlags : DWORD) (FileInfo : WIN32_FIND_DATA) : bool :=
  FlagTest MatchFlags YORILIB_FILEENUM_NO_LINK_TRAVERSE &&
  FlagTest (dwFileAttributes FileInfo) FILE_ATTRIBUTE_REPARSE_POINT &&
  ((dwReserved0 FileInfo =? IO_REPARSE_TAG_MOUNT_POINT) ||
   (dwReserved0 FileInfo =? IO_REPARSE_TAG_SYMLINK)).

(** "Check if this object should be recursed into." *)
Definition ShouldRecurse (MatchFlags : DWORD) (RecursePhase : bool)
    (FileInfo : WIN32_FIND_DATA) : bool :=
  negb (IsDotFile FileInfo) && IsDirectory FileInfo && RecursePhase &&
  negb (EntryIsLink MatchFlags FileInfo).

(** The contents of [RecurseCriteria] when the recursive call is made. *)
Definition BuildRecurseCriteria (ctx : YORILIB_FOREACHFILE_CONTEXT)
    (MatchFlags : DWORD) (FileInfo : WIN32_FIND_DATA) : YORI_STRING :=
  (if FinalSlashFound ctx
   then firstn (CharsToFinalSlash ctx) (EffectiveFileSpec ctx)
   else []) ++
  cFileName FileInfo ++ _T "\" ++
  (if FlagTest MatchFlags YORILIB_FILEENUM_RECURSE_PRESERVE_WILD then
     if FinalSlashFound ctx
     then skipn (CharsToFinalSlash ctx) (EffectiveFileSpec ctx)
     else EffectiveFileSpec ctx
   else _T "*").

Section Body.

(** The function that the recursive call at the end of "Check if this
    object should be recursed into" reaches. *)
Variable self : Recursion World.

(** One pass through the body of the [do] loop.  The boolean is [true]
    when the loop goes on to its condition and [false] when the body left
    it through [break] with [Result = FALSE]. *)
Definition EnumEntry (ctx : YORILIB_FOREACHFILE_CONTEXT) (MatchFlags Depth : DWORD)
    (RecursePhase : bool) (FileInfo : WIN32_FIND_DATA) (w : World) : Outcome World :=
  let ReportObject := ShouldReportObject MatchFlags FileInfo in
  let recursed :=
    if ShouldRecurse MatchFlags RecursePhase FileInfo then
      self (BuildRecurseCriteria ctx MatchFlags FileInfo) MatchFlags (u32 (Depth + 1)) w
    else Some (true, w) in
  match recursed with
  | None => None
  | Some (false, w1) => Some (false, w1)
  | Some (true, w1) =>
      if ReportObject && negb RecursePhase then
        let FullPath := ParentFullPath ctx ++ _T "\" ++ cFileName FileInfo in
        let (ok, w2) := Callback FullPath FileInfo Depth w1 in
        if negb ok then Some (false, w2)
        else if YoriLibIsOperationCancelled w2 then Some (false, w2)
        else Some (true, w2)
      else Some (true, w1)
  end.

(** The [do ... while] loop over the entries of one find handle.
    [Remaining] is what [FindNextFile] still delivers; it is empty for a
    [NULL] handle.  The result carries [Result] and the last [FileInfo]. *)
Fixpoint FindLoop (ctx : YORILIB_FOREACHFILE_CONTEXT) (MatchFlags Depth : DWORD)
    (RecursePhase : bool) (FileInfo : WIN32_FIND_DATA)
    (Remaining : list WIN32_FIND_DATA) (w : World)
    : option (bool * World * WIN32_FIND_DATA) :=
  match EnumEntry ctx MatchFlags Depth RecursePhase FileInfo w with
  | None => None
  | Some (false, w1) => Some (false, w1, FileInfo)
  | Some (true, w1) =>
      match Remaining with
      | [] => Some (true, w1, FileInfo)
      | next :: Remaining' =>
          FindLoop ctx MatchFlags Depth RecursePhase next Remaining' w1
      end
  end.

Definition RemainingEntries (hFind : HANDLE) : list WIN32_FIND_DATA :=
  match hFind with
  | OpenHandle Remaining => Remaining
  | _ => []
  end.

(** The phase loop, from [CurrentPhase] on; [PhasesLeft] is
    [NumberPhases - CurrentPhase]. *)
Fixpoint PhaseLoop (PhasesLeft : nat) (ctx : YORILIB_FOREACHFILE_CONTEXT)
    (MatchFlags Depth : DWORD) (CurrentPhase : nat)
    (FileInfo : WIN32_FIND_DATA) (w : World) : Outcome World :=
  match PhasesLeft with
  | O => Some (true, w)
  | S PhasesLeft' =>
      let RecursePhase := IsRecursePhase MatchFlags CurrentPhase in
      match OpenFind ctx MatchFlags RecursePhase FileInfo w with
      | (INVALID_HANDLE_VALUE LastError, FileInfo1) =>
          match ErrorCallback with
          | Some ec =>
              let (ok, w1) :=
                ec (SearchPath ctx MatchFlags RecursePhase) LastError Depth w in
              Some (ok, w1)
          | None =>
              PhaseLoop PhasesLeft' ctx MatchFlags Depth (S CurrentPhase) FileInfo1 w
          end
      | (hFind, FileInfo1) =>
          match FindLoop ctx MatchFlags Depth RecursePhase FileInfo1
                         (RemainingEntries hFind) w with
          | None => None
          | Some (false, w1, _) => Some (false, w1)
          | Some (true, w1, FileInfo2) =>
              PhaseLoop PhasesLeft' ctx MatchFlags Depth (S CurrentPhase) FileInfo2 w1
          end
      end
  end.

Definition CountPhases (MatchFlags : DWORD) : nat :=
  if FlagTest MatchFlags RecurseMask then 2%nat else 1%nat.

(** The body of [YoriLibForEachFileEnum]. *)
Definition EnumBody (FileSpec : YORI_STRING) (MatchFlags Depth : DWORD)
    (w : World) : Outcome World :=
  let Effective := TrimFilePrefix FileSpec in
  match FirstLevelFileSpec FileSpec Effective MatchFlags Depth w with
  | None => Some (false, w)
  | Some Effective =>
      let (Chars, Found) := FindFinalSlash Effective (length Effective) in
      match ResolveParentFullPath Effective Chars Found w with
      | None => Some (false, w)
      | Some Parent =>
          let ctx := {| EffectiveFileSpec := Effective;
                        ParentFullPath := TrimParentFullPath Parent;
                        NumberPhases := CountPhases MatchFlags;
                        CharsToFinalSlash := Chars;
                        FinalSlashFound := Found |} in
          PhaseLoop (NumberPhases ctx) ctx MatchFlags Depth 0 (YoriLibMalloc w) w
      end
  end.

End Body.

(** [fuel] bounds the depth of the recursion into subdirectories. *)
Fixpoint YoriLibForEachFileEnum (fuel : nat) (FileSpec : YORI_STRING)
    (MatchFlags Depth : DWORD) (w : World) : Outcome World :=
  match fuel with
  | O => None
  | S fuel' => EnumBody (YoriLibForEachFileEnum fuel') FileSpec MatchFlags Depth w
  end.

End Enumerator.

(** [g] returns whatever [f] returns: it only differs where [f] exceeds
    its recursion budget. *)
Definition Refines {World : Type} (f g : Recursion World) : Prop :=
  forall FileSpec MatchFlags Depth w r,
    f FileSpec MatchFlags Depth w = Some r -> g FileSpec MatchFlags Depth w = Some r.

(** The record cooked up for a volume root: the previous contents of
    [FileInfo] with the attributes, times and size that the query gave,
    and empty names. *)
Definition VolumeRootRecord (FileInfo : WIN32_FIND_DATA)
    (Information : BY_HANDLE_FILE_INFORMATION) : WIN32_FIND_DATA :=
  {| dwFileAttributes := bh_dwFileAttributes Information;
     ftCreationTime := bh_ftCreationTime Information;
     ftLastAccessTime := bh_ftLastAccessTime Information;
     ftLastWriteTime := bh_ftLastWriteTime Information;
     nFileSizeHigh := bh_nFileSizeHigh Information;
     nFileSizeLow := bh_nFileSizeLow Information;
     dwReserved0 := dwReserved0 FileInfo;
     dwReserved1 := dwReserved1 FileInfo;
     cFileName := [];
     cAlternateFileName := [] |}.

(* ================================================================== *)
(** * The pattern expander, [YoriLibForEachFile] *)

Section Expander.
Context {World : Type} {flags : FileEnumFlags} {os : Platform World}.

Variable Callback : FILE_ENUM_FN (World := World).
Variable ErrorCallback : option (FILE_ENUM_ERROR_FN (World := World)).

Section Body.

(** The targets of the two calls the expander makes: itself, and the
    enumerator. *)
Variable self : Recursion World.
Variable enum : Recursion World.

(** The loop of single character mode.  [MatchValue] is the text from
    [MatchValue.StartOfString] on; its [LengthInChars] is fixed at one, so
    [%y] prints its first character. *)
Fixpoint SingleCharLoop (BeforeOperator AfterOperator : YORI_STRING)
    (MatchFlags Depth : DWORD) (LengthAllocated : nat) (MatchValue : YORI_STRING)
    (w : World) : Outcome World :=
  let NewFileSpec := BeforeOperator ++ firstn 1 MatchValue ++ AfterOperator in
  match self NewFileSpec MatchFlags Depth w with
  | None => None
  | Some (false, w1) => Some (false, w1)
  | Some (true, w1) =>
      match LengthAllocated with
      | S (S _ as LengthAllocated') =>
          SingleCharLoop BeforeOperator AfterOperator MatchFlags Depth
                         LengthAllocated' (tl MatchValue) w1
      | _ => Some (true, w1)
      end
  end.

(** The loop over the comma separated values of a brace operator.  Every
    iteration shortens [SubstituteValues], so [fuel] at least its length is
    enough. *)
Fixpoint BraceLoop (fuel : nat) (BeforeOperator AfterOperator : YORI_STRING)
    (MatchFlags Depth : DWORD) (SubstituteValues : YORI_STRING)
    (w : World) : Outcome World :=
  let CharsToOperator := YoriLibCountStringNotContainingChars SubstituteValues (_T ",") in
  let MatchValue := firstn CharsToOperator SubstituteValues in
  let NewFileSpec := BeforeOperator ++ MatchValue ++ AfterOperator in
  match self NewFileSpec MatchFlags Depth w with
  | None => None
  | Some (false, w1) => Some (false, w1)
  | Some (true, w1) =>
      if (length SubstituteValues <=? CharsToOperator + 1)%nat then Some (true, w1)
      else
        match fuel with
        | O => None
        | S fuel' =>
            BraceLoop fuel' BeforeOperator AfterOperator MatchFlags Depth
                      (skipn (CharsToOperator + 1) SubstituteValues) w1
        end
  end.

Definition ExpandBody (FileSpec : YORI_STRING) (MatchFlags Depth : DWORD)
    (w : World) : Outcome World :=
  if FlagTest MatchFlags YORILIB_FILEENUM_BASIC_EXPANSION then
    enum FileSpec MatchFlags Depth w
  else
    let CharsToOperator := YoriLibCountStringNotContainingChars FileSpec (_T "{[") in
    if (CharsToOperator =? length FileSpec)%nat then
      match YoriLibExpandHomeDirectories FileSpec w with
      | Some NewFileSpec => enum NewFileSpec MatchFlags Depth w
      | None => enum FileSpec MatchFlags Depth w
      end
    else
      let SingleCharMode := tchar_eqb (CharAt FileSpec CharsToOperator) "["%char in
      let BeforeOperator := firstn CharsToOperator FileSpec in
      let SubstituteValues := skipn (CharsToOperator + 1) FileSpec in
      let CharsToOperator :=
        YoriLibCountStringNotContainingChars SubstituteValues
          (if SingleCharMode then _T "]" else _T "}") in
      if (CharsToOperator =? length SubstituteValues)%nat then
        enum FileSpec MatchFlags Depth w
      else
        let AfterOperator := skipn (CharsToOperator + 1) SubstituteValues in
        if SingleCharMode then
          SingleCharLoop BeforeOperator AfterOperator MatchFlags Depth
                         CharsToOperator SubstituteValues w
        else
          BraceLoop CharsToOperator BeforeOperator AfterOperator MatchFlags Depth
                    (firstn CharsToOperator SubstituteValues) w.

End Body.

(** [fuel] bounds the nesting of calls: those of the expander to itself and
    those of the enumerator into subdirectories. *)
Fixpoint YoriLibForEachFile (fuel : nat) (FileSpec : YORI_STRING)
    (MatchFlags Depth : DWORD) (w : World) : Outcome World :=
  match fuel with
  | O => None
  | S fuel' =>
      ExpandBody (YoriLibForEachFile fuel')
                 (YoriLibForEachFileEnum Callback ErrorCallback fuel')
                 FileSpec MatchFlags Depth w
  end.

End Expander.

(* ================================================================== *)
(** * Relations between values of [MatchFlags] *)

Section FlagRelations.
Context {flags : FileEnumFlags}.

(** Both recursion flags are set. *)
Definition BothRecurseFlags (MatchFlags : DWORD) : Prop :=
  Z.land MatchFlags YORILIB_FILEENUM_RECURSE_AFTER_RETURN
    = YORILIB_FILEENUM_RECURSE_AFTER_RETURN /\
  Z.land MatchFlags YORILIB_FILEENUM_RECURSE_BEFORE_RETURN
    = YORILIB_FILEENUM_RECURSE_BEFORE_RETURN.

(** [YORILIB_FILEENUM_RECURSE_BEFORE_RETURN] is set and
    [YORILIB_FILEENUM_RECURSE_AFTER_RETURN] is not. *)
Definition OnlyRecurseBefore (MatchFlags : DWORD) : Prop :=
  FlagTest MatchFlags YORILIB_FILEENUM_RECURSE_BEFORE_RETURN = true /\
  FlagTest MatchFlags YORILIB_FILEENUM_RECURSE_AFTER_RETURN = false.

(** The two values agree on every flag that is not a recursion order. *)
Definition SameOtherFlags (Flags1 Flags2 : DWORD) : Prop :=
  Forall (fun Mask => FlagTest Flags1 Mask = FlagTest Flags2 Mask)
    [YORILIB_FILEENUM_RETURN_FILES;
     YORILIB_FILEENUM_RETURN_DIRECTORIES;
     YORILIB_FILEENUM_DIRECTORY_CONTENTS;
     YORILIB_FILEENUM_RECURSE_PRESERVE_WILD;
     YORILIB_FILEENUM_INCLUDE_DOTFILES;
     YORILIB_FILEENUM_NO_LINK_TRAVERSE;
     YORILIB_FILEENUM_BASIC_EXPANSION].

End FlagRelations.

(* ================================================================== *)
(** * The path decomposition of [path/path.c] *)

Module Path.

(** In [path.c] every component is a [YORI_STRING] that points into the
    buffer of [EntireNaturalPath].  Such a string is modelled by the offset
    of [StartOfString] in that buffer ([None] for [NULL]) and by
    [LengthInChars].  Lengths and indexes are [YORI_ALLOC_SIZE_T], taken to
    be 32 bits wide as the [DWORD] lengths of [fileenum.c]. *)
Record YORI_STRING_SLICE := {
  StartOfString : option Z;
  LengthInChars : Z
}.

(** [YoriLibInitEmptyString] / [ZeroMemory]. *)
Definition EmptySlice : YORI_STRING_SLICE :=
  {| StartOfString := None; LengthInChars := 0 |}.

Definition WithLength (s : YORI_STRING_SLICE) (n : Z) : YORI_STRING_SLICE :=
  {| StartOfString := StartOfString s; LengthInChars := n |}.

Record YORI_PATH_COMPONENTS := {
  EntireNaturalPath : YORI_STRING_SLICE;
  EntirePathWithoutTrailingSlash : YORI_STRING_SLICE;
  Extension : YORI_STRING_SLICE;
  BaseName : YORI_STRING_SLICE;
  FullFileName : YORI_STRING_SLICE;
  PathFromRoot : YORI_STRING_SLICE;
  DriveLetter : YORI_STRING_SLICE;
  ShareName : YORI_STRING_SLICE;
  ParentName : YORI_STRING_SLICE
}.

(** [buf[i]] for an index held in a [YORI_ALLOC_SIZE_T]. *)
Definition At (buf : YORI_STRING) (i : Z) : TCHAR := CharAt buf (Z.to_nat i).

(** The characters a component denotes: what [PathExpandVariables] copies. *)
Definition Text (buf : YORI_STRING) (s : YORI_STRING_SLICE) : YORI_STRING :=
  match StartOfString s with
  | None => []
  | Some start => firstn (Z.to_nat (LengthInChars s)) (skipn (Z.to_nat start) buf)
  end.

Definition IsBackslash (c : TCHAR) : bool := tchar_eqb c "\"%char.

Section Decompose.

(** The buffer [YoriLibUserStringToSingleFilePath] returned; it stays as it
    is, only the lengths of the components change. *)
Variable buf : YORI_STRING.

(** The two loops that remove trailing slashes: [Length] is the
    [LengthInChars] being shortened, [Limit] is the index the loop stops
    above. *)
Fixpoint StripTrailingSlashes (fuel : nat) (Limit Length CharIndex : Z) : Z :=
  match fuel with
  | O => Length
  | S fuel' =>
      if CharIndex >? Limit then
        if IsBackslash (At buf CharIndex) then
          let Length := u32 (Length - 1) in
          if CharIndex =? 0 then Length
          else StripTrailingSlashes fuel' Limit Length (u32 (CharIndex - 1))
        else Length
      else Length
  end.

(** The string [EntireNaturalPath] denotes when its length is [Length]. *)
Definition Entire (Length : Z) : YORI_STRING := firstn (Z.to_nat Length) buf.

Definition KeepTrailingSlashesBefore (UseLongPath : bool) (Length : Z) : Z :=
  if UseLongPath then
    if YoriLibIsPrefixedDriveLetterWithColonAndSlash (Entire Length) then 7 else 0
  else
    if YoriLibIsDriveLetterWithColonAndSlash (Entire Length) then 3 else 0.

(** "Count backwards to find the file name and extension". *)
Fixpoint ScanFileName (fuel : nat) (Length CharIndex : Z)
    (ExtensionFound FileComponentFound : bool)
    (pc : YORI_PATH_COMPONENTS) : YORI_PATH_COMPONENTS :=
  match fuel with
  | O => pc
  | S fuel' =>
      let found_dot :=
        tchar_eqb (At buf CharIndex) "."%char &&
        negb FileComponentFound && negb ExtensionFound in
      let ExtensionFound := if found_dot then true else ExtensionFound in
      let pc :=
        if found_dot then
          {| EntireNaturalPath := EntireNaturalPath pc;
             EntirePathWithoutTrailingSlash := EntirePathWithoutTrailingSlash pc;
             Extension := {| StartOfString := Some (u32 (CharIndex + 1));
                             LengthInChars := u32 (Length - CharIndex - 1) |};
             BaseName := BaseName pc;
             FullFileName := FullFileName pc;
             PathFromRoot := PathFromRoot pc;
             DriveLetter := DriveLetter pc;
             ShareName := ShareName pc;
             ParentName := ParentName pc |}
        else pc in
      if IsBackslash (At buf CharIndex) && negb FileComponentFound then
        let File := {| StartOfString := Some (u32 (CharIndex + 1));
                       LengthInChars := u32 (Length - CharIndex - 1) |} in
        let Base :=
          match StartOfString (Extension pc) with
          | Some _ =>
              WithLength File
                (u32 (LengthInChars File - u32 (LengthInChars (Extension pc) + 1)))
          | None => File
          end in
        {| EntireNaturalPath := EntireNaturalPath pc;
           EntirePathWithoutTrailingSlash := EntirePathWithoutTrailingSlash pc;
           Extension := Extension pc;
           BaseName := Base;
           FullFileName := File;
           PathFromRoot := PathFromRoot pc;
           DriveLetter := DriveLetter pc;
           ShareName := ShareName pc;
           ParentName := {| StartOfString := Some 0; LengthInChars := CharIndex |} |}
      else if CharIndex =? 0 then pc
      else ScanFileName fuel' Length (u32 (CharIndex - 1))
                        ExtensionFound FileComponentFound pc
  end.

(** The [for] loop that walks over the server and the share name, from
    [CharIndex] on; the result is the index it stops at and
    [EndOfServerNameFound]. *)
Fixpoint ScanShare (fuel : nat) (CharIndex : Z) (EndOfServerNameFound : bool)
    : Z * bool :=
  match fuel with
  | O => (CharIndex, EndOfServerNameFound)
  | S fuel' =>
      if negb (tchar_eqb (At buf CharIndex) NUL) then
        if IsBackslash (At buf CharIndex) then
          if negb EndOfServerNameFound
          then ScanShare fuel' (u32 (CharIndex + 1)) true
          else (CharIndex, EndOfServerNameFound)
        else ScanShare fuel' (u32 (CharIndex + 1)) EndOfServerNameFound
      else (CharIndex, EndOfServerNameFound)
  end.

(** The block both UNC cases share, after their [for] loop. *)
Definition SetShare (CharIndex : Z) (EndOfServerNameFound : bool)
    (pc : YORI_PATH_COMPONENTS) : YORI_PATH_COMPONENTS :=
  if negb (tchar_eqb (At buf CharIndex) NUL) || EndOfServerNameFound then
    let Share := {| StartOfString := Some 0; LengthInChars := CharIndex |} in
    let EntireLength := LengthInChars (EntireNaturalPath pc) in
    let FileLength := LengthInChars (FullFileName pc) in
    if u32 (LengthInChars Share + FileLength) <? EntireLength then
      {| EntireNaturalPath := EntireNaturalPath pc;
         EntirePathWithoutTrailingSlash := EntirePathWithoutTrailingSlash pc;
         Extension := Extension pc;
         BaseName := BaseName pc;
         FullFileName := FullFileName pc;
         PathFromRoot :=
           {| StartOfString := Some CharIndex;
              LengthInChars :=
                u32 (EntireLength - LengthInChars Share - FileLength - 1) |};
         DriveLetter := DriveLetter pc;
         ShareName := Share;
         ParentName := ParentName pc |}
    else if u32 (LengthInChars Share + FileLength) >? EntireLength then
      {| EntireNaturalPath := EntireNaturalPath pc;
         EntirePathWithoutTrailingSlash := EntirePathWithoutTrailingSlash pc;
         Extension := WithLength (Extension pc) 0;
         BaseName := WithLength (BaseName pc) 0;
         FullFileName := WithLength (FullFileName pc) 0;
         PathFromRoot := PathFromRoot pc;
         DriveLetter := DriveLetter pc;
         ShareName := Share;
         ParentName := ParentName pc |}
    else
      {| EntireNaturalPath := EntireNaturalPath pc;
         EntirePathWithoutTrailingSlash := EntirePathWithoutTrailingSlash pc;
         Extension := Extension pc;
         BaseName := BaseName pc;
         FullFileName := FullFileName pc;
         PathFromRoot := PathFromRoot pc;
         DriveLetter := DriveLetter pc;
         ShareName := Share;
         ParentName := ParentName pc |}
  else pc.

(** The block both drive letter cases share: the letter is at [LetterAt],
    the path from the root starts at [RootAt]. *)
Definition SetDrive (LetterAt RootAt : Z) (pc : YORI_PATH_COMPONENTS)
    : YORI_PATH_COMPONENTS :=
  let EntireLength := LengthInChars (EntireNaturalPath pc) in
  let FromRoot := u32 (EntireLength - RootAt) in
  let FromRoot :=
    match StartOfString (FullFileName pc) with
    | Some _ => u32 (FromRoot - u32 (LengthInChars (FullFileName pc) + 1))
    | None => FromRoot
    end in
  {| EntireNaturalPath := EntireNaturalPath pc;
     EntirePathWithoutTrailingSlash := EntirePathWithoutTrailingSlash pc;
     Extension := Extension pc;
     BaseName := BaseName pc;
     FullFileName := FullFileName pc;
     PathFromRoot := {| StartOfString := Some RootAt; LengthInChars := FromRoot |};
     DriveLetter := {| StartOfString := Some LetterAt; LengthInChars := 1 |};
     ShareName := ShareName pc;
     ParentName := ParentName pc |}.

(** "Count forwards to find the drive letter or share"; [None] is the
    [return EXIT_FAILURE] of a long path shorter than its prefix. *)
Definition ScanVolume (UseLongPath : bool) (pc : YORI_PATH_COMPONENTS)
    : option YORI_PATH_COMPONENTS :=
  let EntireLength := LengthInChars (EntireNaturalPath pc) in
  if UseLongPath then
    if EntireLength <? 4 then None
    else
      let PathAfterPrefix := firstn (Z.to_nat (u32 (EntireLength - 4))) (skipn 4 buf) in
      if YoriLibIsFullPathUnc (Entire EntireLength) then
        let (CharIndex, EndOfServerNameFound) := ScanShare (S (length buf)) 8 false in
        Some (SetShare CharIndex EndOfServerNameFound pc)
      else if YoriLibIsDriveLetterWithColonAndSlash PathAfterPrefix then
        Some (SetDrive 4 6 pc)
      else Some pc
  else
    if YoriLibIsDriveLetterWithColonAndSlash (Entire EntireLength) then
      Some (SetDrive 0 2 pc)
    else if IsBackslash (At buf 0) || IsBackslash (At buf 1) then
      let (CharIndex, EndOfServerNameFound) := ScanShare (S (length buf)) 2 false in
      Some (SetShare CharIndex EndOfServerNameFound pc)
    else Some pc.

(** The components after the trailing slashes are removed. *)
Definition StripPath (UseLongPath : bool) : YORI_PATH_COMPONENTS :=
  let Length := Z.of_nat (length buf) in
  let Keep := KeepTrailingSlashesBefore UseLongPath Length in
  let Length := StripTrailingSlashes (length buf) Keep Length (u32 (Length - 1)) in
  let NoSlash := StripTrailingSlashes (length buf) 0 Length (u32 (Length - 1)) in
  {| EntireNaturalPath := {| StartOfString := Some 0; LengthInChars := Length |};
     EntirePathWithoutTrailingSlash := {| StartOfString := Some 0; LengthInChars := NoSlash |};
     Extension := EmptySlice;
     BaseName := EmptySlice;
     FullFileName := EmptySlice;
     PathFromRoot := EmptySlice;
     DriveLetter := EmptySlice;
     ShareName := EmptySlice;
     ParentName := EmptySlice |}.

(** The components after the scan for the file name and the extension. *)
Definition FileNameScan (UseLongPath : bool) : YORI_PATH_COMPONENTS :=
  let pc := StripPath UseLongPath in
  let Length := LengthInChars (EntireNaturalPath pc) in
  ScanFileName (length buf) Length (u32 (Length - 1)) false false pc.

(** The decomposition the entry point performs between
    [YoriLibUserStringToSingleFilePath] and the expansion of the format
    string. *)
Definition Decompose (UseLongPath : bool) : option YORI_PATH_COMPONENTS :=
  ScanVolume UseLongPath (FileNameScan UseLongPath).

End Decompose.

End Path.

(* ================================================================== *)
(** * Notions used to state further properties *)

(** The character is [*], which no upcasing changes. *)
Definition IsStar (c : TCHAR) : bool := tchar_eqb (YoriLibUpcaseChar c) "*"%char.

(** Calling [self] on each file specification in turn, as the loops of the
    expander do: the first call that returns [FALSE] ends the sequence with
    [FALSE], and the sequence returns [TRUE] when every call did. *)
Fixpoint CallEach {World : Type} (self : Recursion World)
    (FileSpecs : list YORI_STRING) (MatchFlags Depth : DWORD) (w : World)
    : Outcome World :=
  match FileSpecs with
  | [] => Some (true, w)
  | FileSpec :: FileSpecs' =>
      match self FileSpec MatchFlags Depth w with
      | None => None
      | Some (false, w1) => Some (false, w1)
      | Some (true, w1) => CallEach self FileSpecs' MatchFlags Depth w1
      end
  end.

(** What the two kinds of phase do with a listing, in the words of the
    specification.  A recurse phase calls [self] on the recurse criteria of
    every entry that is to be recursed into, in the order of the listing,
    at the next depth. *)
Definition RecurseEach {World : Type} {flags : FileEnumFlags}
    (self : Recursion World) (ctx : YORILIB_FOREACHFILE_CONTEXT)
    (MatchFlags Depth : DWORD) (Entries : list WIN32_FIND_DATA) (w : World)
    : Outcome World :=
  CallEach self
    (map (BuildRecurseCriteria ctx MatchFlags)
         (filter (ShouldRecurse MatchFlags true) Entries))
    MatchFlags (u32 (Depth + 1)) w.

(** A report phase hands every entry that passes the filters to the
    callback, in the order of the listing, with its full path; it ends with
    [FALSE] at the first entry for which the callback returns [FALSE] or
    after which the operation is cancelled. *)
Fixpoint ReportEach {World : Type} {flags : FileEnumFlags} {os : Platform World}
    (Callback : FILE_ENUM_FN (World := World)) (ctx : YORILIB_FOREACHFILE_CONTEXT)
    (MatchFlags Depth : DWORD) (Entries : list WIN32_FIND_DATA) (w : World)
    : bool * World :=
  match Entries with
  | [] => (true, w)
  | FileInfo :: Entries' =>
      if ShouldReportObject MatchFlags FileInfo then
        let (ok, w1) :=
          Callback (ParentFullPath ctx ++ _T "\" ++ cFileName FileInfo)
                   FileInfo Depth w in
        if negb ok then (false, w1)
        else if YoriLibIsOperationCancelled w1 then (false, w1)
        else ReportEach Callback ctx MatchFlags Depth Entries' w1
      else ReportEach Callback ctx MatchFlags Depth Entries' w
  end.

(** The context the enumerator sets up before its phases: the effective
    file specification, where it is split, and the full path of the
    directory.  [None] is one of the early [return FALSE]. *)
Definition EnumeratorContext {World : Type} {flags : FileEnumFlags}
    {os : Platform World} (FileSpec : YORI_STRING) (MatchFlags Depth : DWORD)
    (w : World) : option YORILIB_FOREACHFILE_CONTEXT :=
  match FirstLevelFileSpec FileSpec (TrimFilePrefix FileSpec) MatchFlags Depth w with
  | None => None
  | Some Effective =>
      let (Chars, Found) := FindFinalSlash Effective (length Effective) in
      match ResolveParentFullPath Effective Chars Found w with
      | None => None
      | Some Parent =>
          Some {| EffectiveFileSpec := Effective;
                  ParentFullPath := TrimParentFullPath Parent;
                  NumberPhases := CountPhases MatchFlags;
                  CharsToFinalSlash := Chars;
                  FinalSlashFound := Found |}
      end
  end.

(** The values of a brace operator, written with commas between them. *)
Fixpoint JoinWithComma (Values : list YORI_STRING) : YORI_STRING :=
  match Values with
  | [] => []
  | [Value] => Value
  | Value :: Values' => Value ++ _T "," ++ JoinWithComma Values'
  end.

(** The outcome of a call that started in the world [w] and in which the
    callback was called at most once: either the world is still [w], or
    the call returned [FALSE] in the world that one call of the callback
    left. *)
Definition AtMostOneCall {World : Type} (Callback : FILE_ENUM_FN (World := World))
    (w : World) (o : Outcome World) : Prop :=
  match o with
  | None => True
  | Some (b, w') =>
      w' = w \/
      (b = false /\
       exists FullPath FileInfo Depth, w' = snd (Callback FullPath FileInfo Depth w))
  end.

(** The callback was called at most once in every call of [f]. *)
Definition Stops {World : Type} (Callback : FILE_ENUM_FN (World := World))
    (f : Recursion World) : Prop :=
  forall FileSpec MatchFlags Depth w,
    AtMostOneCall Callback w (f FileSpec MatchFlags Depth w).

(** The two parts the enumerator splits its file specification into: the
    directory, up to and including the final separator, and the search
    pattern after it. *)
Definition DirectoryPrefix (ctx : YORILIB_FOREACHFILE_CONTEXT) : YORI_STRING :=
  if FinalSlashFound ctx
  then firstn (CharsToFinalSlash ctx) (EffectiveFileSpec ctx)
  else [].

Definition SearchPattern (ctx : YORILIB_FOREACHFILE_CONTEXT) : YORI_STRING :=
  if FinalSlashFound ctx
  then skipn (CharsToFinalSlash ctx) (EffectiveFileSpec ctx)
  else EffectiveFileSpec ctx.

(** The entry passes the dot-file and kind filters of [MatchFlags]. *)
Definition PassesFilters {flags : FileEnumFlags} (MatchFlags : DWORD)
    (FileInfo : WIN32_FIND_DATA) : Prop :=
  (IsDotFile FileInfo = true ->
   FlagTest MatchFlags YORILIB_FILEENUM_INCLUDE_DOTFILES = true) /\
  (IsDirectory FileInfo = true ->
   FlagTest MatchFlags YORILIB_FILEENUM_RETURN_DIRECTORIES = true) /\
  (IsDirectory FileInfo = false ->
   FlagTest MatchFlags YORILIB_FILEENUM_RETURN_FILES = true).

(* ================================================================== *)
(** * Example worlds

    The concrete inputs the statements below are evaluated at.  The world is
    the trace of the callbacks made so far, oldest first. *)

Module Examples.

Inductive Event :=
| Reported (FullPath FileName : YORI_STRING) (Depth : DWORD)
| Failed (Path : YORI_STRING) (Error Depth : DWORD).

Definition Trace := list Event.

(** A callback that records the object and asks to go on. *)
Definition RecordObject : FILE_ENUM_FN (World := Trace) :=
  fun FullPath FileInfo Depth w =>
    (true, w ++ [Reported FullPath (cFileName FileInfo) Depth]).

(** An error callback that records the failure and asks to go on. *)
Definition RecordFailure : FILE_ENUM_ERROR_FN (World := Trace) :=
  fun Path Error Depth w => (true, w ++ [Failed Path Error Depth]).

(** Modelled from the spec: [yorilib.h], which gives the
    [YORILIB_FILEENUM_*] masks their values, is not under [src/]; the spec
    describes them as independent bits.  The examples give each flag a bit
    of its own, in the order of the table of the spec. *)
Definition ExampleFlags : FileEnumFlags :=
  {| YORILIB_FILEENUM_RETURN_FILES := 0x1;
     YORILIB_FILEENUM_RETURN_DIRECTORIES := 0x2;
     YORILIB_FILEENUM_DIRECTORY_CONTENTS := 0x4;
     YORILIB_FILEENUM_RECURSE_BEFORE_RETURN := 0x8;
     YORILIB_FILEENUM_RECURSE_AFTER_RETURN := 0x10;
     YORILIB_FILEENUM_RECURSE_PRESERVE_WILD := 0x20;
     YORILIB_FILEENUM_INCLUDE_DOTFILES := 0x40;
     YORILIB_FILEENUM_NO_LINK_TRAVERSE := 0x80;
     YORILIB_FILEENUM_BASIC_EXPANSION := 0x100 |}.

Definition ERROR_PATH_NOT_FOUND : DWORD := 3.
Definition ERROR_ACCESS_DENIED : DWORD := 5.

Definition ZeroTime : FILETIME := {| dwLowDateTime := 0; dwHighDateTime := 0 |}.

Definition Entry (Attributes ReparseTag : DWORD) (Name : string) : WIN32_FIND_DATA :=
  {| dwFileAttributes := Attributes;
     ftCreationTime := ZeroTime;
     ftLastAccessTime := ZeroTime;
     ftLastWriteTime := ZeroTime;
     nFileSizeHigh := 0;
     nFileSizeLow := 0;
     dwReserved0 := ReparseTag;
     dwReserved1 := 0;
     cFileName := _T Name;
     cAlternateFileName := [] |}.

Definition FILE_ATTRIBUTE_NORMAL : DWORD := 0x80.

Definition FileEntry (Name : string) : WIN32_FIND_DATA :=
  Entry FILE_ATTRIBUTE_NORMAL 0 Name.
Definition DirectoryEntry (Name : string) : WIN32_FIND_DATA :=
  Entry FILE_ATTRIBUTE_DIRECTORY 0 Name.
Definition SymlinkEntry (Name : string) : WIN32_FIND_DATA :=
  Entry (Z.lor FILE_ATTRIBUTE_DIRECTORY FILE_ATTRIBUTE_REPARSE_POINT)
        IO_REPARSE_TAG_SYMLINK Name.

Definition VolumeInformation : BY_HANDLE_FILE_INFORMATION :=
  {| bh_dwFileAttributes := FILE_ATTRIBUTE_DIRECTORY;
     bh_ftCreationTime := {| dwLowDateTime := 11; dwHighDateTime := 12 |};
     bh_ftLastAccessTime := {| dwLowDateTime := 21; dwHighDateTime := 22 |};
     bh_ftLastWriteTime := {| dwLowDateTime := 31; dwHighDateTime := 32 |};
     bh_nFileSizeHigh := 0;
     bh_nFileSizeLow := 4096 |}.

(** A file system given by its directory listings: the current directory
    is [C:\r], paths with a drive letter are already full, and nobody has a
    home directory to expand. *)
Definition FileSystem
    (listing : YORI_STRING -> DWORD + (WIN32_FIND_DATA * list WIN32_FIND_DATA))
    (query : YORI_STRING -> DWORD + BY_HANDLE_FILE_INFORMATION)
    : Platform Trace :=
  {| FindFirstFile := fun Path _ => listing Path;
     GetFileAttributes := fun _ _ => INVALID_FILE_ATTRIBUTES;
     OpenAndQueryFile := fun Path _ => query Path;
     YoriLibGetFullPathNameReturnAllocation := fun Path _ =>
       Some (if string_eqb Path (_T ".") then _T "C:\r"
             else if YoriLibIsDriveLetterWithColon Path then Path
             else _T "C:\r\" ++ Path);
     YoriLibExpandHomeDirectories := fun _ _ => None;
     YoriLibIsOperationCancelled := fun _ => false;
     YoriLibMalloc := fun _ => Entry 0 0 "";
     YoriLibSPrintfS := fun Size String => firstn (Size - 1) String |}.

(** Nothing can be listed or opened. *)
Definition Inaccessible : Platform Trace :=
  FileSystem (fun _ => inl ERROR_ACCESS_DENIED) (fun _ => inl ERROR_ACCESS_DENIED).

(** A directory [a[b]] that holds [x.txt], next to a file [y.txt]. *)
Definition BracketDirectory : Platform Trace :=
  FileSystem
    (fun Path =>
       if string_eqb Path (_T "C:\r\*") then
         inr (DirectoryEntry ".", [DirectoryEntry ".."; DirectoryEntry "a[b]"; FileEntry "y.txt"])
       else if string_eqb Path (_T "C:\r\a[b]\*") then
         inr (DirectoryEntry ".", [DirectoryEntry ".."; FileEntry "x.txt"])
       else inl ERROR_PATH_NOT_FOUND)
    (fun _ => inl ERROR_PATH_NOT_FOUND).

(** The listing of the current directory in [BracketDirectory]. *)
Definition CurrentDirectoryListing : list WIN32_FIND_DATA :=
  [DirectoryEntry "."; DirectoryEntry ".."; DirectoryEntry "a[b]"; FileEntry "y.txt"].

(** A volume whose root cannot be listed but can be opened. *)
Definition VolumeRoot : Platform Trace :=
  FileSystem (fun _ => inl ERROR_ACCESS_DENIED)
             (fun Path => if string_eqb Path (_T "C:\") then inr VolumeInformation
                          else inl ERROR_PATH_NOT_FOUND).

(** A file with a named stream that can be opened. *)
Definition StreamFile : Platform Trace :=
  FileSystem (fun _ => inl ERROR_PATH_NOT_FOUND)
             (fun Path => if string_eqb Path (_T "C:\r\a.txt:s")
                          then inr VolumeInformation
                          else inl ERROR_PATH_NOT_FOUND).

(** The same volume under its long name. *)
Definition LongVolumeRoot : Platform Trace :=
  FileSystem (fun _ => inl ERROR_ACCESS_DENIED)
             (fun Path => if string_eqb Path (_T "\\?\C:\") then inr VolumeInformation
                          else inl ERROR_PATH_NOT_FOUND).

(** A directory with a file and with a symbolic link to a directory. *)
Definition LinkedDirectory : Platform Trace :=
  FileSystem
    (fun Path =>
       if string_eqb Path (_T "C:\r\*") then
         inr (SymlinkEntry "linked", [FileEntry "a.txt"])
       else if string_eqb Path (_T "C:\r\linked\*") then
         inr (FileEntry "c.txt", [])
       else inl ERROR_PATH_NOT_FOUND)
    (fun _ => inl ERROR_PATH_NOT_FOUND).

(** A callback that refuses the entries [.] and [..] and records the
    others. *)
Definition RefuseDots : FILE_ENUM_FN (World := Trace) :=
  fun FullPath FileInfo Depth w =>
    if IsDotFile FileInfo then (false, w)
    else (true, w ++ [Reported FullPath (cFileName FileInfo) Depth]).

(** A callback that records the object and asks to stop. *)
Definition RefuseAll : FILE_ENUM_FN (World := Trace) :=
  fun FullPath FileInfo Depth w =>
    (false, w ++ [Reported FullPath (cFileName FileInfo) Depth]).

(** Combinations of flags. *)
Definition FILES_RECURSE_BEFORE : DWORD :=
  Z.lor (@YORILIB_FILEENUM_RETURN_FILES ExampleFlags)
        (@YORILIB_FILEENUM_RECURSE_BEFORE_RETURN ExampleFlags).

Definition FILES_RECURSE_BOTH : DWORD :=
  Z.lor FILES_RECURSE_BEFORE (@YORILIB_FILEENUM_RECURSE_AFTER_RETURN ExampleFlags).

Definition FILES_RECURSE_BEFORE_NO_LINKS : DWORD :=
  Z.lor FILES_RECURSE_BEFORE (@YORILIB_FILEENUM_NO_LINK_TRAVERSE ExampleFlags).

Definition FILES_AND_DIRECTORIES : DWORD :=
  Z.lor (@YORILIB_FILEENUM_RETURN_FILES ExampleFlags)
        (@YORILIB_FILEENUM_RETURN_DIRECTORIES ExampleFlags).

(** The contexts the enumerator builds for [*], for [d\*] and for [C:\]
    when the current directory is [C:\r]. *)
Definition StarContext : YORILIB_FOREACHFILE_CONTEXT :=
  {| EffectiveFileSpec := _T "*";
     ParentFullPath := _T "C:\r";
     NumberPhases := 2;
     CharsToFinalSlash := 0;
     FinalSlashFound := false |}.

Definition SubdirectoryContext : YORILIB_FOREACHFILE_CONTEXT :=
  {| EffectiveFileSpec := _T "d\*";
     ParentFullPath := _T "C:\r\d";
     NumberPhases := 2;
     CharsToFinalSlash := 2;
     FinalSlashFound := true |}.

Definition RootContext : YORILIB_FOREACHFILE_CONTEXT :=
  {| EffectiveFileSpec := _T "C:\";
     ParentFullPath := _T "C:";
     NumberPhases := 1;
     CharsToFinalSlash := 3;
     FinalSlashFound := true |}.

(** The context for [\\?\C:\]. *)
Definition LongRootContext : YORILIB_FOREACHFILE_CONTEXT :=
  {| EffectiveFileSpec := _T "\\?\C:\";
     ParentFullPath := _T "\\?\C:";
     NumberPhases := 1;
     CharsToFinalSlash := 7;
     FinalSlashFound := true |}.

(** Paths for the decomposition, with their components. *)
Definition UncSharePath : YORI_STRING := _T "\\?\UNC\srv\share".
Definition LongDrivePath : YORI_STRING := _T "\\?\C:\a\b.txt".
Definition ShortDrivePath : YORI_STRING := _T "C:\a\b.txt".

Definition ComponentsOf (buf : YORI_STRING) (UseLongPath : bool)
    : Path.YORI_PATH_COMPONENTS :=
  match Path.Decompose buf UseLongPath with
  | Some pc => pc
  | None => Path.StripPath buf UseLongPath
  end.

Definition UncShareComponents : Path.YORI_PATH_COMPONENTS :=
  Eval vm_compute in ComponentsOf UncSharePath true.
Definition LongDriveComponents : Path.YORI_PATH_COMPONENTS :=
  Eval vm_compute in ComponentsOf LongDrivePath true.
Definition ShortDriveComponents : Path.YORI_PATH_COMPONENTS :=
  Eval vm_compute in ComponentsOf ShortDrivePath false.

(** A file on a share, and a drive root with trailing backslashes. *)
Definition ShareFilePath : YORI_STRING := _T "\\srv\share\dir\b.txt".
Definition DriveRootPath : YORI_STRING := _T "C:\\\".

Definition ShareFileComponents : Path.YORI_PATH_COMPONENTS :=
  Eval vm_compute in ComponentsOf ShareFilePath false.

(** Files, and files after the recursion into subdirectories. *)
Definition FILES_ONLY : DWORD := @YORILIB_FILEENUM_RETURN_FILES ExampleFlags.

Definition FILES_RECURSE_AFTER : DWORD :=
  Z.lor (@YORILIB_FILEENUM_RETURN_FILES ExampleFlags)
        (@YORILIB_FILEENUM_RECURSE_AFTER_RETURN ExampleFlags).

(** The concatenation of the round trip. *)
Definition DriveColonRootFile (buf : YORI_STRING)
    (pc : Path.YORI_PATH_COMPONENTS) : YORI_STRING :=
  Path.Text buf (Path.DriveLetter pc) ++ _T ":" ++
  Path.Text buf (Path.PathFromRoot pc) ++ _T "\" ++
  Path.Text buf (Path.FullFileName pc).

End Examples.

(* ================================================================== *)
(** * Properties of the wildcard matcher *)

Section MatcherFacts.
Import Matcher.

Lemma SkipWild_ge (fuel : nat) (Wildcard : YORI_STRING) (WildIndex : nat) :
  (WildIndex <= SkipWild fuel Wildcard WildIndex)%nat.
Proof.
  revert WildIndex.
  induction fuel as [|fuel IH]; intros WildIndex; simpl; [lia|].
  destruct (WildIndex <? length Wildcard)%nat; [|lia].
  destruct (negb _); [lia|].
  specialize (IH (S WildIndex)); lia.
Qed.

(** The main loop never runs out of fuel when it is given the length of
    the pattern: the matcher always returns. *)
Lemma MatchLoop_returns (fuel : nat) (FileName Wildcard : YORI_STRING) :
  forall FileIndex WildIndex : nat,
    (length Wildcard - WildIndex <= fuel)%nat ->
    exists b, MatchLoop fuel FileName Wildcard FileIndex WildIndex = Some b.
Proof.
  induction fuel as [|fuel IH]; intros FileIndex WildIndex Hfuel.
  - simpl.
    destruct (FileIndex <? length FileName)%nat; simpl; [|eauto].
    destruct (Nat.ltb_spec WildIndex (length Wildcard)); [lia|eauto].
  - simpl.
    destruct (FileIndex <? length FileName)%nat; simpl; [|eauto].
    destruct (Nat.ltb_spec WildIndex (length Wildcard)) as [Hlt|]; [|eauto].
    destruct (tchar_eqb _ "?"%char); [apply IH; lia|].
    destruct (tchar_eqb _ "*"%char).
    + destruct (_ =? length Wildcard)%nat; [eauto|].
      destruct (_ =? length FileName)%nat; [eauto|].
      apply IH.
      pose proof (SkipWild_ge (length Wildcard) Wildcard (S WildIndex)); lia.
    + destruct (negb _); [eauto|]. apply IH; lia.
Qed.

Lemma YoriLibDoesFileMatchExpression_returns (FileName Wildcard : YORI_STRING) :
  exists b, YoriLibDoesFileMatchExpression FileName Wildcard = Some b.
Proof.
  apply MatchLoop_returns; lia.
Qed.

(** C2.  On the name [abc] and the pattern [a*b*c] the matcher answers
    [FALSE]: the character of the name that is current when the loop meets
    a [*] is consumed before the literal after the [*] is looked for, so
    that literal cannot be the very next character of the name. *)
Theorem matcher_abc_against_a_star_b_star_c :
  YoriLibDoesFileMatchExpression (_T "abc") (_T "a*b*c") = Some false.
Proof.
  reflexivity.
Qed.

(** The same loop lets a [*] at the end of the pattern match nothing,
    while a [*] before a literal has to consume a character. *)
Example matcher_star_matches_nothing_only_at_the_end :
  YoriLibDoesFileMatchExpression (_T "a") (_T "a*") = Some true /\
  YoriLibDoesFileMatchExpression (_T "ac") (_T "a*c") = Some false /\
  YoriLibDoesFileMatchExpression (_T "axc") (_T "a*c") = Some true /\
  YoriLibDoesFileMatchExpression (_T "abxbc") (_T "a*b*c") = Some false /\
  YoriLibDoesFileMatchExpression (_T "axbxc") (_T "a*b*c") = Some true.
Proof.
  repeat split.
Qed.

(** C8, as stated: the matcher does not answer [FALSE] for the name [file]
    and the pattern [f??e]. *)
Lemma matcher_file_against_f_qq_e_is_not_false :
  YoriLibDoesFileMatchExpression (_T "file") (_T "f??e") <> Some false.
Proof.
  discriminate.
Qed.

(** C8, amended.  The matcher answers [TRUE] for [file] against [f??e],
    and for every name made of [f], two characters and [e]: each [?]
    consumes one character of the name, whatever it is.  With one or three
    characters between [f] and [e] the answer is [FALSE]. *)
Theorem matcher_question_marks_consume_one_character_each :
  YoriLibDoesFileMatchExpression (_T "file") (_T "f??e") = Some true /\
  (forall c1 c2 : TCHAR,
     YoriLibDoesFileMatchExpression ("f"%char :: c1 :: c2 :: _T "e") (_T "f??e")
     = Some true) /\
  YoriLibDoesFileMatchExpression (_T "fie") (_T "f??e") = Some false /\
  YoriLibDoesFileMatchExpression (_T "fiile") (_T "f??e") = Some false.
Proof.
  repeat split; try reflexivity.
Qed.

End MatcherFacts.

(* ================================================================== *)
(** * Properties of the enumerator *)

Section EnumeratorFacts.
Context {World : Type} {flags : FileEnumFlags} {os : Platform World}.
Variable Callback : FILE_ENUM_FN (World := World).
Variable ErrorCallback : option (FILE_ENUM_ERROR_FN (World := World)).


Lemma EntryIsLink_true (MatchFlags : DWORD) (FileInfo : WIN32_FIND_DATA) :
  FlagTest MatchFlags YORILIB_FILEENUM_NO_LINK_TRAVERSE = true ->
  FlagTest (dwFileAttributes FileInfo) FILE_ATTRIBUTE_REPARSE_POINT = true ->
  dwReserved0 FileInfo = IO_REPARSE_TAG_MOUNT_POINT \/
  dwReserved0 FileInfo = IO_REPARSE_TAG_SYMLINK ->
  EntryIsLink MatchFlags FileInfo = true.
Proof.
  intros Hflag Hattr Htag. unfold EntryIsLink.
  rewrite Hflag, Hattr. simpl.
  destruct Htag as [-> | ->]; reflexivity.
Qed.

Lemma ShouldRecurse_link (MatchFlags : DWORD) (RecursePhase : bool)
    (FileInfo : WIN32_FIND_DATA) :
  EntryIsLink MatchFlags FileInfo = true ->
  ShouldRecurse MatchFlags RecursePhase FileInfo = false.
Proof.
  intros H. unfold ShouldRecurse. rewrite H.
  now rewrite andb_false_r.
Qed.

(** An entry in a recurse phase is never reported. *)
Lemma EnumEntry_recurse_phase (self : Recursion World) (ctx : YORILIB_FOREACHFILE_CONTEXT)
    (MatchFlags Depth : DWORD) (FileInfo : WIN32_FIND_DATA) (w : World) :
  ShouldRecurse MatchFlags true FileInfo = true ->
  EnumEntry Callback self ctx MatchFlags Depth true FileInfo w =
  self (BuildRecurseCriteria ctx MatchFlags FileInfo) MatchFlags (u32 (Depth + 1)) w.
Proof.
  intros H. unfold EnumEntry. rewrite H, andb_false_r.
  destruct (self _ _ _ _) as [[[] ?]|]; reflexivity.
Qed.

(** C4.  With [YORILIB_FILEENUM_NO_LINK_TRAVERSE] set, an entry whose
    attributes have the reparse point bit and whose reparse tag is mount
    point or symlink is not recursed into: the pass of the loop over it
    does not reach the recursive call, whatever the phase.  In a report
    phase the entry is still handed to the callback when it passes the
    dot-file and kind filters. *)
Theorem no_link_traverse_entry_is_not_recursed_into
    (ctx : YORILIB_FOREACHFILE_CONTEXT) (MatchFlags Depth : DWORD)
    (FileInfo : WIN32_FIND_DATA) (w : World) :
  FlagTest MatchFlags YORILIB_FILEENUM_NO_LINK_TRAVERSE = true ->
  FlagTest (dwFileAttributes FileInfo) FILE_ATTRIBUTE_REPARSE_POINT = true ->
  dwReserved0 FileInfo = IO_REPARSE_TAG_MOUNT_POINT \/
  dwReserved0 FileInfo = IO_REPARSE_TAG_SYMLINK ->
  (forall RecursePhase, ShouldRecurse MatchFlags RecursePhase FileInfo = false) /\
  (forall (self1 self2 : Recursion World) RecursePhase,
     EnumEntry Callback self1 ctx MatchFlags Depth RecursePhase FileInfo w =
     EnumEntry Callback self2 ctx MatchFlags Depth RecursePhase FileInfo w) /\
  (forall self : Recursion World,
     EnumEntry Callback self ctx MatchFlags Depth true FileInfo w = Some (true, w)) /\
  (forall self : Recursion World,
     ShouldReportObject MatchFlags FileInfo = true ->
     EnumEntry Callback self ctx MatchFlags Depth false FileInfo w =
     let (ok, w2) :=
       Callback (ParentFullPath ctx ++ _T "\" ++ cFileName FileInfo) FileInfo Depth w in
     if negb ok then Some (false, w2)
     else if YoriLibIsOperationCancelled w2 then Some (false, w2)
     else Some (true, w2)).
Proof.
  intros Hflag Hattr Htag.
  pose proof (EntryIsLink_true _ _ Hflag Hattr Htag) as Hlink.
  assert (Hno : forall RecursePhase,
             ShouldRecurse MatchFlags RecursePhase FileInfo = false)
    by (intros; now apply ShouldRecurse_link).
  repeat split.
  - exact Hno.
  - intros self1 self2 RecursePhase. unfold EnumEntry. now rewrite Hno.
  - intros self. unfold EnumEntry. rewrite Hno. now rewrite andb_false_r.
  - intros self Hreport. unfold EnumEntry. rewrite Hno, Hreport. reflexivity.
Qed.

(** C1, amended.  When the find handle of a phase cannot be opened and the
    error callback returns [TRUE], the phase loop is left at once: the
    phases that remain are not run and the call returns [TRUE] in the world
    the error callback left.  The loop of an outer call that recursed into
    this directory therefore goes on with the next entry. *)
Theorem error_callback_true_ends_the_phase_loop
    (ec : FILE_ENUM_ERROR_FN (World := World)) (self : Recursion World)
    (PhasesLeft : nat) (ctx : YORILIB_FOREACHFILE_CONTEXT)
    (MatchFlags Depth : DWORD) (CurrentPhase : nat)
    (FileInfo FileInfo1 : WIN32_FIND_DATA) (LastError : DWORD) (w w1 : World) :
  ErrorCallback = Some ec ->
  OpenFind ctx MatchFlags (IsRecursePhase MatchFlags CurrentPhase) FileInfo w
    = (INVALID_HANDLE_VALUE LastError, FileInfo1) ->
  ec (SearchPath ctx MatchFlags (IsRecursePhase MatchFlags CurrentPhase))
     LastError Depth w = (true, w1) ->
  PhaseLoop Callback ErrorCallback self (S PhasesLeft) ctx MatchFlags Depth
            CurrentPhase FileInfo w = Some (true, w1) /\
  (forall (outer : YORILIB_FOREACHFILE_CONTEXT) (OuterDepth : DWORD)
          (entry next : WIN32_FIND_DATA) (rest : list WIN32_FIND_DATA) (w0 : World),
     ShouldRecurse MatchFlags true entry = true ->
     self (BuildRecurseCriteria outer MatchFlags entry) MatchFlags
          (u32 (OuterDepth + 1)) w0 = Some (true, w1) ->
     FindLoop Callback self outer MatchFlags OuterDepth true entry (next :: rest) w0 =
     FindLoop Callback self outer MatchFlags OuterDepth true next rest w1).
Proof.
  intros Hec Hopen Hcall. split.
  - simpl. rewrite Hopen, Hec, Hcall. reflexivity.
  - intros outer OuterDepth entry next rest w0 Hrec Hself.
    simpl. rewrite (EnumEntry_recurse_phase _ _ _ _ _ _ Hrec), Hself.
    reflexivity.
Qed.

(** Without an error callback a phase that cannot be opened is passed over
    and the next phase runs. *)
Lemma no_error_callback_runs_next_phase (self : Recursion World)
    (PhasesLeft : nat) (ctx : YORILIB_FOREACHFILE_CONTEXT)
    (MatchFlags Depth : DWORD) (CurrentPhase : nat)
    (FileInfo FileInfo1 : WIN32_FIND_DATA) (LastError : DWORD) (w : World) :
  ErrorCallback = None ->
  OpenFind ctx MatchFlags (IsRecursePhase MatchFlags CurrentPhase) FileInfo w
    = (INVALID_HANDLE_VALUE LastError, FileInfo1) ->
  PhaseLoop Callback ErrorCallback self (S PhasesLeft) ctx MatchFlags Depth
            CurrentPhase FileInfo w =
  PhaseLoop Callback ErrorCallback self PhasesLeft ctx MatchFlags Depth
            (S CurrentPhase) FileInfo1 w.
Proof.
  intros Hec Hopen. simpl. rewrite Hopen, Hec. reflexivity.
Qed.

(** A search for everything in a directory is not the path of a volume
    root. *)
Lemma IsBareVolumeRoot_wild (Parent : YORI_STRING) :
  IsBareVolumeRoot (Parent ++ _T "\*") = false.
Proof.
  unfold IsBareVolumeRoot.
  destruct Parent as [|c0 [|c1 [|c2 [|c3 [|c4 [|c5 [|c6 Parent]]]]]]];
    try reflexivity.
  - unfold YoriLibIsDriveLetterWithColonAndSlash. simpl.
    now rewrite !andb_false_r.
  - unfold YoriLibIsPrefixedDriveLetterWithColonAndSlash. simpl.
    now rewrite !andb_false_r.
  - simpl. rewrite length_app. simpl.
    replace (length Parent + 2 =? 0)%nat with false; [reflexivity|].
    symmetry. apply Nat.eqb_neq. lia.
Qed.

(** C5, amended.  When [FindFirstFile] fails on the composed path and
    that path is a bare volume root (three characters [X:\] or seven
    characters [\\?\X:\]), the volume root is queried directly.  When the
    query succeeds, the phase handles exactly one record: its name is
    empty, its attributes, times and size are those the query returned,
    and the phase is one pass of the loop over this record, without the
    error callback being called for the failure.  When the query fails
    too, the find handle counts as not opened: the error callback, if
    there is one, is called with the error of the query and its result
    ends the enumeration of the directory, and without an error callback
    the next phase runs. *)
Theorem volume_root_yields_one_record
    (self : Recursion World) (PhasesLeft : nat) (ctx : YORILIB_FOREACHFILE_CONTEXT)
    (MatchFlags Depth : DWORD) (CurrentPhase : nat)
    (FileInfo : WIN32_FIND_DATA) (LastError : DWORD) (w : World) :
  let RecursePhase := IsRecursePhase MatchFlags CurrentPhase in
  let FullPath := SearchPath ctx MatchFlags RecursePhase in
  FindFirstFile FullPath w = inl LastError ->
  IsBareVolumeRoot FullPath = true ->
  match OpenAndQueryFile FullPath w with
  | inr Information =>
      let Found := VolumeRootRecord FileInfo Information in
      OpenFind ctx MatchFlags RecursePhase FileInfo w = (NULL_HANDLE, Found) /\
      cFileName Found = [] /\
      FindLoop Callback self ctx MatchFlags Depth RecursePhase Found
               (RemainingEntries NULL_HANDLE) w =
        match EnumEntry Callback self ctx MatchFlags Depth RecursePhase Found w with
        | Some (b, w1) => Some (b, w1, Found)
        | None => None
        end /\
      PhaseLoop Callback ErrorCallback self (S PhasesLeft) ctx MatchFlags Depth
                CurrentPhase FileInfo w =
        match EnumEntry Callback self ctx MatchFlags Depth RecursePhase Found w with
        | Some (true, w1) =>
            PhaseLoop Callback ErrorCallback self PhasesLeft ctx MatchFlags Depth
                      (S CurrentPhase) Found w1
        | Some (false, w1) => Some (false, w1)
        | None => None
        end
  | inl QueryError =>
      OpenFind ctx MatchFlags RecursePhase FileInfo w
      = (INVALID_HANDLE_VALUE QueryError, FileInfo) /\
      PhaseLoop Callback ErrorCallback self (S PhasesLeft) ctx MatchFlags Depth
                CurrentPhase FileInfo w =
        match ErrorCallback with
        | Some ec => Some (ec FullPath QueryError Depth w)
        | None =>
            PhaseLoop Callback ErrorCallback self PhasesLeft ctx MatchFlags Depth
                      (S CurrentPhase) FileInfo w
        end
  end.
Proof.
  intros RecursePhase FullPath Hfind Hroot.
  assert (Hwild : RecursePhase &&
                  FlagTest MatchFlags YORILIB_FILEENUM_RECURSE_PRESERVE_WILD = false).
  { destruct (RecursePhase && _) eqn:Hwild; [exfalso|reflexivity].
    unfold FullPath, SearchPath in Hroot. rewrite Hwild in Hroot.
    rewrite IsBareVolumeRoot_wild in Hroot. discriminate. }
  destruct (OpenAndQueryFile FullPath w) as [QueryError|Information] eqn:Hquery.
  - assert (Hopen : OpenFind ctx MatchFlags RecursePhase FileInfo w
                    = (INVALID_HANDLE_VALUE QueryError, FileInfo)).
    { unfold OpenFind. fold FullPath. rewrite Hwild, Hfind, Hroot.
      unfold YoriLibUpdateFindDataFromFileInformation. now rewrite Hquery. }
    split; [exact Hopen|].
    simpl PhaseLoop. fold RecursePhase. rewrite Hopen. fold FullPath.
    destruct ErrorCallback as [ec|]; [|reflexivity].
    now destruct (ec FullPath QueryError Depth w).
  - intros Found.
    assert (Hopen : OpenFind ctx MatchFlags RecursePhase FileInfo w
                    = (NULL_HANDLE, Found)).
    { unfold OpenFind. fold FullPath. rewrite Hwild, Hfind, Hroot.
      unfold YoriLibUpdateFindDataFromFileInformation. rewrite Hquery.
      reflexivity. }
    assert (Hloop : FindLoop Callback self ctx MatchFlags Depth RecursePhase Found
                      (RemainingEntries NULL_HANDLE) w =
                    match EnumEntry Callback self ctx MatchFlags Depth
                                    RecursePhase Found w with
                    | Some (b, w1) => Some (b, w1, Found)
                    | None => None
                    end).
    { simpl. destruct (EnumEntry _ _ _ _ _ _ _ _) as [[[] ?]|]; reflexivity. }
    repeat split; try assumption.
    simpl PhaseLoop. fold RecursePhase. rewrite Hopen, Hloop.
    destruct (EnumEntry _ _ _ _ _ _ _ _) as [[[] ?]|]; reflexivity.
Qed.

(** ** The recursion budget

    A larger budget does not change a result that a smaller one gave. *)

Section Budget.

Variables self1 self2 : Recursion World.
Hypothesis self_refines : Refines self1 self2.

Lemma EnumEntry_refines (ctx : YORILIB_FOREACHFILE_CONTEXT) (MatchFlags Depth : DWORD)
    (RecursePhase : bool) (FileInfo : WIN32_FIND_DATA) (w : World) r :
  EnumEntry Callback self1 ctx MatchFlags Depth RecursePhase FileInfo w = Some r ->
  EnumEntry Callback self2 ctx MatchFlags Depth RecursePhase FileInfo w = Some r.
Proof.
  unfold EnumEntry.
  destruct (ShouldRecurse MatchFlags RecursePhase FileInfo); [|auto].
  destruct (self1 _ _ _ _) as [r1|] eqn:Hself; [|discriminate].
  now rewrite (self_refines _ _ _ _ _ Hself).
Qed.

Lemma FindLoop_refines (ctx : YORILIB_FOREACHFILE_CONTEXT) (MatchFlags Depth : DWORD)
    (RecursePhase : bool) (Remaining : list WIN32_FIND_DATA) :
  forall (FileInfo : WIN32_FIND_DATA) (w : World) r,
    FindLoop Callback self1 ctx MatchFlags Depth RecursePhase FileInfo Remaining w
      = Some r ->
    FindLoop Callback self2 ctx MatchFlags Depth RecursePhase FileInfo Remaining w
      = Some r.
Proof.
  induction Remaining as [|next Remaining IH]; intros FileInfo w r; simpl;
    destruct (EnumEntry Callback self1 _ _ _ _ _ _) as [[[] w1]|] eqn:Hentry;
    try discriminate;
    rewrite (EnumEntry_refines _ _ _ _ _ _ _ Hentry); auto.
Qed.

Lemma PhaseLoop_refines (ctx : YORILIB_FOREACHFILE_CONTEXT) (MatchFlags Depth : DWORD)
    (PhasesLeft : nat) :
  forall (CurrentPhase : nat) (FileInfo : WIN32_FIND_DATA) (w : World) r,
    PhaseLoop Callback ErrorCallback self1 PhasesLeft ctx MatchFlags Depth
              CurrentPhase FileInfo w = Some r ->
    PhaseLoop Callback ErrorCallback self2 PhasesLeft ctx MatchFlags Depth
              CurrentPhase FileInfo w = Some r.
Proof.
  induction PhasesLeft as [|PhasesLeft IH]; intros CurrentPhase FileInfo w r;
    simpl; [auto|].
  destruct (OpenFind _ _ _ _ _) as [[LastError| |Remaining] FileInfo1].
  - destruct ErrorCallback; [auto|apply IH].
  - destruct (FindLoop Callback self1 _ _ _ _ _ _ _) as [[[[] w1] FileInfo2]|]
      eqn:Hloop; try discriminate;
      rewrite (FindLoop_refines _ _ _ _ _ _ _ _ Hloop); auto.
  - destruct (FindLoop Callback self1 _ _ _ _ _ _ _) as [[[[] w1] FileInfo2]|]
      eqn:Hloop; try discriminate;
      rewrite (FindLoop_refines _ _ _ _ _ _ _ _ Hloop); auto.
Qed.

Lemma EnumBody_refines :
  Refines (EnumBody Callback ErrorCallback self1)
          (EnumBody Callback ErrorCallback self2).
Proof.
  intros FileSpec MatchFlags Depth w r. unfold EnumBody.
  destruct (FirstLevelFileSpec _ _ _ _ _); [|auto].
  destruct (FindFinalSlash _ _) as [Chars Found].
  destruct (ResolveParentFullPath _ _ _ _); [|auto].
  apply PhaseLoop_refines.
Qed.

End Budget.

Lemma YoriLibForEachFileEnum_more_fuel (fuel : nat) :
  Refines (YoriLibForEachFileEnum Callback ErrorCallback fuel)
          (YoriLibForEachFileEnum Callback ErrorCallback (S fuel)).
Proof.
  induction fuel as [|fuel IH]; [discriminate|].
  change (Refines
            (EnumBody Callback ErrorCallback
               (YoriLibForEachFileEnum Callback ErrorCallback fuel))
            (EnumBody Callback ErrorCallback
               (YoriLibForEachFileEnum Callback ErrorCallback (S fuel)))).
  now apply EnumBody_refines.
Qed.

(** ** Flags the code cannot tell apart *)

Section Indistinguishable.

Variables Flags1 Flags2 : DWORD.

Hypothesis same_files :
  FlagTest Flags1 YORILIB_FILEENUM_RETURN_FILES
  = FlagTest Flags2 YORILIB_FILEENUM_RETURN_FILES.
Hypothesis same_directories :
  FlagTest Flags1 YORILIB_FILEENUM_RETURN_DIRECTORIES
  = FlagTest Flags2 YORILIB_FILEENUM_RETURN_DIRECTORIES.
Hypothesis same_contents :
  FlagTest Flags1 YORILIB_FILEENUM_DIRECTORY_CONTENTS
  = FlagTest Flags2 YORILIB_FILEENUM_DIRECTORY_CONTENTS.
Hypothesis same_wild :
  FlagTest Flags1 YORILIB_FILEENUM_RECURSE_PRESERVE_WILD
  = FlagTest Flags2 YORILIB_FILEENUM_RECURSE_PRESERVE_WILD.
Hypothesis same_dotfiles :
  FlagTest Flags1 YORILIB_FILEENUM_INCLUDE_DOTFILES
  = FlagTest Flags2 YORILIB_FILEENUM_INCLUDE_DOTFILES.
Hypothesis same_links :
  FlagTest Flags1 YORILIB_FILEENUM_NO_LINK_TRAVERSE
  = FlagTest Flags2 YORILIB_FILEENUM_NO_LINK_TRAVERSE.
Hypothesis same_basic :
  FlagTest Flags1 YORILIB_FILEENUM_BASIC_EXPANSION
  = FlagTest Flags2 YORILIB_FILEENUM_BASIC_EXPANSION.
Hypothesis same_recursive :
  FlagTest Flags1 RecurseMask = FlagTest Flags2 RecurseMask.
Hypothesis same_phases :
  forall CurrentPhase,
    IsRecursePhase Flags1 CurrentPhase = IsRecursePhase Flags2 CurrentPhase.

Section OneLevel.

Variables self1 self2 : Recursion World.
Hypothesis same_self :
  forall FileSpec Depth w, self1 FileSpec Flags1 Depth w = self2 FileSpec Flags2 Depth w.

Lemma EnumEntry_same (ctx : YORILIB_FOREACHFILE_CONTEXT) (Depth : DWORD)
    (RecursePhase : bool) (FileInfo : WIN32_FIND_DATA) (w : World) :
  EnumEntry Callback self1 ctx Flags1 Depth RecursePhase FileInfo w =
  EnumEntry Callback self2 ctx Flags2 Depth RecursePhase FileInfo w.
Proof.
  unfold EnumEntry, ShouldReportObject, ShouldRecurse, EntryIsLink,
    BuildRecurseCriteria.
  rewrite same_dotfiles, same_directories, same_files, same_links, same_wild.
  rewrite same_self. reflexivity.
Qed.

Lemma FindLoop_same (ctx : YORILIB_FOREACHFILE_CONTEXT) (Depth : DWORD)
    (RecursePhase : bool) (Remaining : list WIN32_FIND_DATA) :
  forall (FileInfo : WIN32_FIND_DATA) (w : World),
    FindLoop Callback self1 ctx Flags1 Depth RecursePhase FileInfo Remaining w =
    FindLoop Callback self2 ctx Flags2 Depth RecursePhase FileInfo Remaining w.
Proof.
  induction Remaining as [|next Remaining IH]; intros FileInfo w; simpl;
    rewrite EnumEntry_same;
    destruct (EnumEntry _ _ _ _ _ _ _ _) as [[[] ?]|]; auto.
Qed.

Lemma SearchPath_same (ctx : YORILIB_FOREACHFILE_CONTEXT) (RecursePhase : bool) :
  SearchPath ctx Flags1 RecursePhase = SearchPath ctx Flags2 RecursePhase.
Proof.
  unfold SearchPath. now rewrite same_wild.
Qed.

Lemma OpenFind_same (ctx : YORILIB_FOREACHFILE_CONTEXT) (RecursePhase : bool)
    (FileInfo : WIN32_FIND_DATA) (w : World) :
  OpenFind ctx Flags1 RecursePhase FileInfo w =
  OpenFind ctx Flags2 RecursePhase FileInfo w.
Proof.
  unfold OpenFind. now rewrite SearchPath_same, same_wild.
Qed.

Lemma PhaseLoop_same (ctx : YORILIB_FOREACHFILE_CONTEXT) (Depth : DWORD)
    (PhasesLeft : nat) :
  forall (CurrentPhase : nat) (FileInfo : WIN32_FIND_DATA) (w : World),
    PhaseLoop Callback ErrorCallback self1 PhasesLeft ctx Flags1 Depth
              CurrentPhase FileInfo w =
    PhaseLoop Callback ErrorCallback self2 PhasesLeft ctx Flags2 Depth
              CurrentPhase FileInfo w.
Proof.
  induction PhasesLeft as [|PhasesLeft IH]; intros CurrentPhase FileInfo w;
    simpl; [reflexivity|].
  rewrite same_phases, OpenFind_same, SearchPath_same.
  destruct (OpenFind _ _ _ _ _) as [[LastError| |Remaining] FileInfo1].
  - destruct ErrorCallback; [reflexivity|apply IH].
  - rewrite FindLoop_same.
    destruct (FindLoop _ _ _ _ _ _ _ _ _) as [[[[] ?] ?]|]; auto.
  - rewrite FindLoop_same.
    destruct (FindLoop _ _ _ _ _ _ _ _ _) as [[[[] ?] ?]|]; auto.
Qed.

Lemma EnumBody_same (FileSpec : YORI_STRING) (Depth : DWORD) (w : World) :
  EnumBody Callback ErrorCallback self1 FileSpec Flags1 Depth w =
  EnumBody Callback ErrorCallback self2 FileSpec Flags2 Depth w.
Proof.
  unfold EnumBody, FirstLevelFileSpec, CountPhases.
  rewrite same_contents, same_recursive.
  destruct (if Depth =? 0 then _ else _) as [Effective|]; [|reflexivity].
  destruct (FindFinalSlash _ _) as [Chars Found].
  destruct (ResolveParentFullPath _ _ _ _); [|reflexivity].
  apply PhaseLoop_same.
Qed.

End OneLevel.

Lemma YoriLibForEachFileEnum_same (fuel : nat) :
  forall (FileSpec : YORI_STRING) (Depth : DWORD) (w : World),
    YoriLibForEachFileEnum Callback ErrorCallback fuel FileSpec Flags1 Depth w =
    YoriLibForEachFileEnum Callback ErrorCallback fuel FileSpec Flags2 Depth w.
Proof.
  induction fuel as [|fuel IH]; intros FileSpec Depth w; simpl; [reflexivity|].
  now apply EnumBody_same.
Qed.

Section ExpanderLevel.

Variables self1 self2 : Recursion World.
Hypothesis same_self :
  forall FileSpec Depth w, self1 FileSpec Flags1 Depth w = self2 FileSpec Flags2 Depth w.

Lemma SingleCharLoop_same
    (BeforeOperator AfterOperator : YORI_STRING) (Depth : DWORD)
    (LengthAllocated : nat) :
  forall (MatchValue : YORI_STRING) (w : World),
    SingleCharLoop self1 BeforeOperator AfterOperator Flags1 Depth
                   LengthAllocated MatchValue w =
    SingleCharLoop self2 BeforeOperator AfterOperator Flags2 Depth
                   LengthAllocated MatchValue w.
Proof.
  induction LengthAllocated as [|LengthAllocated IH]; intros MatchValue w;
    simpl; rewrite same_self;
    destruct (self2 _ _ _ _) as [[[] ?]|]; try reflexivity.
  destruct LengthAllocated; [reflexivity|apply IH].
Qed.

Lemma BraceLoop_same (BeforeOperator AfterOperator : YORI_STRING) (Depth : DWORD)
    (fuel : nat) :
  forall (SubstituteValues : YORI_STRING) (w : World),
    BraceLoop self1 fuel BeforeOperator AfterOperator Flags1 Depth SubstituteValues w =
    BraceLoop self2 fuel BeforeOperator AfterOperator Flags2 Depth SubstituteValues w.
Proof.
  induction fuel as [|fuel IH]; intros SubstituteValues w;
    simpl; rewrite same_self;
    destruct (self2 _ _ _ _) as [[[] ?]|]; try reflexivity.
  destruct (_ <=? _)%nat; [reflexivity|apply IH].
Qed.

Lemma ExpandBody_same (enum1 enum2 : Recursion World) :
  (forall FileSpec Depth w,
     enum1 FileSpec Flags1 Depth w = enum2 FileSpec Flags2 Depth w) ->
  forall (FileSpec : YORI_STRING) (Depth : DWORD) (w : World),
    ExpandBody self1 enum1 FileSpec Flags1 Depth w =
    ExpandBody self2 enum2 FileSpec Flags2 Depth w.
Proof.
  intros same_enum FileSpec Depth w. unfold ExpandBody.
  rewrite same_basic.
  destruct (FlagTest Flags2 YORILIB_FILEENUM_BASIC_EXPANSION); [apply same_enum|].
  destruct (YoriLibCountStringNotContainingChars FileSpec (_T "{[")
            =? length FileSpec)%nat.
  - destruct (YoriLibExpandHomeDirectories FileSpec w); apply same_enum.
  - destruct (tchar_eqb _ "["%char).
    + destruct (_ =? _)%nat; [apply same_enum|].
      now apply SingleCharLoop_same.
    + destruct (_ =? _)%nat; [apply same_enum|].
      apply BraceLoop_same.
Qed.

End ExpanderLevel.

Lemma YoriLibForEachFile_same (fuel : nat) :
  forall (FileSpec : YORI_STRING) (Depth : DWORD) (w : World),
    YoriLibForEachFile Callback ErrorCallback fuel FileSpec Flags1 Depth w =
    YoriLibForEachFile Callback ErrorCallback fuel FileSpec Flags2 Depth w.
Proof.
  induction fuel as [|fuel IH]; intros FileSpec Depth w; simpl; [reflexivity|].
  apply ExpandBody_same; [exact IH|].
  intros. apply YoriLibForEachFileEnum_same.
Qed.

End Indistinguishable.

(** ** Both recursion flags *)

Lemma land_lor_absorb (a b : Z) : Z.land (Z.lor a b) a = a.
Proof.
  apply Z.bits_inj'. intros n _.
  rewrite Z.land_spec, Z.lor_spec.
  destruct (Z.testbit a n), (Z.testbit b n); reflexivity.
Qed.

Lemma FlagTest_false (MatchFlags Mask : DWORD) :
  FlagTest MatchFlags Mask = false -> Z.land MatchFlags Mask = 0.
Proof.
  unfold FlagTest. intros H. apply negb_false_iff in H. now apply Z.eqb_eq.
Qed.

Lemma FlagTest_true (MatchFlags Mask : DWORD) :
  Z.land MatchFlags Mask <> 0 -> FlagTest MatchFlags Mask = true.
Proof.
  unfold FlagTest. intros H. apply negb_true_iff. now apply Z.eqb_neq.
Qed.

Lemma BothRecurseFlags_mask (MatchFlags : DWORD) :
  BothRecurseFlags MatchFlags -> Z.land MatchFlags RecurseMask = RecurseMask.
Proof.
  intros [HA HB]. unfold RecurseMask.
  now rewrite Z.land_lor_distr_r, HA, HB.
Qed.

Lemma OnlyRecurseBefore_mask (MatchFlags : DWORD) :
  OnlyRecurseBefore MatchFlags ->
  Z.land MatchFlags RecurseMask
  = Z.land MatchFlags YORILIB_FILEENUM_RECURSE_BEFORE_RETURN.
Proof.
  intros [_ HA]. apply FlagTest_false in HA. unfold RecurseMask.
  now rewrite Z.land_lor_distr_r, HA.
Qed.

Lemma IsRecursePhase_both (MatchFlags : DWORD) (CurrentPhase : nat) :
  BothRecurseFlags MatchFlags ->
  IsRecursePhase MatchFlags CurrentPhase = (CurrentPhase =? 0)%nat.
Proof.
  intros H. unfold IsRecursePhase.
  now rewrite (BothRecurseFlags_mask _ H), Z.eqb_refl.
Qed.

Lemma IsRecursePhase_before (MatchFlags : DWORD) (CurrentPhase : nat) :
  YORILIB_FILEENUM_RECURSE_AFTER_RETURN <> 0 ->
  OnlyRecurseBefore MatchFlags ->
  IsRecursePhase MatchFlags CurrentPhase = (CurrentPhase =? 0)%nat.
Proof.
  intros Hmask H. unfold IsRecursePhase.
  rewrite (OnlyRecurseBefore_mask _ H).
  destruct H as [HB HA]. rewrite HA, HB.
  destruct (Z.eqb_spec (Z.land MatchFlags YORILIB_FILEENUM_RECURSE_BEFORE_RETURN)
                       RecurseMask) as [Heq|]; [|reflexivity].
  exfalso. apply Hmask.
  apply FlagTest_false in HA.
  rewrite <- (land_lor_absorb YORILIB_FILEENUM_RECURSE_AFTER_RETURN
                              YORILIB_FILEENUM_RECURSE_BEFORE_RETURN).
  fold RecurseMask. rewrite <- Heq.
  rewrite <- Z.land_assoc,
    (Z.land_comm YORILIB_FILEENUM_RECURSE_BEFORE_RETURN), Z.land_assoc, HA.
  apply Z.land_0_l.
Qed.

Lemma CountPhases_both (MatchFlags : DWORD) :
  YORILIB_FILEENUM_RECURSE_AFTER_RETURN <> 0 ->
  BothRecurseFlags MatchFlags -> FlagTest MatchFlags RecurseMask = true.
Proof.
  intros Hmask H. apply FlagTest_true.
  rewrite (BothRecurseFlags_mask _ H). unfold RecurseMask.
  intros Hzero. apply Z.lor_eq_0_iff in Hzero. tauto.
Qed.

Lemma CountPhases_before (MatchFlags : DWORD) :
  OnlyRecurseBefore MatchFlags -> FlagTest MatchFlags RecurseMask = true.
Proof.
  intros H. unfold FlagTest. rewrite (OnlyRecurseBefore_mask _ H).
  now destruct H.
Qed.

(** ** What a phase does with a listing *)

Lemma OpenFind_listing (ctx : YORILIB_FOREACHFILE_CONTEXT) (MatchFlags : DWORD)
    (RecursePhase : bool) (FileInfo first : WIN32_FIND_DATA)
    (rest : list WIN32_FIND_DATA) (w : World) :
  FindFirstFile (SearchPath ctx MatchFlags RecursePhase) w = inr (first, rest) ->
  OpenFind ctx MatchFlags RecursePhase FileInfo w = (OpenHandle rest, first).
Proof.
  intros Hlist. unfold OpenFind.
  destruct (RecursePhase && _); now rewrite Hlist.
Qed.

Lemma last_cons (first next : WIN32_FIND_DATA) (rest : list WIN32_FIND_DATA) :
  last (next :: rest) first = last rest next.
Proof.
  revert first next.
  induction rest as [|x rest IH]; intros first next; [reflexivity|].
  change (last (next :: x :: rest) first) with (last (x :: rest) first).
  now rewrite (IH first x), (IH next x).
Qed.

Lemma RecurseEach_cons (self : Recursion World) (ctx : YORILIB_FOREACHFILE_CONTEXT)
    (MatchFlags Depth : DWORD) (FileInfo : WIN32_FIND_DATA)
    (Entries : list WIN32_FIND_DATA) (w : World) :
  RecurseEach self ctx MatchFlags Depth (FileInfo :: Entries) w =
  if ShouldRecurse MatchFlags true FileInfo then
    match self (BuildRecurseCriteria ctx MatchFlags FileInfo) MatchFlags
               (u32 (Depth + 1)) w with
    | None => None
    | Some (false, w1) => Some (false, w1)
    | Some (true, w1) => RecurseEach self ctx MatchFlags Depth Entries w1
    end
  else RecurseEach self ctx MatchFlags Depth Entries w.
Proof.
  unfold RecurseEach. cbn [filter].
  destruct (ShouldRecurse MatchFlags true FileInfo); reflexivity.
Qed.

Lemma EnumEntry_not_recursed (self : Recursion World)
    (ctx : YORILIB_FOREACHFILE_CONTEXT) (MatchFlags Depth : DWORD)
    (FileInfo : WIN32_FIND_DATA) (w : World) :
  ShouldRecurse MatchFlags true FileInfo = false ->
  EnumEntry Callback self ctx MatchFlags Depth true FileInfo w = Some (true, w).
Proof.
  intros H. unfold EnumEntry. now rewrite H, andb_false_r.
Qed.

(** The loop of a recurse phase, followed by whatever comes after it. *)
Lemma FindLoop_recursing (self : Recursion World) (ctx : YORILIB_FOREACHFILE_CONTEXT)
    (MatchFlags Depth : DWORD) (Next : World -> WIN32_FIND_DATA -> Outcome World)
    (rest : list WIN32_FIND_DATA) :
  forall (first : WIN32_FIND_DATA) (w : World),
    match FindLoop Callback self ctx MatchFlags Depth true first rest w with
    | None => None
    | Some (false, w1, _) => Some (false, w1)
    | Some (true, w1, FileInfo) => Next w1 FileInfo
    end =
    match RecurseEach self ctx MatchFlags Depth (first :: rest) w with
    | None => None
    | Some (false, w1) => Some (false, w1)
    | Some (true, w1) => Next w1 (last rest first)
    end.
Proof.
  induction rest as [|next rest IH]; intros first w;
    rewrite RecurseEach_cons; cbn [FindLoop];
    destruct (ShouldRecurse MatchFlags true first) eqn:Hrecurse.
  - rewrite (EnumEntry_recurse_phase _ _ _ _ _ _ Hrecurse).
    destruct (self _ _ _ _) as [[[] w1]|]; reflexivity.
  - now rewrite (EnumEntry_not_recursed _ _ _ _ _ _ Hrecurse).
  - rewrite (EnumEntry_recurse_phase _ _ _ _ _ _ Hrecurse).
    destruct (self _ _ _ _) as [[[] w1]|]; try reflexivity.
    rewrite IH. now rewrite last_cons.
  - rewrite (EnumEntry_not_recursed _ _ _ _ _ _ Hrecurse).
    rewrite IH. now rewrite last_cons.
Qed.

(** The loop of a report phase, followed by whatever comes after it. *)
Lemma FindLoop_reporting (self : Recursion World) (ctx : YORILIB_FOREACHFILE_CONTEXT)
    (MatchFlags Depth : DWORD) (Next : World -> WIN32_FIND_DATA -> Outcome World)
    (rest : list WIN32_FIND_DATA) :
  forall (first : WIN32_FIND_DATA) (w : World),
    match FindLoop Callback self ctx MatchFlags Depth false first rest w with
    | None => None
    | Some (false, w1, _) => Some (false, w1)
    | Some (true, w1, FileInfo) => Next w1 FileInfo
    end =
    let (ok, w1) := ReportEach Callback ctx MatchFlags Depth (first :: rest) w in
    if ok then Next w1 (last rest first) else Some (false, w1).
Proof.
  assert (Hentry : forall FileInfo w,
    EnumEntry Callback self ctx MatchFlags Depth false FileInfo w =
    if ShouldReportObject MatchFlags FileInfo then
      let (ok, w2) :=
        Callback (ParentFullPath ctx ++ _T "\" ++ cFileName FileInfo)
                 FileInfo Depth w in
      if negb ok then Some (false, w2)
      else if YoriLibIsOperationCancelled w2 then Some (false, w2)
      else Some (true, w2)
    else Some (true, w)).
  { intros FileInfo w. unfold EnumEntry, ShouldRecurse.
    rewrite andb_false_r, andb_false_l, andb_true_r. reflexivity. }
  induction rest as [|next rest IH]; intros first w;
    cbn [FindLoop ReportEach]; rewrite Hentry;
    destruct (ShouldReportObject MatchFlags first).
  - destruct (Callback _ _ _ _) as [[] w2]; cbn [negb]; [|reflexivity].
    destruct (YoriLibIsOperationCancelled w2); reflexivity.
  - reflexivity.
  - destruct (Callback _ _ _ _) as [[] w2]; cbn [negb]; [|reflexivity].
    destruct (YoriLibIsOperationCancelled w2); [reflexivity|].
    rewrite IH. now rewrite last_cons.
  - rewrite IH. now rewrite last_cons.
Qed.

Lemma PhaseLoop_recursing (self : Recursion World) (PhasesLeft : nat)
    (ctx : YORILIB_FOREACHFILE_CONTEXT) (MatchFlags Depth : DWORD)
    (CurrentPhase : nat) (FileInfo first : WIN32_FIND_DATA)
    (rest : list WIN32_FIND_DATA) (w : World) :
  IsRecursePhase MatchFlags CurrentPhase = true ->
  FindFirstFile (SearchPath ctx MatchFlags true) w = inr (first, rest) ->
  PhaseLoop Callback ErrorCallback self (S PhasesLeft) ctx MatchFlags Depth
            CurrentPhase FileInfo w =
  match RecurseEach self ctx MatchFlags Depth (first :: rest) w with
  | None => None
  | Some (false, w1) => Some (false, w1)
  | Some (true, w1) =>
      PhaseLoop Callback ErrorCallback self PhasesLeft ctx MatchFlags Depth
                (S CurrentPhase) (last rest first) w1
  end.
Proof.
  intros Hphase Hlist. cbn [PhaseLoop]. rewrite Hphase.
  rewrite (OpenFind_listing _ _ _ _ _ _ _ Hlist). cbn [RemainingEntries].
  apply (FindLoop_recursing self ctx MatchFlags Depth
           (fun w1 FileInfo1 =>
              PhaseLoop Callback ErrorCallback self PhasesLeft ctx MatchFlags Depth
                        (S CurrentPhase) FileInfo1 w1)).
Qed.

Lemma PhaseLoop_reporting (self : Recursion World) (PhasesLeft : nat)
    (ctx : YORILIB_FOREACHFILE_CONTEXT) (MatchFlags Depth : DWORD)
    (CurrentPhase : nat) (FileInfo first : WIN32_FIND_DATA)
    (rest : list WIN32_FIND_DATA) (w : World) :
  IsRecursePhase MatchFlags CurrentPhase = false ->
  FindFirstFile (SearchPath ctx MatchFlags false) w = inr (first, rest) ->
  PhaseLoop Callback ErrorCallback self (S PhasesLeft) ctx MatchFlags Depth
            CurrentPhase FileInfo w =
  let (ok, w1) := ReportEach Callback ctx MatchFlags Depth (first :: rest) w in
  if ok then
    PhaseLoop Callback ErrorCallback self PhasesLeft ctx MatchFlags Depth
              (S CurrentPhase) (last rest first) w1
  else Some (false, w1).
Proof.
  intros Hphase Hlist. cbn [PhaseLoop]. rewrite Hphase.
  rewrite (OpenFind_listing _ _ _ _ _ _ _ Hlist). cbn [RemainingEntries].
  apply (FindLoop_reporting self ctx MatchFlags Depth
           (fun w1 FileInfo1 =>
              PhaseLoop Callback ErrorCallback self PhasesLeft ctx MatchFlags Depth
                        (S CurrentPhase) FileInfo1 w1)).
Qed.

(** The enumerator is its set-up followed by its phases. *)
Lemma YoriLibForEachFileEnum_phases (fuel : nat) (FileSpec : YORI_STRING)
    (MatchFlags Depth : DWORD) (w : World) :
  YoriLibForEachFileEnum Callback ErrorCallback (S fuel) FileSpec MatchFlags Depth w =
  match EnumeratorContext FileSpec MatchFlags Depth w with
  | None => Some (false, w)
  | Some ctx =>
      PhaseLoop Callback ErrorCallback
                (YoriLibForEachFileEnum Callback ErrorCallback fuel)
                (CountPhases MatchFlags) ctx MatchFlags Depth 0 (YoriLibMalloc w) w
  end.
Proof.
  cbn [YoriLibForEachFileEnum]. unfold EnumBody, EnumeratorContext.
  destruct (FirstLevelFileSpec _ _ _ _ _); [|reflexivity].
  destruct (FindFinalSlash _ _) as [Chars Found].
  destruct (ResolveParentFullPath _ _ _ _); reflexivity.
Qed.

(** Two phases, the first a recurse phase: the enumerator recurses into
    the subdirectories of the listing and then reports the matches. *)
Lemma recurse_then_report (fuel : nat) (FileSpec : YORI_STRING)
    (MatchFlags Depth : DWORD) (w : World) (ctx : YORILIB_FOREACHFILE_CONTEXT)
    (first first' : WIN32_FIND_DATA) (rest rest' : list WIN32_FIND_DATA) :
  CountPhases MatchFlags = 2%nat ->
  IsRecursePhase MatchFlags 0 = true ->
  IsRecursePhase MatchFlags 1 = false ->
  EnumeratorContext FileSpec MatchFlags Depth w = Some ctx ->
  FindFirstFile (SearchPath ctx MatchFlags true) w = inr (first, rest) ->
  (forall w', FindFirstFile (SearchPath ctx MatchFlags false) w'
              = inr (first', rest')) ->
  YoriLibForEachFileEnum Callback ErrorCallback (S fuel) FileSpec MatchFlags Depth w =
  match RecurseEach (YoriLibForEachFileEnum Callback ErrorCallback fuel)
                    ctx MatchFlags Depth (first :: rest) w with
  | None => None
  | Some (false, w1) => Some (false, w1)
  | Some (true, w1) =>
      Some (ReportEach Callback ctx MatchFlags Depth (first' :: rest') w1)
  end.
Proof.
  intros Hcount Hfirst Hsecond Hctx Hrecurse Hreport.
  rewrite YoriLibForEachFileEnum_phases, Hctx, Hcount.
  rewrite (PhaseLoop_recursing _ _ _ _ _ _ _ _ _ _ Hfirst Hrecurse).
  destruct (RecurseEach _ _ _ _ _ _) as [[[] w1]|]; try reflexivity.
  rewrite (PhaseLoop_reporting _ _ _ _ _ _ _ _ _ _ Hsecond (Hreport w1)).
  destruct (ReportEach _ _ _ _ _ _) as [[] w2]; reflexivity.
Qed.

(** C3.  With both [YORILIB_FILEENUM_RECURSE_BEFORE_RETURN] and
    [YORILIB_FILEENUM_RECURSE_AFTER_RETURN] set the enumeration has two
    phases, the first a recurse phase and the second a report phase: on a
    directory that can be listed the enumerator first calls itself on the
    recurse criteria of every subdirectory of the listing, in order, and
    then hands every match of the listing to the callback, in order, once.
    It behaves as with [YORILIB_FILEENUM_RECURSE_BEFORE_RETURN] alone, for
    which the same holds: for any file specification, depth, callbacks and
    world, the enumerator and the expander return the same result and
    leave the same world (or both exceed the same recursion budget). *)
Theorem both_recurse_flags_behave_as_recurse_before
    (Both Before : DWORD) (fuel : nat) (FileSpec : YORI_STRING)
    (Depth : DWORD) (w : World) :
  YORILIB_FILEENUM_RECURSE_AFTER_RETURN <> 0 ->
  BothRecurseFlags Both ->
  OnlyRecurseBefore Before ->
  SameOtherFlags Both Before ->
  (CountPhases Both = 2%nat /\
   IsRecursePhase Both 0 = true /\
   IsRecursePhase Both 1 = false) /\
  (forall (MatchFlags : DWORD) (ctx : YORILIB_FOREACHFILE_CONTEXT)
          (first first' : WIN32_FIND_DATA) (rest rest' : list WIN32_FIND_DATA),
     MatchFlags = Both \/ MatchFlags = Before ->
     EnumeratorContext FileSpec MatchFlags Depth w = Some ctx ->
     FindFirstFile (SearchPath ctx MatchFlags true) w = inr (first, rest) ->
     (forall w', FindFirstFile (SearchPath ctx MatchFlags false) w'
                 = inr (first', rest')) ->
     YoriLibForEachFileEnum Callback ErrorCallback (S fuel)
                            FileSpec MatchFlags Depth w =
     match RecurseEach (YoriLibForEachFileEnum Callback ErrorCallback fuel)
                       ctx MatchFlags Depth (first :: rest) w with
     | None => None
     | Some (false, w1) => Some (false, w1)
     | Some (true, w1) =>
         Some (ReportEach Callback ctx MatchFlags Depth (first' :: rest') w1)
     end) /\
  YoriLibForEachFileEnum Callback ErrorCallback fuel FileSpec Both Depth w =
  YoriLibForEachFileEnum Callback ErrorCallback fuel FileSpec Before Depth w /\
  YoriLibForEachFile Callback ErrorCallback fuel FileSpec Both Depth w =
  YoriLibForEachFile Callback ErrorCallback fuel FileSpec Before Depth w.
Proof.
  intros Hmask Hboth Hbefore Hsame.
  unfold SameOtherFlags in Hsame.
  repeat match goal with
         | H : Forall _ (_ :: _) |- _ => inversion H; subst; clear H
         end.
  assert (Hrecursive : FlagTest Both RecurseMask = FlagTest Before RecurseMask)
    by now rewrite CountPhases_both, CountPhases_before.
  assert (Hphases : forall CurrentPhase,
             IsRecursePhase Both CurrentPhase = IsRecursePhase Before CurrentPhase)
    by (intros; now rewrite IsRecursePhase_both, IsRecursePhase_before).
  split; [|split; [|split]].
  - unfold CountPhases. rewrite CountPhases_both by assumption.
    rewrite !IsRecursePhase_both by assumption. auto.
  - intros MatchFlags ctx first first' rest rest' [-> | ->];
      apply recurse_then_report; unfold CountPhases.
    + now rewrite CountPhases_both.
    + now rewrite IsRecursePhase_both.
    + now rewrite IsRecursePhase_both.
    + now rewrite CountPhases_before.
    + now rewrite IsRecursePhase_before.
    + now rewrite IsRecursePhase_before.
  - now apply YoriLibForEachFileEnum_same.
  - now apply YoriLibForEachFile_same.
Qed.

End EnumeratorFacts.

(* ================================================================== *)
(** * Properties of the pattern expander *)

Section ExpanderFacts.
Context {World : Type} {flags : FileEnumFlags} {os : Platform World}.
Variable Callback : FILE_ENUM_FN (World := World).
Variable ErrorCallback : option (FILE_ENUM_ERROR_FN (World := World)).

Lemma Count_until_operator (Before Rest chars : YORI_STRING) (c : TCHAR) :
  YoriLibCountStringNotContainingChars Before chars = length Before ->
  existsb (tchar_eqb c) chars = true ->
  YoriLibCountStringNotContainingChars (Before ++ c :: Rest) chars = length Before.
Proof.
  intros Hbefore Hc.
  induction Before as [|x Before IH]; simpl in *.
  - now rewrite Hc.
  - destruct (existsb (tchar_eqb x) chars); [discriminate|].
    f_equal. apply IH. congruence.
Qed.

Lemma CharAt_app_operator (Before Rest : YORI_STRING) (c : TCHAR) :
  CharAt (Before ++ c :: Rest) (length Before) = c.
Proof.
  unfold CharAt. now rewrite nth_middle.
Qed.

Lemma skipn_past_operator (Before Rest : YORI_STRING) (c : TCHAR) :
  skipn (length Before + 1) (Before ++ c :: Rest) = Rest.
Proof.
  induction Before as [|x Before IH]; simpl; [reflexivity|exact IH].
Qed.

Lemma firstn_before_operator (Before Rest : YORI_STRING) :
  firstn (length Before) (Before ++ Rest) = Before.
Proof.
  induction Before as [|x Before IH]; simpl.
  - now destruct Rest.
  - now rewrite IH.
Qed.

(** A file specification without [{] and [[] goes to the enumerator, after
    the home directory expansion. *)
Lemma YoriLibForEachFile_without_operators (fuel : nat) (FileSpec : YORI_STRING)
    (MatchFlags Depth : DWORD) (w : World) :
  YoriLibCountStringNotContainingChars FileSpec (_T "{[") = length FileSpec ->
  YoriLibExpandHomeDirectories FileSpec w = None ->
  YoriLibForEachFile Callback ErrorCallback (S fuel) FileSpec MatchFlags Depth w =
  YoriLibForEachFileEnum Callback ErrorCallback fuel FileSpec MatchFlags Depth w.
Proof.
  intros Hcount Hhome. simpl. unfold ExpandBody.
  rewrite Hcount, Nat.eqb_refl, Hhome.
  now destruct (FlagTest _ _).
Qed.

Lemma YoriLibForEachFile_basic (fuel : nat) (FileSpec : YORI_STRING)
    (MatchFlags Depth : DWORD) (w : World) :
  FlagTest MatchFlags YORILIB_FILEENUM_BASIC_EXPANSION = true ->
  YoriLibForEachFile Callback ErrorCallback (S fuel) FileSpec MatchFlags Depth w =
  YoriLibForEachFileEnum Callback ErrorCallback fuel FileSpec MatchFlags Depth w.
Proof.
  intros Hbasic. simpl. unfold ExpandBody. now rewrite Hbasic.
Qed.

Lemma Count_app (Before After chars : YORI_STRING) :
  YoriLibCountStringNotContainingChars Before chars = length Before ->
  YoriLibCountStringNotContainingChars After chars = length After ->
  YoriLibCountStringNotContainingChars (Before ++ After) chars
  = length (Before ++ After).
Proof.
  intros Hbefore Hafter.
  induction Before as [|x Before IH]; simpl in *; [exact Hafter|].
  destruct (existsb (tchar_eqb x) chars); [discriminate|].
  f_equal. apply IH. congruence.
Qed.

(** C6, amended.  The enumerator that lists a directory in its recurse
    phase calls itself, [YoriLibForEachFileEnum], on the recurse criteria
    of every entry of the listing that is to be recursed into, in order, at
    depth plus one, and then goes on to its next phase; the pass of its
    loop over one such entry is that one call.  The expander is not involved.  Calling
    the expander on the criteria would give the same outcome when
    [YORILIB_FILEENUM_BASIC_EXPANSION] is set, or when the criteria holds
    neither [{] nor [[] and there is no home directory to expand in it. *)
Theorem recursion_calls_the_enumerator_itself
    (fuel : nat) (ctx : YORILIB_FOREACHFILE_CONTEXT) (MatchFlags Depth : DWORD)
    (FileInfo : WIN32_FIND_DATA) (w : World) :
  ShouldRecurse MatchFlags true FileInfo = true ->
  let Criteria := BuildRecurseCriteria ctx MatchFlags FileInfo in
  (forall (FileSpec : YORI_STRING) (first : WIN32_FIND_DATA)
          (rest : list WIN32_FIND_DATA),
     EnumeratorContext FileSpec MatchFlags Depth w = Some ctx ->
     IsRecursePhase MatchFlags 0 = true ->
     FindFirstFile (SearchPath ctx MatchFlags true) w = inr (first, rest) ->
     let Subdirectories := filter (ShouldRecurse MatchFlags true) (first :: rest) in
     (In FileInfo (first :: rest) -> In FileInfo Subdirectories) /\
     YoriLibForEachFileEnum Callback ErrorCallback (S fuel)
                            FileSpec MatchFlags Depth w =
     match CallEach (YoriLibForEachFileEnum Callback ErrorCallback fuel)
                    (map (BuildRecurseCriteria ctx MatchFlags) Subdirectories)
                    MatchFlags (u32 (Depth + 1)) w with
     | None => None
     | Some (false, w1) => Some (false, w1)
     | Some (true, w1) =>
         PhaseLoop Callback ErrorCallback
                   (YoriLibForEachFileEnum Callback ErrorCallback fuel)
                   (CountPhases MatchFlags - 1) ctx MatchFlags Depth 1
                   (last rest first) w1
     end) /\
  EnumEntry Callback (YoriLibForEachFileEnum Callback ErrorCallback fuel)
            ctx MatchFlags Depth true FileInfo w =
  YoriLibForEachFileEnum Callback ErrorCallback fuel
                         Criteria MatchFlags (u32 (Depth + 1)) w /\
  (FlagTest MatchFlags YORILIB_FILEENUM_BASIC_EXPANSION = true \/
   (YoriLibCountStringNotContainingChars Criteria (_T "{[") = length Criteria /\
    YoriLibExpandHomeDirectories Criteria w = None) ->
   YoriLibForEachFile Callback ErrorCallback (S fuel)
                      Criteria MatchFlags (u32 (Depth + 1)) w =
   YoriLibForEachFileEnum Callback ErrorCallback fuel
                          Criteria MatchFlags (u32 (Depth + 1)) w).
Proof.
  intros Hrecurse Criteria. split; [|split].
  - intros FileSpec first rest Hctx Hphase Hlist Subdirectories. split.
    + intros Hin. apply filter_In. now split.
    + rewrite YoriLibForEachFileEnum_phases, Hctx.
      replace (CountPhases MatchFlags) with (S (CountPhases MatchFlags - 1)) at 1
        by (unfold CountPhases; now destruct (FlagTest MatchFlags RecurseMask)).
      apply (PhaseLoop_recursing _ _ _ _ _ _ _ _ _ _ _ _ Hphase Hlist).
  - now apply EnumEntry_recurse_phase.
  - intros [Hbasic | [Hcount Hhome]].
    + now apply YoriLibForEachFile_basic.
    + now apply YoriLibForEachFile_without_operators.
Qed.

(** C10.  When the first operator of a file specification is an empty
    bracket group, the expander makes one substitution, with the character
    that follows the opening bracket, which is the closing bracket: the
    outcome for [Before[]After] is the outcome of the one recursive call on
    [Before]After], and when nothing after the group is an operator that
    call hands [Before]After] (with its home directory expanded, if it has
    one) to the enumerator. *)
Theorem empty_bracket_group_substitutes_the_closing_bracket
    (fuel : nat) (Before After : YORI_STRING) (MatchFlags Depth : DWORD)
    (w : World) :
  FlagTest MatchFlags YORILIB_FILEENUM_BASIC_EXPANSION = false ->
  YoriLibCountStringNotContainingChars Before (_T "{[") = length Before ->
  YoriLibForEachFile Callback ErrorCallback (S fuel)
                     (Before ++ _T "[]" ++ After) MatchFlags Depth w =
  YoriLibForEachFile Callback ErrorCallback fuel
                     (Before ++ _T "]" ++ After) MatchFlags Depth w /\
  (YoriLibCountStringNotContainingChars After (_T "{[") = length After ->
   YoriLibForEachFile Callback ErrorCallback (S (S fuel))
                      (Before ++ _T "[]" ++ After) MatchFlags Depth w =
   YoriLibForEachFileEnum Callback ErrorCallback fuel
     match YoriLibExpandHomeDirectories (Before ++ _T "]" ++ After) w with
     | Some NewFileSpec => NewFileSpec
     | None => Before ++ _T "]" ++ After
     end MatchFlags Depth w).
Proof.
  intros Hbasic Hbefore.
  assert (Hstep : forall fuel,
    YoriLibForEachFile Callback ErrorCallback (S fuel)
                       (Before ++ _T "[]" ++ After) MatchFlags Depth w =
    YoriLibForEachFile Callback ErrorCallback fuel
                       (Before ++ _T "]" ++ After) MatchFlags Depth w).
  { intros fuel'.
    change (Before ++ _T "[]" ++ After)
      with (Before ++ "["%char :: "]"%char :: After).
    change (Before ++ _T "]" ++ After) with (Before ++ "]"%char :: After).
    cbn [YoriLibForEachFile]. unfold ExpandBody.
    rewrite Hbasic.
    rewrite (Count_until_operator Before _ (_T "{[") "["%char Hbefore eq_refl).
    replace (length Before =? length (Before ++ "["%char :: "]"%char :: After))%nat
      with false
      by (symmetry; apply Nat.eqb_neq; rewrite length_app; simpl; lia).
    rewrite CharAt_app_operator, skipn_past_operator, firstn_before_operator.
    cbn.
    destruct (YoriLibForEachFile _ _ _ _ _ _ _) as [[[] ?]|]; reflexivity. }
  split; [apply Hstep|].
  intros Hafter. rewrite Hstep.
  assert (Hcount : YoriLibCountStringNotContainingChars
                     (Before ++ _T "]" ++ After) (_T "{[")
                   = length (Before ++ _T "]" ++ After)).
  { apply Count_app; [exact Hbefore|].
    change (_T "]" ++ After) with ("]"%char :: After).
    cbn. f_equal. exact Hafter. }
  cbn [YoriLibForEachFile]. unfold ExpandBody.
  rewrite Hbasic, Hcount, Nat.eqb_refl.
  now destruct (YoriLibExpandHomeDirectories _ _).
Qed.

End ExpanderFacts.

(* ================================================================== *)
(** * Properties of the path decomposition *)

Section PathFacts.
Import Path.

Lemma u32_small (z : Z) : 0 <= z < 2 ^ 32 -> u32 z = z.
Proof.
  intros H. now apply Z.mod_small.
Qed.

Lemma u32_range (z : Z) : 0 <= u32 z < 2 ^ 32.
Proof.
  apply Z.mod_pos_bound. lia.
Qed.

Lemma At_beyond (buf : YORI_STRING) (i : Z) :
  Z.of_nat (length buf) <= i -> At buf i = NUL.
Proof.
  intros H. unfold At, CharAt. apply nth_overflow. lia.
Qed.

Lemma IsBackslash_not_NUL (c : TCHAR) : IsBackslash c = true -> c <> NUL.
Proof.
  unfold IsBackslash, tchar_eqb. intros H Hc. subst c. discriminate.
Qed.

Lemma At_backslash_inside (buf : YORI_STRING) (i : Z) :
  IsBackslash (At buf i) = true -> i < Z.of_nat (length buf).
Proof.
  intros H. destruct (Z_lt_le_dec i (Z.of_nat (length buf))) as [|Hge]; [assumption|].
  rewrite (At_beyond _ _ Hge) in H. discriminate.
Qed.

(** Removing trailing slashes leaves a length between one and the length
    it started from. *)
Lemma StripTrailingSlashes_range (buf : YORI_STRING) (fuel : nat) (Limit : Z) :
  0 <= Limit ->
  forall Length : Z,
    1 <= Length < 2 ^ 32 ->
    1 <= StripTrailingSlashes buf fuel Limit Length (Length - 1) <= Length.
Proof.
  intros HLimit.
  induction fuel as [|fuel IH]; intros Length HLength; simpl; [lia|].
  destruct (Z.gtb_spec (Length - 1) Limit) as [Hgt|]; [|lia].
  destruct (IsBackslash _); [|lia].
  destruct (Z.eqb_spec (Length - 1) 0) as [|Hne]; [lia|].
  rewrite !u32_small by lia.
  specialize (IH (Length - 1)). lia.
Qed.

Lemma StripPath_length (buf : YORI_STRING) (UseLongPath : bool) :
  1 <= Z.of_nat (length buf) < 2 ^ 32 ->
  1 <= LengthInChars (EntireNaturalPath (StripPath buf UseLongPath))
    <= Z.of_nat (length buf).
Proof.
  intros H. unfold StripPath. cbn [EntireNaturalPath LengthInChars].
  rewrite u32_small by lia.
  apply StripTrailingSlashes_range; [|assumption].
  unfold KeepTrailingSlashesBefore.
  destruct UseLongPath;
    [destruct (YoriLibIsPrefixedDriveLetterWithColonAndSlash _)
    |destruct (YoriLibIsDriveLetterWithColonAndSlash _)]; lia.
Qed.

(** What the scan for the file name leaves alone. *)
Lemma ScanFileName_keeps (buf : YORI_STRING) (fuel : nat) (Length : Z) :
  forall (CharIndex : Z) (ExtensionFound FileComponentFound : bool)
         (pc : YORI_PATH_COMPONENTS),
    let r := ScanFileName buf fuel Length CharIndex ExtensionFound
                          FileComponentFound pc in
    EntireNaturalPath r = EntireNaturalPath pc /\
    DriveLetter r = DriveLetter pc /\
    ShareName r = ShareName pc /\
    PathFromRoot r = PathFromRoot pc.
Proof.
  induction fuel as [|fuel IH]; intros CharIndex ExtensionFound
    FileComponentFound pc; simpl; [tauto|].
  destruct (tchar_eqb (At buf CharIndex) "."%char && _ && _);
    destruct (IsBackslash (At buf CharIndex) && _); cbn; try tauto;
    destruct (CharIndex =? 0); cbn; try tauto.
  - match goal with
    | |- context [ScanFileName buf fuel Length ?c ?e ?f ?p] =>
        destruct (IH c e f p) as (H1 & H2 & H3 & H4)
    end.
    cbn in *. rewrite H1, H2, H3, H4. tauto.
  - apply IH.
Qed.

(** The scan stops at the last backslash at or below the index it starts
    from, or finds none. *)
Lemma ScanFileName_finds_last_backslash (buf : YORI_STRING) (Length : Z)
    (fuel : nat) :
  Length < 2 ^ 32 ->
  forall (CharIndex : Z) (ExtensionFound : bool) (pc : YORI_PATH_COMPONENTS),
    0 <= CharIndex < Length ->
    (Z.to_nat CharIndex < fuel)%nat ->
    let r := ScanFileName buf fuel Length CharIndex ExtensionFound false pc in
    (exists i,
        0 <= i <= CharIndex /\
        IsBackslash (At buf i) = true /\
        (forall j, i < j <= CharIndex -> IsBackslash (At buf j) = false) /\
        FullFileName r = {| StartOfString := Some (i + 1);
                            LengthInChars := Length - i - 1 |}) \/
    ((forall j, 0 <= j <= CharIndex -> IsBackslash (At buf j) = false) /\
     FullFileName r = FullFileName pc).
Proof.
  intros HLength.
  induction fuel as [|fuel IH]; intros CharIndex ExtensionFound pc HIndex Hfuel;
    [lia|].
  cbn [ScanFileName]. rewrite !andb_true_r.
  set (dot := tchar_eqb (At buf CharIndex) "."%char && negb ExtensionFound).
  destruct (IsBackslash (At buf CharIndex)) eqn:Hslash.
  - left. exists CharIndex. repeat split; try lia; [assumption|].
    cbn. rewrite !u32_small by lia. reflexivity.
  - destruct (Z.eqb_spec CharIndex 0) as [Hzero|Hnonzero].
    + right. split.
      * intros j Hj. replace j with CharIndex by lia. assumption.
      * destruct dot; reflexivity.
    + rewrite u32_small by lia.
      match goal with
      | |- context [ScanFileName buf fuel Length (CharIndex - 1) ?e false ?p] =>
          destruct (IH (CharIndex - 1) e p ltac:(lia) ltac:(lia))
            as [(i & Hi & Hat & Hlast & Hfile) | (Hnone & Hfile)]
      end.
      * left. exists i. repeat split; try lia; try assumption.
        intros j Hj.
        destruct (Z.eq_dec j CharIndex) as [->|]; [assumption|].
        apply Hlast. lia.
      * right. split.
        -- intros j Hj.
           destruct (Z.eq_dec j CharIndex) as [->|]; [assumption|].
           apply Hnone. lia.
        -- rewrite Hfile. destruct dot; reflexivity.
Qed.

(** The components after the scan for the file name. *)
Lemma FileNameScan_result (buf : YORI_STRING) (UseLongPath : bool) :
  1 <= Z.of_nat (length buf) < 2 ^ 32 ->
  let pc0 := FileNameScan buf UseLongPath in
  let Length := LengthInChars (EntireNaturalPath pc0) in
  1 <= Length <= Z.of_nat (length buf) /\
  EntireNaturalPath pc0 = {| StartOfString := Some 0; LengthInChars := Length |} /\
  DriveLetter pc0 = EmptySlice /\
  ShareName pc0 = EmptySlice /\
  ((exists i,
       0 <= i < Length /\
       IsBackslash (At buf i) = true /\
       (forall j, i < j < Length -> IsBackslash (At buf j) = false) /\
       FullFileName pc0 = {| StartOfString := Some (i + 1);
                             LengthInChars := Length - i - 1 |}) \/
   FullFileName pc0 = EmptySlice).
Proof.
  intros Hbuf pc0 Length.
  pose proof (StripPath_length buf UseLongPath Hbuf) as Hstrip.
  subst Length pc0. unfold FileNameScan in *.
  set (pc := StripPath buf UseLongPath) in *.
  set (L := LengthInChars (EntireNaturalPath pc)) in *.
  destruct (ScanFileName_keeps buf (length buf) L (u32 (L - 1)) false false pc)
    as (Hentire & Hdrive & Hshare & _).
  rewrite Hentire, Hdrive, Hshare. fold L.
  split; [lia|]. do 3 (split; [reflexivity|]).
  rewrite u32_small by lia.
  destruct (ScanFileName_finds_last_backslash buf L (length buf) ltac:(lia)
              (L - 1) false pc ltac:(lia) ltac:(lia))
    as [(i & Hi & Hat & Hlast & Hfile) | (_ & Hfile)].
  - left. exists i. repeat split; try lia; try assumption.
    intros j Hj. apply Hlast. lia.
  - right. exact Hfile.
Qed.

Lemma ScanShare_range (buf : YORI_STRING) (fuel : nat) :
  Z.of_nat (length buf) < 2 ^ 32 ->
  forall (CharIndex : Z) (EndOfServerNameFound : bool),
    0 <= CharIndex ->
    CharIndex <= fst (ScanShare buf fuel CharIndex EndOfServerNameFound)
      <= Z.max CharIndex (Z.of_nat (length buf)).
Proof.
  intros Hbuf.
  induction fuel as [|fuel IH]; intros CharIndex EndOfServerNameFound HIndex;
    simpl; [lia|].
  destruct (tchar_eqb (At buf CharIndex) NUL) eqn:Hnul; simpl; [lia|].
  assert (Hinside : CharIndex < Z.of_nat (length buf)).
  { destruct (Z_lt_le_dec CharIndex (Z.of_nat (length buf))) as [|Hge];
      [assumption|].
    rewrite (At_beyond _ _ Hge) in Hnul. discriminate. }
  rewrite u32_small by lia.
  destruct (IsBackslash _); [destruct EndOfServerNameFound; simpl|].
  - lia.
  - specialize (IH (CharIndex + 1) true). lia.
  - specialize (IH (CharIndex + 1) EndOfServerNameFound). lia.
Qed.

(** What the block after the scan of the share does to the file name. *)
Lemma SetShare_result (buf : YORI_STRING) (CharIndex : Z)
    (EndOfServerNameFound : bool) (pc : YORI_PATH_COMPONENTS) :
  ShareName pc = EmptySlice ->
  0 <= CharIndex + LengthInChars (FullFileName pc) < 2 ^ 32 ->
  let r := SetShare buf CharIndex EndOfServerNameFound pc in
  let Sum := CharIndex + LengthInChars (FullFileName pc) in
  StartOfString (ShareName r) <> None ->
  LengthInChars (ShareName r) = CharIndex /\
  EntireNaturalPath r = EntireNaturalPath pc /\
  (LengthInChars (EntireNaturalPath pc) < Sum ->
   FullFileName r = WithLength (FullFileName pc) 0 /\
   BaseName r = WithLength (BaseName pc) 0 /\
   Extension r = WithLength (Extension pc) 0) /\
  (Sum <= LengthInChars (EntireNaturalPath pc) ->
   FullFileName r = FullFileName pc /\
   BaseName r = BaseName pc /\
   Extension r = Extension pc).
Proof.
  intros Hshare Hsum r Sum. unfold r, SetShare.
  destruct (negb _ || _).
  - cbn [LengthInChars StartOfString]. rewrite u32_small by assumption.
    fold Sum.
    destruct (Z.ltb_spec Sum (LengthInChars (EntireNaturalPath pc)));
      [|destruct (Z.gtb_spec Sum (LengthInChars (EntireNaturalPath pc)))];
      cbn; intros _; repeat split; try reflexivity; intros; lia.
  - rewrite Hshare. cbn. congruence.
Qed.

Lemma SetDrive_keeps_share (LetterAt RootAt : Z) (pc : YORI_PATH_COMPONENTS) :
  ShareName (SetDrive LetterAt RootAt pc) = ShareName pc.
Proof.
  reflexivity.
Qed.

Lemma SetShare_keeps_drive (buf : YORI_STRING) (CharIndex : Z)
    (EndOfServerNameFound : bool) (pc : YORI_PATH_COMPONENTS) :
  DriveLetter (SetShare buf CharIndex EndOfServerNameFound pc) = DriveLetter pc.
Proof.
  unfold SetShare.
  destruct (negb _ || _); [|reflexivity].
  destruct (_ <? _); [reflexivity|].
  destruct (_ >? _); reflexivity.
Qed.

(** The decomposition of [\\?\UNC\srv\share]. *)
Lemma unc_share_example :
  let unc := _T "\\?\UNC\srv\share" in
  exists pc1,
    Decompose unc true = Some pc1 /\
    Text unc (ShareName pc1) = unc /\
    Text unc (EntireNaturalPath pc1) = unc /\
    Text unc (FullFileName pc1) = [] /\
    Text unc (PathFromRoot pc1) = [].
Proof.
  intros unc. eexists. split; [vm_compute; reflexivity|].
  vm_compute. auto.
Qed.

(** C7, amended.  For a path whose share was found (the short form
    [\\server\share\...] or the long form [\\?\UNC\server\share\...]), the
    lengths of the file name, the base name and the extension are set to
    zero exactly when the length of the share plus the length of the file
    name found by the scan is greater than the length of the entire path;
    when the sum is at most that length, equality included, the three
    components stay as the scan left them.  For [\\?\UNC\srv\share] the
    share is the entire path and the file name and the path from the root
    are empty. *)
Theorem unc_file_name_cleared_when_sum_exceeds_length
    (buf : YORI_STRING) (UseLongPath : bool) (pc : YORI_PATH_COMPONENTS) :
  Z.of_nat (length buf) < 2 ^ 31 ->
  Decompose buf UseLongPath = Some pc ->
  StartOfString (ShareName pc) <> None ->
  let pc0 := FileNameScan buf UseLongPath in
  let Sum := LengthInChars (ShareName pc) + LengthInChars (FullFileName pc0) in
  (LengthInChars (EntireNaturalPath pc) < Sum ->
   FullFileName pc = WithLength (FullFileName pc0) 0 /\
   BaseName pc = WithLength (BaseName pc0) 0 /\
   Extension pc = WithLength (Extension pc0) 0) /\
  (Sum <= LengthInChars (EntireNaturalPath pc) ->
   FullFileName pc = FullFileName pc0 /\
   BaseName pc = BaseName pc0 /\
   Extension pc = Extension pc0) /\
  (let unc := _T "\\?\UNC\srv\share" in
   exists pc1,
     Decompose unc true = Some pc1 /\
     Text unc (ShareName pc1) = unc /\
     Text unc (EntireNaturalPath pc1) = unc /\
     Text unc (FullFileName pc1) = [] /\
     Text unc (PathFromRoot pc1) = []).
Proof.
  intros Hbuf Hdec Hshare pc0 Sum.
  pose proof unc_share_example as Hexample.
  assert (Hnonempty : 1 <= Z.of_nat (length buf)).
  { destruct buf; [|simpl; lia]. exfalso. apply Hshare.
    destruct UseLongPath; vm_compute in Hdec; [discriminate|].
    injection Hdec as <-. reflexivity. }
  destruct (FileNameScan_result buf UseLongPath ltac:(lia))
    as (HLength & Hentire & Hdrive & Hnoshare & Hfile).
  fold pc0 in HLength, Hentire, Hdrive, Hnoshare, Hfile.
  assert (HfileLength :
            0 <= LengthInChars (FullFileName pc0) <= Z.of_nat (length buf)).
  { destruct Hfile as [(i & Hi & _ & _ & ->) | ->]; cbn; lia. }
  assert (Hmain : forall Start CharIndex Found,
             0 <= Start <= 8 ->
             ScanShare buf (S (length buf)) Start false = (CharIndex, Found) ->
             pc = SetShare buf CharIndex Found pc0 ->
             (LengthInChars (EntireNaturalPath pc) < Sum ->
              FullFileName pc = WithLength (FullFileName pc0) 0 /\
              BaseName pc = WithLength (BaseName pc0) 0 /\
              Extension pc = WithLength (Extension pc0) 0) /\
             (Sum <= LengthInChars (EntireNaturalPath pc) ->
              FullFileName pc = FullFileName pc0 /\
              BaseName pc = BaseName pc0 /\
              Extension pc = Extension pc0)).
  { intros Start CharIndex Found HStart Hscan Hpc.
    pose proof (ScanShare_range buf (S (length buf)) ltac:(lia) Start false
                  ltac:(lia)) as Hrange.
    rewrite Hscan in Hrange. cbn [fst] in Hrange.
    rewrite Hpc in Hshare.
    destruct (SetShare_result buf CharIndex Found pc0 Hnoshare ltac:(lia) Hshare)
      as (Hlen & Hsame & Hgt & Hle).
    unfold Sum. rewrite Hpc, Hlen, Hsame. split; assumption. }
  split; [|split]; [| |exact Hexample].
  all: unfold Decompose, ScanVolume in Hdec; fold pc0 in Hdec.
  all: destruct UseLongPath.
  all: repeat match type of Hdec with
         | (if ?c then _ else _) = _ => destruct c
         | (let (_, _) := ?s in _) = _ => destruct s eqn:Hscan
         end;
       try discriminate; injection Hdec as Hpc; symmetry in Hpc.
  all: try (exfalso; apply Hshare; rewrite Hpc;
            try rewrite SetDrive_keeps_share; rewrite Hnoshare; reflexivity).
  all: eapply Hmain; [|exact Hscan|exact Hpc]; lia.
Qed.

(** ** Pieces of the buffer *)

(** The characters of [buf] from index [a] up to index [b]. *)
Lemma firstn_add_skipn (l : YORI_STRING) (a k : nat) :
  firstn (a + k) l = firstn a l ++ firstn k (skipn a l).
Proof.
  revert l. induction a as [|a IH]; intros l; [reflexivity|].
  destruct l as [|x l]; simpl.
  - now rewrite firstn_nil.
  - now rewrite IH.
Qed.

Lemma segment_split (l : YORI_STRING) (a m b : nat) :
  (a <= m <= b)%nat ->
  firstn (b - a) (skipn a l) =
  firstn (m - a) (skipn a l) ++ firstn (b - m) (skipn m l).
Proof.
  intros H.
  replace (b - a)%nat with ((m - a) + (b - m))%nat by lia.
  rewrite firstn_add_skipn, skipn_skipn.
  now replace (m - a + a)%nat with m by lia.
Qed.

Lemma segment_one (l : YORI_STRING) (k : nat) :
  (k < length l)%nat -> firstn 1 (skipn k l) = [CharAt l k].
Proof.
  revert l. induction k as [|k IH]; intros [|x l] H; simpl in *; try lia.
  - reflexivity.
  - apply IH. lia.
Qed.

Lemma CharAt_firstn (l : YORI_STRING) (n k : nat) :
  (k < n)%nat -> CharAt (firstn n l) k = CharAt l k.
Proof.
  revert l k. induction n as [|n IH]; intros l k H; [lia|].
  destruct l as [|x l]; [reflexivity|].
  destruct k as [|k]; [reflexivity|].
  unfold CharAt in *. simpl. apply IH. lia.
Qed.

Lemma CharAt_skipn (l : YORI_STRING) (n k : nat) :
  CharAt (skipn n l) k = CharAt l (n + k).
Proof.
  revert l. induction n as [|n IH]; intros l; [reflexivity|].
  destruct l as [|x l]; unfold CharAt in *; simpl.
  - now destruct k.
  - apply IH.
Qed.

Lemma tchar_eqb_eq (a b : TCHAR) : tchar_eqb a b = true -> a = b.
Proof.
  apply Ascii.eqb_eq.
Qed.

Lemma IsLetter_not_backslash (c : TCHAR) :
  IsLetter c = true -> IsBackslash c = false.
Proof.
  destruct c as [[] [] [] [] [] [] [] []]; vm_compute; congruence.
Qed.

(** What [X:\] at the start of a string says about its characters. *)
Lemma drive_letter_colon_slash (s : YORI_STRING) :
  YoriLibIsDriveLetterWithColonAndSlash s = true ->
  (3 <= length s)%nat /\
  IsBackslash (CharAt s 0) = false /\
  CharAt s 1 = ":"%char.
Proof.
  unfold YoriLibIsDriveLetterWithColonAndSlash, YoriLibIsDriveLetterWithColon.
  intros H.
  repeat match type of H with
         | _ && _ = true => apply andb_prop in H; destruct H as [H ?]
         end.
  repeat match goal with
         | H : _ && _ = true |- _ => apply andb_prop in H; destruct H as [H ?]
         end.
  repeat split.
  - now apply Nat.leb_le.
  - now apply IsLetter_not_backslash.
  - now apply tchar_eqb_eq.
Qed.

(** The components [SetDrive] computes when the file name starts after the
    backslash at index [i]. *)
Lemma SetDrive_result (LetterAt RootAt : Z) (pc : YORI_PATH_COMPONENTS)
    (Length i : Z) :
  EntireNaturalPath pc = {| StartOfString := Some 0; LengthInChars := Length |} ->
  FullFileName pc = {| StartOfString := Some (i + 1);
                       LengthInChars := Length - i - 1 |} ->
  0 <= RootAt <= i -> i < Length -> Length < 2 ^ 32 ->
  let r := SetDrive LetterAt RootAt pc in
  DriveLetter r = {| StartOfString := Some LetterAt; LengthInChars := 1 |} /\
  PathFromRoot r = {| StartOfString := Some RootAt; LengthInChars := i - RootAt |} /\
  FullFileName r = FullFileName pc /\
  EntireNaturalPath r = EntireNaturalPath pc.
Proof.
  intros Hentire Hfile HRoot Hi HLength r. unfold r, SetDrive.
  rewrite Hentire, Hfile. cbn.
  repeat split. do 2 f_equal.
  rewrite (u32_small (Length - RootAt)) by lia.
  rewrite (u32_small (Length - i - 1 + 1)) by lia.
  rewrite u32_small by lia. lia.
Qed.

(** The concatenation of the round trip, for a drive letter at index
    [LetterAt] followed by a colon, a root at [LetterAt + 2] and the last
    backslash at [i]. *)
Lemma round_trip_pieces (buf : YORI_STRING) (LetterAt i Length : nat) :
  (LetterAt + 2 <= i)%nat -> (i < Length)%nat -> (Length <= length buf)%nat ->
  CharAt buf (LetterAt + 1) = ":"%char ->
  IsBackslash (CharAt buf i) = true ->
  firstn LetterAt buf ++
  firstn 1 (skipn LetterAt buf) ++ _T ":" ++
  firstn (i - (LetterAt + 2)) (skipn (LetterAt + 2) buf) ++ _T "\" ++
  firstn (Length - (i + 1)) (skipn (i + 1) buf)
  = firstn Length buf.
Proof.
  intros Hroot Hi HLength Hcolon Hslash.
  apply tchar_eqb_eq in Hslash.
  replace (firstn Length buf) with (firstn (Length - 0) (skipn 0 buf))
    by (simpl; f_equal; lia).
  rewrite (segment_split buf 0 LetterAt Length) by lia.
  rewrite (segment_split buf LetterAt (LetterAt + 1) Length) by lia.
  rewrite (segment_split buf (LetterAt + 1) (LetterAt + 2) Length) by lia.
  rewrite (segment_split buf (LetterAt + 2) i Length) by lia.
  rewrite (segment_split buf i (i + 1) Length) by lia.
  simpl skipn at 5.
  replace (LetterAt - 0)%nat with LetterAt by lia.
  replace (LetterAt + 1 - LetterAt)%nat with 1%nat by lia.
  replace (LetterAt + 2 - (LetterAt + 1))%nat with 1%nat by lia.
  replace (i + 1 - i)%nat with 1%nat by lia.
  rewrite (segment_one buf (LetterAt + 1)) by lia.
  rewrite (segment_one buf i) by lia.
  rewrite Hcolon, Hslash. reflexivity.
Qed.

(** The concatenation for the components that [SetDrive] gives. *)
Lemma SetDrive_round_trip (buf : YORI_STRING) (pc0 : YORI_PATH_COMPONENTS)
    (LetterAt : nat) (Length i : Z) :
  EntireNaturalPath pc0 = {| StartOfString := Some 0; LengthInChars := Length |} ->
  FullFileName pc0 = {| StartOfString := Some (i + 1);
                        LengthInChars := Length - i - 1 |} ->
  Z.of_nat LetterAt + 2 <= i -> i < Length ->
  Length <= Z.of_nat (length buf) -> Length < 2 ^ 32 ->
  CharAt buf (LetterAt + 1) = ":"%char ->
  IsBackslash (At buf i) = true ->
  let pc := SetDrive (Z.of_nat LetterAt) (Z.of_nat LetterAt + 2) pc0 in
  firstn LetterAt buf ++
  Text buf (DriveLetter pc) ++ _T ":" ++
  Text buf (PathFromRoot pc) ++ _T "\" ++
  Text buf (FullFileName pc)
  = Text buf (EntireNaturalPath pc).
Proof.
  intros Hentire Hfile Hroot Hi HLength Hsmall Hcolon Hslash pc.
  destruct (SetDrive_result (Z.of_nat LetterAt) (Z.of_nat LetterAt + 2)
              pc0 Length i Hentire Hfile ltac:(lia) Hi Hsmall)
    as (Hd & Hr & Hf & He).
  fold pc in Hd, Hr, Hf, He.
  rewrite Hd, Hr, Hf, He, Hfile, Hentire. unfold Text.
  cbn [StartOfString LengthInChars].
  change (skipn (Z.to_nat 0) buf) with buf.
  rewrite <- (round_trip_pieces buf LetterAt (Z.to_nat i) (Z.to_nat Length));
    try lia; try assumption.
  replace (Z.to_nat (Z.of_nat LetterAt)) with LetterAt by lia.
  replace (Z.to_nat (Z.of_nat LetterAt + 2)) with (LetterAt + 2)%nat by lia.
  replace (Z.to_nat (i - (Z.of_nat LetterAt + 2)))
    with (Z.to_nat i - (LetterAt + 2))%nat by lia.
  replace (Z.to_nat (i + 1)) with (Z.to_nat i + 1)%nat by lia.
  replace (Z.to_nat (Length - i - 1))
    with (Z.to_nat Length - (Z.to_nat i + 1))%nat by lia.
  reflexivity.
Qed.

(** C9, amended.  For a path whose drive letter was found and whose file
    name is present, the drive letter, a colon, the path from the root, a
    backslash and the file name, concatenated, are the entire natural path
    when the path was decomposed in the short form [X:\...].  In the long
    form [\\?\X:\...] with a backslash after the colon the concatenation is
    the entire path without its first four characters. *)
Theorem drive_letter_round_trip
    (buf : YORI_STRING) (UseLongPath : bool) (pc : YORI_PATH_COMPONENTS) :
  Z.of_nat (length buf) < 2 ^ 32 ->
  Decompose buf UseLongPath = Some pc ->
  StartOfString (DriveLetter pc) <> None ->
  StartOfString (FullFileName pc) <> None ->
  (UseLongPath = true -> IsBackslash (At buf 6) = true) ->
  (if UseLongPath then firstn 4 buf else []) ++
  Text buf (DriveLetter pc) ++ _T ":" ++
  Text buf (PathFromRoot pc) ++ _T "\" ++
  Text buf (FullFileName pc)
  = Text buf (EntireNaturalPath pc).
Proof.
  intros Hbuf Hdec Hdrive Hpresent Hsixth.
  assert (Hnonempty : 1 <= Z.of_nat (length buf)).
  { destruct buf; [|simpl; lia]. exfalso. apply Hdrive.
    destruct UseLongPath; vm_compute in Hdec; [discriminate|].
    injection Hdec as <-. reflexivity. }
  destruct (FileNameScan_result buf UseLongPath ltac:(lia))
    as (HLength & Hentire & Hnodrive & Hnoshare & Hfile).
  set (pc0 := FileNameScan buf UseLongPath) in *.
  set (Length := LengthInChars (EntireNaturalPath pc0)) in *.
  unfold Decompose, ScanVolume in Hdec. fold pc0 Length in Hdec.
  destruct UseLongPath.
  - (* the long form *)
    destruct (Z.ltb_spec Length 4) as [|Hfour]; [discriminate|].
    destruct (YoriLibIsFullPathUnc _).
    { destruct (ScanShare _ _ _ _) as [CharIndex Found].
      injection Hdec as <-. exfalso. apply Hdrive.
      now rewrite SetShare_keeps_drive, Hnodrive. }
    rewrite u32_small in Hdec by lia.
    destruct (YoriLibIsDriveLetterWithColonAndSlash _) eqn:Hletter;
      [|injection Hdec as <-; exfalso; apply Hdrive; now rewrite Hnodrive].
    injection Hdec as <-.
    apply drive_letter_colon_slash in Hletter.
    destruct Hletter as (Hthree & _ & Hcolon).
    rewrite length_firstn in Hthree.
    rewrite CharAt_firstn, CharAt_skipn in Hcolon by lia.
    assert (Hpresent0 : StartOfString (FullFileName pc0) <> None) by exact Hpresent.
    destruct Hfile as [(i & Hi & Hat & Hlast & Hfile) | Hfile];
      [|rewrite Hfile in Hpresent0; now contradiction Hpresent0].
    assert (6 <= i).
    { destruct (Z_le_gt_dec 6 i) as [|Hless]; [assumption|].
      rewrite (Hlast 6) in Hsixth by lia. now specialize (Hsixth eq_refl). }
    apply (SetDrive_round_trip buf pc0 4 Length i); try assumption; lia.
  - (* the short form *)
    destruct (YoriLibIsDriveLetterWithColonAndSlash _) eqn:Hletter.
    + injection Hdec as <-.
      apply drive_letter_colon_slash in Hletter.
      destruct Hletter as (Hthree & Hfirst & Hcolon).
      unfold Entire in Hthree, Hfirst, Hcolon.
      rewrite length_firstn in Hthree.
      rewrite CharAt_firstn in Hfirst, Hcolon by lia.
      assert (Hpresent0 : StartOfString (FullFileName pc0) <> None) by exact Hpresent.
      destruct Hfile as [(i & Hi & Hat & Hlast & Hfile) | Hfile];
        [|rewrite Hfile in Hpresent0; now contradiction Hpresent0].
      assert (2 <= i).
      { destruct (Z.eq_dec i 0) as [->|];
          [change (At buf 0) with (CharAt buf 0) in Hat; congruence|].
        destruct (Z.eq_dec i 1) as [->|]; [|lia].
        change (At buf 1) with (CharAt buf 1) in Hat.
        rewrite Hcolon in Hat. discriminate. }
      apply (SetDrive_round_trip buf pc0 0 Length i); try assumption; lia.
    + exfalso. apply Hdrive.
      destruct (IsBackslash _ || _).
      * destruct (ScanShare _ _ _ _) as [CharIndex Found].
        injection Hdec as <-. now rewrite SetShare_keeps_drive, Hnodrive.
      * injection Hdec as <-. now rewrite Hnodrive.
Qed.

End PathFacts.

(* ================================================================== *)
(** * The statements at concrete inputs *)

Import Examples.

(** ** The error callback (C1) *)

(** C1, as stated.  In a directory that cannot be listed, with an error
    callback that returns [TRUE], the enumeration of [d\*] with
    [YORILIB_FILEENUM_RECURSE_BEFORE_RETURN] calls the error callback once
    and returns: the second phase is not run.  Going on with the next phase
    would open the directory again and report a second failure. *)
Lemma error_callback_true_does_not_run_the_next_phase :
  let failure := Failed (_T "C:\r\d\*") ERROR_ACCESS_DENIED 0 in
  let self := YoriLibForEachFileEnum (flags := ExampleFlags) (os := Inaccessible)
                RecordObject (Some RecordFailure) 0 in
  YoriLibForEachFileEnum (flags := ExampleFlags) (os := Inaccessible)
    RecordObject (Some RecordFailure) 1 (_T "d\*") FILES_RECURSE_BEFORE 0 []
  = Some (true, [failure]) /\
  YoriLibForEachFileEnum (flags := ExampleFlags) (os := Inaccessible)
    RecordObject (Some RecordFailure) 1 (_T "d\*") FILES_RECURSE_BEFORE 0 []
  = PhaseLoop (flags := ExampleFlags) (os := Inaccessible)
      RecordObject (Some RecordFailure) self 2 SubdirectoryContext
      FILES_RECURSE_BEFORE 0 0 (Entry 0 0 "") [] /\
  RecordFailure (SearchPath (flags := ExampleFlags) SubdirectoryContext
                   FILES_RECURSE_BEFORE true)
                ERROR_ACCESS_DENIED 0 [] = (true, [failure]) /\
  PhaseLoop (flags := ExampleFlags) (os := Inaccessible)
    RecordObject (Some RecordFailure) self 2 SubdirectoryContext
    FILES_RECURSE_BEFORE 0 0 (Entry 0 0 "") []
  <>
  PhaseLoop (flags := ExampleFlags) (os := Inaccessible)
    RecordObject (Some RecordFailure) self 1 SubdirectoryContext
    FILES_RECURSE_BEFORE 0 1 (Entry 0 0 "") [failure].
Proof.
  repeat split; try reflexivity.
  vm_compute. discriminate.
Qed.

(** C1, amended, in the directory that cannot be listed. *)
Lemma error_callback_true_ends_the_phase_loop_witness :
  let failure := Failed (_T "C:\r\d\*") ERROR_ACCESS_DENIED 0 in
  let self := YoriLibForEachFileEnum (flags := ExampleFlags) (os := Inaccessible)
                RecordObject (Some RecordFailure) 0 in
  Some RecordFailure = Some RecordFailure /\
  OpenFind (flags := ExampleFlags) (os := Inaccessible) SubdirectoryContext
    FILES_RECURSE_BEFORE
    (IsRecursePhase (flags := ExampleFlags) FILES_RECURSE_BEFORE 0)
    (Entry 0 0 "") []
  = (INVALID_HANDLE_VALUE ERROR_ACCESS_DENIED, Entry 0 0 "") /\
  RecordFailure
    (SearchPath (flags := ExampleFlags) SubdirectoryContext FILES_RECURSE_BEFORE
       (IsRecursePhase (flags := ExampleFlags) FILES_RECURSE_BEFORE 0))
    ERROR_ACCESS_DENIED 0 [] = (true, [failure]) /\
  PhaseLoop (flags := ExampleFlags) (os := Inaccessible)
    RecordObject (Some RecordFailure) self 2 SubdirectoryContext
    FILES_RECURSE_BEFORE 0 0 (Entry 0 0 "") [] = Some (true, [failure]).
Proof.
  intros failure self.
  assert (H1 : Some RecordFailure = Some RecordFailure) by reflexivity.
  assert (H2 : OpenFind (flags := ExampleFlags) (os := Inaccessible)
                 SubdirectoryContext FILES_RECURSE_BEFORE
                 (IsRecursePhase (flags := ExampleFlags) FILES_RECURSE_BEFORE 0)
                 (Entry 0 0 "") []
               = (INVALID_HANDLE_VALUE ERROR_ACCESS_DENIED, Entry 0 0 ""))
    by reflexivity.
  assert (H3 : RecordFailure
                 (SearchPath (flags := ExampleFlags) SubdirectoryContext
                    FILES_RECURSE_BEFORE
                    (IsRecursePhase (flags := ExampleFlags) FILES_RECURSE_BEFORE 0))
                 ERROR_ACCESS_DENIED 0 [] = (true, [failure]))
    by reflexivity.
  split; [exact H1|]. split; [exact H2|]. split; [exact H3|].
  exact (proj1 (error_callback_true_ends_the_phase_loop
                  (flags := ExampleFlags) (os := Inaccessible)
                  RecordObject (Some RecordFailure) RecordFailure self 1
                  SubdirectoryContext FILES_RECURSE_BEFORE 0 0
                  (Entry 0 0 "") (Entry 0 0 "") ERROR_ACCESS_DENIED
                  [] [failure] H1 H2 H3)).
Defined.

(** ** Both recursion flags (C3) *)

(** C3 for the enumeration of [*] next to the directory [a[b]]. *)
Lemma both_recurse_flags_behave_as_recurse_before_witness :
  @YORILIB_FILEENUM_RECURSE_AFTER_RETURN ExampleFlags <> 0 /\
  BothRecurseFlags (flags := ExampleFlags) FILES_RECURSE_BOTH /\
  OnlyRecurseBefore (flags := ExampleFlags) FILES_RECURSE_BEFORE /\
  SameOtherFlags (flags := ExampleFlags) FILES_RECURSE_BOTH FILES_RECURSE_BEFORE /\
  YoriLibForEachFileEnum (flags := ExampleFlags) (os := BracketDirectory)
    RecordObject None 4 (_T "*") FILES_RECURSE_BOTH 0 [] =
  match RecurseEach (flags := ExampleFlags)
          (YoriLibForEachFileEnum (flags := ExampleFlags) (os := BracketDirectory)
             RecordObject None 3)
          StarContext FILES_RECURSE_BOTH 0 CurrentDirectoryListing [] with
  | None => None
  | Some (false, w1) => Some (false, w1)
  | Some (true, w1) =>
      Some (ReportEach (flags := ExampleFlags) (os := BracketDirectory)
              RecordObject StarContext FILES_RECURSE_BOTH 0
              CurrentDirectoryListing w1)
  end /\
  YoriLibForEachFileEnum (flags := ExampleFlags) (os := BracketDirectory)
    RecordObject None 3 (_T "*") FILES_RECURSE_BOTH 0 [] =
  YoriLibForEachFileEnum (flags := ExampleFlags) (os := BracketDirectory)
    RecordObject None 3 (_T "*") FILES_RECURSE_BEFORE 0 [].
Proof.
  assert (H1 : @YORILIB_FILEENUM_RECURSE_AFTER_RETURN ExampleFlags <> 0)
    by (simpl; lia).
  assert (H2 : BothRecurseFlags (flags := ExampleFlags) FILES_RECURSE_BOTH)
    by (split; reflexivity).
  assert (H3 : OnlyRecurseBefore (flags := ExampleFlags) FILES_RECURSE_BEFORE)
    by (split; reflexivity).
  assert (H4 : SameOtherFlags (flags := ExampleFlags)
                 FILES_RECURSE_BOTH FILES_RECURSE_BEFORE)
    by (repeat constructor).
  split; [exact H1|]. split; [exact H2|]. split; [exact H3|].
  split; [exact H4|].
  pose proof (both_recurse_flags_behave_as_recurse_before
                (flags := ExampleFlags) (os := BracketDirectory)
                RecordObject None FILES_RECURSE_BOTH FILES_RECURSE_BEFORE
                3 (_T "*") 0 [] H1 H2 H3 H4) as (_ & Hplan & Hsame & _).
  split; [|exact Hsame].
  exact (Hplan FILES_RECURSE_BOTH StarContext
           (DirectoryEntry ".") (DirectoryEntry ".")
           [DirectoryEntry ".."; DirectoryEntry "a[b]"; FileEntry "y.txt"]
           [DirectoryEntry ".."; DirectoryEntry "a[b]"; FileEntry "y.txt"]
           (or_introl eq_refl) eq_refl eq_refl (fun _ => eq_refl)).
Defined.

(** ** Links (C4) *)

(** C4 for the symbolic link [linked]. *)
Lemma no_link_traverse_entry_is_not_recursed_into_witness :
  FlagTest FILES_RECURSE_BEFORE_NO_LINKS
           (@YORILIB_FILEENUM_NO_LINK_TRAVERSE ExampleFlags) = true /\
  FlagTest (dwFileAttributes (SymlinkEntry "linked"))
           FILE_ATTRIBUTE_REPARSE_POINT = true /\
  (dwReserved0 (SymlinkEntry "linked") = IO_REPARSE_TAG_MOUNT_POINT \/
   dwReserved0 (SymlinkEntry "linked") = IO_REPARSE_TAG_SYMLINK) /\
  (forall RecursePhase,
     ShouldRecurse (flags := ExampleFlags) FILES_RECURSE_BEFORE_NO_LINKS
                   RecursePhase (SymlinkEntry "linked") = false).
Proof.
  assert (H1 : FlagTest FILES_RECURSE_BEFORE_NO_LINKS
                 (@YORILIB_FILEENUM_NO_LINK_TRAVERSE ExampleFlags) = true)
    by reflexivity.
  assert (H2 : FlagTest (dwFileAttributes (SymlinkEntry "linked"))
                 FILE_ATTRIBUTE_REPARSE_POINT = true)
    by reflexivity.
  assert (H3 : dwReserved0 (SymlinkEntry "linked") = IO_REPARSE_TAG_MOUNT_POINT \/
               dwReserved0 (SymlinkEntry "linked") = IO_REPARSE_TAG_SYMLINK)
    by (right; reflexivity).
  split; [exact H1|]. split; [exact H2|]. split; [exact H3|].
  exact (proj1 (no_link_traverse_entry_is_not_recursed_into
                  (flags := ExampleFlags) (os := LinkedDirectory)
                  RecordObject StarContext FILES_RECURSE_BEFORE_NO_LINKS 0
                  (SymlinkEntry "linked") [] H1 H2 H3)).
Defined.

(** With [YORILIB_FILEENUM_NO_LINK_TRAVERSE] the file behind the link is
    not reached; without it, it is. *)
Example linked_directory_is_not_entered :
  YoriLibForEachFileEnum (flags := ExampleFlags) (os := LinkedDirectory)
    RecordObject None 2 (_T "*") FILES_RECURSE_BEFORE_NO_LINKS 0 []
  = Some (true, [Reported (_T "C:\r\a.txt") (_T "a.txt") 0]) /\
  YoriLibForEachFileEnum (flags := ExampleFlags) (os := LinkedDirectory)
    RecordObject None 2 (_T "*") FILES_RECURSE_BEFORE 0 []
  = Some (true, [Reported (_T "C:\r\linked\c.txt") (_T "c.txt") 1;
                 Reported (_T "C:\r\a.txt") (_T "a.txt") 0]).
Proof.
  split; reflexivity.
Qed.

(** ** Volume roots (C5) *)

(** C5, as stated.  [FindFirstFile] fails on [C:\], which is a bare volume
    root, and the direct query of the volume root fails as well: no record
    is reported and the error callback is called. *)
Lemma volume_root_that_cannot_be_queried_reports_an_error :
  SearchPath (flags := ExampleFlags) RootContext FILES_AND_DIRECTORIES false
    = _T "C:\" /\
  IsBareVolumeRoot (_T "C:\") = true /\
  FindFirstFile (Platform := Inaccessible) (_T "C:\") [] = inl ERROR_ACCESS_DENIED /\
  YoriLibForEachFileEnum (flags := ExampleFlags) (os := Inaccessible)
    RecordObject (Some RecordFailure) 1 (_T "C:\") FILES_AND_DIRECTORIES 0 []
  = Some (true, [Failed (_T "C:\") ERROR_ACCESS_DENIED 0]).
Proof.
  repeat split; reflexivity.
Qed.

(** C5, amended, for the volume [\\?\C:\] that can be opened but not
    listed. *)
Lemma volume_root_yields_one_record_witness :
  FindFirstFile (Platform := LongVolumeRoot) (_T "\\?\C:\") []
  = inl ERROR_ACCESS_DENIED /\
  IsBareVolumeRoot (_T "\\?\C:\") = true /\
  OpenFind (flags := ExampleFlags) (os := LongVolumeRoot) LongRootContext
    FILES_AND_DIRECTORIES false (Entry 0 0 "") []
  = (NULL_HANDLE, VolumeRootRecord (Entry 0 0 "") VolumeInformation) /\
  PhaseLoop (flags := ExampleFlags) (os := LongVolumeRoot)
    RecordObject (Some RecordFailure)
    (YoriLibForEachFileEnum (flags := ExampleFlags) (os := LongVolumeRoot)
       RecordObject (Some RecordFailure) 0)
    1 LongRootContext FILES_AND_DIRECTORIES 0 0 (Entry 0 0 "") []
  = Some (true, [Reported (_T "\\?\C:\") [] 0]).
Proof.
  assert (H1 : FindFirstFile (Platform := LongVolumeRoot) (_T "\\?\C:\") []
               = inl ERROR_ACCESS_DENIED) by reflexivity.
  assert (H2 : IsBareVolumeRoot (_T "\\?\C:\") = true) by reflexivity.
  split; [exact H1|]. split; [exact H2|].
  pose proof (volume_root_yields_one_record
                (flags := ExampleFlags) (os := LongVolumeRoot)
                RecordObject (Some RecordFailure)
                (YoriLibForEachFileEnum (flags := ExampleFlags) (os := LongVolumeRoot)
                   RecordObject (Some RecordFailure) 0)
                0 LongRootContext FILES_AND_DIRECTORIES 0 0 (Entry 0 0 "")
                ERROR_ACCESS_DENIED [] H1 H2) as (Hopen & _ & _ & Hphase).
  split; [exact Hopen|exact Hphase].
Defined.

(** The enumeration of the volume [C:\] that can be opened but not listed,
    and of the volume [\\?\C:\] that can be neither. *)
Example volume_root_example :
  YoriLibForEachFileEnum (flags := ExampleFlags) (os := VolumeRoot)
    RecordObject (Some RecordFailure) 1 (_T "C:\") FILES_AND_DIRECTORIES 0 []
  = Some (true, [Reported (_T "C:\") [] 0]) /\
  PhaseLoop (flags := ExampleFlags) (os := Inaccessible)
    RecordObject (Some RecordFailure)
    (YoriLibForEachFileEnum (flags := ExampleFlags) (os := Inaccessible)
       RecordObject (Some RecordFailure) 0)
    1 LongRootContext FILES_AND_DIRECTORIES 0 0 (Entry 0 0 "") []
  = Some (true, [Failed (_T "\\?\C:\") ERROR_ACCESS_DENIED 0]).
Proof.
  split; reflexivity.
Qed.

(** ** Recursion and the expander (C6) *)

(** C6, as stated.  The directory [a[b]] is recursed into with the recurse
    criteria [a[b]\*].  The enumerator, which is what the code calls, lists
    that directory and reports [x.txt]; the expander rewrites the criteria
    to [ab\*] and reports nothing.  The whole enumeration of [*] reports
    [x.txt] at depth one. *)
Lemma expander_differs_on_directory_with_brackets :
  let Criteria := BuildRecurseCriteria (flags := ExampleFlags) StarContext
                    FILES_RECURSE_BEFORE (DirectoryEntry "a[b]") in
  let found := Reported (_T "C:\r\a[b]\x.txt") (_T "x.txt") 1 in
  ShouldRecurse (flags := ExampleFlags) FILES_RECURSE_BEFORE true
                (DirectoryEntry "a[b]") = true /\
  Criteria = _T "a[b]\*" /\
  YoriLibForEachFileEnum (flags := ExampleFlags) (os := BracketDirectory)
    RecordObject None 3 Criteria FILES_RECURSE_BEFORE 1 []
  = Some (true, [found]) /\
  YoriLibForEachFile (flags := ExampleFlags) (os := BracketDirectory)
    RecordObject None 3 Criteria FILES_RECURSE_BEFORE 1 []
  = Some (true, []) /\
  YoriLibForEachFile (flags := ExampleFlags) (os := BracketDirectory)
    RecordObject None 3 Criteria FILES_RECURSE_BEFORE 1 []
  <>
  YoriLibForEachFileEnum (flags := ExampleFlags) (os := BracketDirectory)
    RecordObject None 3 Criteria FILES_RECURSE_BEFORE 1 [] /\
  YoriLibForEachFileEnum (flags := ExampleFlags) (os := BracketDirectory)
    RecordObject None 3 (_T "*") FILES_RECURSE_BEFORE 0 []
  = Some (true, [found; Reported (_T "C:\r\y.txt") (_T "y.txt") 0]).
Proof.
  repeat split; try reflexivity.
  vm_compute. discriminate.
Qed.

(** C6, amended, for the directory [a[b]]. *)
Lemma recursion_calls_the_enumerator_itself_witness :
  ShouldRecurse (flags := ExampleFlags) FILES_RECURSE_BEFORE true
                (DirectoryEntry "a[b]") = true /\
  In (DirectoryEntry "a[b]")
     (filter (ShouldRecurse (flags := ExampleFlags) FILES_RECURSE_BEFORE true)
             CurrentDirectoryListing) /\
  YoriLibForEachFileEnum (flags := ExampleFlags) (os := BracketDirectory)
    RecordObject None 3 (_T "*") FILES_RECURSE_BEFORE 0 []
  = match CallEach
            (YoriLibForEachFileEnum (flags := ExampleFlags) (os := BracketDirectory)
               RecordObject None 2)
            [_T "a[b]\*"] FILES_RECURSE_BEFORE 1 [] with
    | None => None
    | Some (false, w1) => Some (false, w1)
    | Some (true, w1) =>
        PhaseLoop (flags := ExampleFlags) (os := BracketDirectory)
          RecordObject None
          (YoriLibForEachFileEnum (flags := ExampleFlags) (os := BracketDirectory)
             RecordObject None 2)
          1 StarContext FILES_RECURSE_BEFORE 0 1 (FileEntry "y.txt") w1
    end /\
  EnumEntry (flags := ExampleFlags) (os := BracketDirectory) RecordObject
    (YoriLibForEachFileEnum (flags := ExampleFlags) (os := BracketDirectory)
       RecordObject None 2)
    StarContext FILES_RECURSE_BEFORE 0 true (DirectoryEntry "a[b]") []
  = YoriLibForEachFileEnum (flags := ExampleFlags) (os := BracketDirectory)
      RecordObject None 2 (_T "a[b]\*") FILES_RECURSE_BEFORE 1 [].
Proof.
  assert (H1 : ShouldRecurse (flags := ExampleFlags) FILES_RECURSE_BEFORE true
                 (DirectoryEntry "a[b]") = true) by reflexivity.
  split; [exact H1|].
  pose proof (recursion_calls_the_enumerator_itself
                (flags := ExampleFlags) (os := BracketDirectory)
                RecordObject None 2 StarContext FILES_RECURSE_BEFORE 0
                (DirectoryEntry "a[b]") [] H1) as (Hlisting & Hentry & _).
  destruct (Hlisting (_T "*") (DirectoryEntry ".")
              [DirectoryEntry ".."; DirectoryEntry "a[b]"; FileEntry "y.txt"]
              eq_refl eq_refl eq_refl) as (Hin & Hcalls).
  split; [apply Hin; right; right; left; reflexivity|].
  split; [exact Hcalls|exact Hentry].
Defined.

(** ** The empty bracket group (C10) *)

(** C10 for the file specification [a[]b]. *)
Lemma empty_bracket_group_substitutes_the_closing_bracket_witness :
  FlagTest (@YORILIB_FILEENUM_RETURN_FILES ExampleFlags)
           (@YORILIB_FILEENUM_BASIC_EXPANSION ExampleFlags) = false /\
  YoriLibCountStringNotContainingChars (_T "a") (_T "{[") = length (_T "a") /\
  YoriLibForEachFile (flags := ExampleFlags) (os := Inaccessible)
    RecordObject (Some RecordFailure) 3 (_T "a[]b")
    (@YORILIB_FILEENUM_RETURN_FILES ExampleFlags) 0 []
  = YoriLibForEachFile (flags := ExampleFlags) (os := Inaccessible)
      RecordObject (Some RecordFailure) 2 (_T "a]b")
      (@YORILIB_FILEENUM_RETURN_FILES ExampleFlags) 0 [] /\
  YoriLibForEachFile (flags := ExampleFlags) (os := Inaccessible)
    RecordObject (Some RecordFailure) 4 (_T "a[]b")
    (@YORILIB_FILEENUM_RETURN_FILES ExampleFlags) 0 []
  = YoriLibForEachFileEnum (flags := ExampleFlags) (os := Inaccessible)
      RecordObject (Some RecordFailure) 2 (_T "a]b")
      (@YORILIB_FILEENUM_RETURN_FILES ExampleFlags) 0 [].
Proof.
  assert (H1 : FlagTest (@YORILIB_FILEENUM_RETURN_FILES ExampleFlags)
                 (@YORILIB_FILEENUM_BASIC_EXPANSION ExampleFlags) = false)
    by reflexivity.
  assert (H2 : YoriLibCountStringNotContainingChars (_T "a") (_T "{[")
               = length (_T "a")) by reflexivity.
  split; [exact H1|]. split; [exact H2|].
  pose proof (empty_bracket_group_substitutes_the_closing_bracket
                (flags := ExampleFlags) (os := Inaccessible)
                RecordObject (Some RecordFailure) 2 (_T "a") (_T "b")
                (@YORILIB_FILEENUM_RETURN_FILES ExampleFlags) 0 [] H1 H2)
    as (Hcall & Henum).
  split; [exact Hcall|exact (Henum eq_refl)].
Defined.

(** The one file specification that [a[]b] is expanded to reaches the
    enumerator as [a]b]. *)
Example empty_bracket_group_example :
  YoriLibForEachFile (flags := ExampleFlags) (os := Inaccessible)
    RecordObject (Some RecordFailure) 3 (_T "a[]b")
    (@YORILIB_FILEENUM_RETURN_FILES ExampleFlags) 0 []
  = Some (true, [Failed (_T "C:\r\a]b") ERROR_ACCESS_DENIED 0]).
Proof.
  reflexivity.
Qed.

(** ** The share and the file name (C7) *)

(** C7, as stated.  For [\\?\UNC\srv\share] the scan finds the file name
    [share], five characters; the share is the entire path, seventeen
    characters.  The sum is twenty-two, not seventeen, and the file name,
    the base name and the extension are cleared. *)
Lemma unc_file_name_cleared_although_sum_differs_from_length :
  let pc0 := Path.FileNameScan UncSharePath true in
  let pc := UncShareComponents in
  Path.Decompose UncSharePath true = Some pc /\
  Path.LengthInChars (Path.FullFileName pc0) = 5 /\
  Path.LengthInChars (Path.ShareName pc) = 17 /\
  Path.LengthInChars (Path.EntireNaturalPath pc) = 17 /\
  Path.LengthInChars (Path.ShareName pc) + Path.LengthInChars (Path.FullFileName pc0)
    <> Path.LengthInChars (Path.EntireNaturalPath pc) /\
  Path.LengthInChars (Path.FullFileName pc) = 0 /\
  Path.LengthInChars (Path.BaseName pc) = 0 /\
  Path.LengthInChars (Path.Extension pc) = 0.
Proof.
  repeat split; try reflexivity.
  vm_compute. discriminate.
Qed.

(** C7, amended, for [\\?\UNC\srv\share]. *)
Lemma unc_file_name_cleared_when_sum_exceeds_length_witness :
  let pc0 := Path.FileNameScan UncSharePath true in
  Z.of_nat (length UncSharePath) < 2 ^ 31 /\
  Path.Decompose UncSharePath true = Some UncShareComponents /\
  Path.StartOfString (Path.ShareName UncShareComponents) <> None /\
  (Path.LengthInChars (Path.EntireNaturalPath UncShareComponents)
   < Path.LengthInChars (Path.ShareName UncShareComponents)
     + Path.LengthInChars (Path.FullFileName pc0) ->
   Path.FullFileName UncShareComponents
     = Path.WithLength (Path.FullFileName pc0) 0 /\
   Path.BaseName UncShareComponents = Path.WithLength (Path.BaseName pc0) 0 /\
   Path.Extension UncShareComponents = Path.WithLength (Path.Extension pc0) 0).
Proof.
  intros pc0.
  assert (H1 : Z.of_nat (length UncSharePath) < 2 ^ 31) by (vm_compute; reflexivity).
  assert (H2 : Path.Decompose UncSharePath true = Some UncShareComponents)
    by reflexivity.
  assert (H3 : Path.StartOfString (Path.ShareName UncShareComponents) <> None)
    by (vm_compute; discriminate).
  split; [exact H1|]. split; [exact H2|]. split; [exact H3|].
  exact (proj1 (unc_file_name_cleared_when_sum_exceeds_length
                  UncSharePath true UncShareComponents H1 H2 H3)).
Defined.

(** ** The round trip (C9) *)

(** C9, as stated.  For the long form [\\?\C:\a\b.txt] the drive letter is
    found and the file name is present, and the concatenation is
    [C:\a\b.txt], which is not the entire natural path. *)
Lemma long_form_round_trip_loses_the_prefix :
  Path.Decompose LongDrivePath true = Some LongDriveComponents /\
  Path.Text LongDrivePath (Path.DriveLetter LongDriveComponents) = _T "C" /\
  Path.Text LongDrivePath (Path.FullFileName LongDriveComponents) = _T "b.txt" /\
  Path.Text LongDrivePath (Path.EntireNaturalPath LongDriveComponents)
    = _T "\\?\C:\a\b.txt" /\
  DriveColonRootFile LongDrivePath LongDriveComponents = _T "C:\a\b.txt" /\
  DriveColonRootFile LongDrivePath LongDriveComponents
    <> Path.Text LongDrivePath (Path.EntireNaturalPath LongDriveComponents).
Proof.
  repeat split; try reflexivity.
  vm_compute. discriminate.
Qed.

(** C9, amended, for [C:\a\b.txt]. *)
Lemma drive_letter_round_trip_witness :
  Z.of_nat (length ShortDrivePath) < 2 ^ 32 /\
  Path.Decompose ShortDrivePath false = Some ShortDriveComponents /\
  Path.StartOfString (Path.DriveLetter ShortDriveComponents) <> None /\
  Path.StartOfString (Path.FullFileName ShortDriveComponents) <> None /\
  (false = true -> Path.IsBackslash (Path.At ShortDrivePath 6) = true) /\
  DriveColonRootFile ShortDrivePath ShortDriveComponents
  = Path.Text ShortDrivePath (Path.EntireNaturalPath ShortDriveComponents).
Proof.
  assert (H1 : Z.of_nat (length ShortDrivePath) < 2 ^ 32) by (vm_compute; reflexivity).
  assert (H2 : Path.Decompose ShortDrivePath false = Some ShortDriveComponents)
    by reflexivity.
  assert (H3 : Path.StartOfString (Path.DriveLetter ShortDriveComponents) <> None)
    by (vm_compute; discriminate).
  assert (H4 : Path.StartOfString (Path.FullFileName ShortDriveComponents) <> None)
    by (vm_compute; discriminate).
  assert (H5 : false = true -> Path.IsBackslash (Path.At ShortDrivePath 6) = true)
    by (intros H; discriminate H).
  split; [exact H1|]. split; [exact H2|]. split; [exact H3|].
  split; [exact H4|]. split; [exact H5|].
  exact (drive_letter_round_trip ShortDrivePath false ShortDriveComponents
           H1 H2 H3 H4 H5).
Defined.

(** The long form, with the prefix put back. *)
Example long_form_round_trip_example :
  firstn 4 LongDrivePath ++ DriveColonRootFile LongDrivePath LongDriveComponents
  = Path.Text LongDrivePath (Path.EntireNaturalPath LongDriveComponents).
Proof.
  apply (drive_letter_round_trip LongDrivePath true LongDriveComponents);
    try reflexivity; try (vm_compute; discriminate).
Qed.

(* ================================================================== *)
(** * Further properties of the wildcard matcher *)

Section MatcherLaws.
Import Matcher.

Lemma YoriLibUpcaseChar_idempotent (c : TCHAR) :
  YoriLibUpcaseChar (YoriLibUpcaseChar c) = YoriLibUpcaseChar c.
Proof.
  destruct c as [[] [] [] [] [] [] [] []]; reflexivity.
Qed.

Lemma CharAt_upcased (s : YORI_STRING) (i : nat) :
  YoriLibUpcaseChar (CharAt (map YoriLibUpcaseChar s) i)
  = YoriLibUpcaseChar (CharAt s i).
Proof.
  unfold CharAt.
  change NUL with (YoriLibUpcaseChar NUL) at 1.
  rewrite map_nth. apply YoriLibUpcaseChar_idempotent.
Qed.

Lemma SkipWild_upcased (fuel : nat) (Wildcard : YORI_STRING) :
  forall WildIndex,
    SkipWild fuel (map YoriLibUpcaseChar Wildcard) WildIndex
    = SkipWild fuel Wildcard WildIndex.
Proof.
  induction fuel as [|fuel IH]; intros WildIndex; simpl; [reflexivity|].
  rewrite length_map, CharAt_upcased, IH. reflexivity.
Qed.

Lemma FindLiteral_upcased (fuel : nat) (FileName : YORI_STRING) (CompareWild : TCHAR) :
  forall FileIndex,
    FindLiteral fuel (map YoriLibUpcaseChar FileName) CompareWild FileIndex
    = FindLiteral fuel FileName CompareWild FileIndex.
Proof.
  induction fuel as [|fuel IH]; intros FileIndex; simpl; [reflexivity|].
  rewrite length_map, CharAt_upcased, IH. reflexivity.
Qed.

Lemma MatchLoop_upcased (fuel : nat) (FileName Wildcard : YORI_STRING) :
  forall FileIndex WildIndex,
    MatchLoop fuel (map YoriLibUpcaseChar FileName)
              (map YoriLibUpcaseChar Wildcard) FileIndex WildIndex
    = MatchLoop fuel FileName Wildcard FileIndex WildIndex.
Proof.
  induction fuel as [|fuel IH]; intros FileIndex WildIndex; simpl;
    unfold MatchTail; rewrite !length_map, ?SkipWild_upcased; [reflexivity|].
  rewrite !CharAt_upcased, FindLiteral_upcased, !IH. reflexivity.
Qed.

(** X1.  The matcher is case-insensitive: upcasing the name and the pattern
    does not change its answer. *)
Theorem matcher_ignores_case (FileName Wildcard : YORI_STRING) :
  YoriLibDoesFileMatchExpression (map YoriLibUpcaseChar FileName)
                                 (map YoriLibUpcaseChar Wildcard)
  = YoriLibDoesFileMatchExpression FileName Wildcard.
Proof.
  unfold YoriLibDoesFileMatchExpression.
  rewrite length_map. apply MatchLoop_upcased.
Qed.

Lemma skipn_CharAt (s : YORI_STRING) (i : nat) :
  (i < length s)%nat -> skipn i s = CharAt s i :: skipn (S i) s.
Proof.
  revert s. induction i as [|i IH]; intros [|x s] H; simpl in *; try lia.
  - reflexivity.
  - apply IH. lia.
Qed.

Lemma SkipWild_at_literal (fuel : nat) (Wildcard : YORI_STRING) (WildIndex : nat) :
  (WildIndex < length Wildcard ->
   IsWild (YoriLibUpcaseChar (CharAt Wildcard WildIndex)) = false)%nat ->
  SkipWild fuel Wildcard WildIndex = WildIndex.
Proof.
  intros H. destruct fuel as [|fuel]; simpl; [reflexivity|].
  destruct (Nat.ltb_spec WildIndex (length Wildcard)) as [Hlt|]; [|reflexivity].
  now rewrite (H Hlt).
Qed.

Lemma literal_at (Wildcard : YORI_STRING) (i : nat) :
  Forall (fun c => IsWild (YoriLibUpcaseChar c) = false) Wildcard ->
  (i < length Wildcard)%nat ->
  IsWild (YoriLibUpcaseChar (CharAt Wildcard i)) = false.
Proof.
  intros Hall Hi. rewrite Forall_forall in Hall.
  apply Hall. unfold CharAt. now apply nth_In.
Qed.

Lemma MatchLoop_literal (FileName Wildcard : YORI_STRING) :
  Forall (fun c => IsWild (YoriLibUpcaseChar c) = false) Wildcard ->
  forall (fuel i : nat),
    (i <= length FileName)%nat -> (i <= length Wildcard)%nat ->
    (length Wildcard - i <= fuel)%nat ->
    MatchLoop fuel FileName Wildcard i i
    = Some (string_eqb (map YoriLibUpcaseChar (skipn i FileName))
                       (map YoriLibUpcaseChar (skipn i Wildcard))).
Proof.
  intros Hliteral.
  assert (Htail : forall i,
             (i <= length FileName)%nat -> (i <= length Wildcard)%nat ->
             ((i <? length FileName) && (i <? length Wildcard))%nat = false ->
             MatchTail FileName Wildcard i i
             = string_eqb (map YoriLibUpcaseChar (skipn i FileName))
                          (map YoriLibUpcaseChar (skipn i Wildcard))).
  { intros i HF HW Hcond. unfold MatchTail.
    rewrite SkipWild_at_literal by (intros; now apply literal_at).
    destruct (Nat.ltb_spec i (length FileName)) as [HltF|HgeF].
    - destruct (Nat.ltb_spec i (length Wildcard)); [discriminate|].
      rewrite (skipn_CharAt FileName i HltF).
      rewrite (skipn_all2 Wildcard) by lia.
      replace (i =? length FileName)%nat with false
        by (symmetry; apply Nat.eqb_neq; lia).
      reflexivity.
    - rewrite (skipn_all2 FileName) by lia.
      replace (i =? length FileName)%nat with true
        by (symmetry; apply Nat.eqb_eq; lia).
      destruct (Nat.eqb_spec i (length Wildcard)) as [Heq|Hne].
      + rewrite (skipn_all2 Wildcard) by lia. reflexivity.
      + rewrite (skipn_CharAt Wildcard i) by lia. reflexivity. }
  induction fuel as [|fuel IH]; intros i HF HW Hfuel.
  - simpl.
    destruct ((i <? length FileName) && (i <? length Wildcard))%nat eqn:Hcond.
    + apply andb_prop in Hcond. destruct Hcond as [_ Hcond].
      apply Nat.ltb_lt in Hcond. lia.
    + f_equal. now apply Htail.
  - cbn [MatchLoop].
    destruct ((i <? length FileName) && (i <? length Wildcard))%nat eqn:Hcond;
      [|f_equal; now apply Htail].
    apply andb_prop in Hcond. destruct Hcond as [HltF HltW].
    apply Nat.ltb_lt in HltF, HltW.
    pose proof (literal_at Wildcard i Hliteral HltW) as Hwild.
    unfold IsWild in Hwild. apply orb_false_iff in Hwild.
    destruct Hwild as [Hstar Hquestion].
    cbv zeta. rewrite Hstar, Hquestion.
    rewrite (skipn_CharAt FileName i HltF), (skipn_CharAt Wildcard i HltW).
    cbn [map string_eqb].
    destruct (tchar_eqb (YoriLibUpcaseChar (CharAt FileName i))
                        (YoriLibUpcaseChar (CharAt Wildcard i))); simpl.
    + apply IH; lia.
    + reflexivity.
Qed.

(** X2.  A pattern without [*] and [?] matches exactly the names that are
    equal to it up to case; in particular every such name matches itself,
    and only the empty name matches the empty pattern. *)
Theorem matcher_literal_pattern (FileName Wildcard : YORI_STRING) :
  Forall (fun c => IsWild (YoriLibUpcaseChar c) = false) Wildcard ->
  YoriLibDoesFileMatchExpression FileName Wildcard
  = Some (string_eqb (map YoriLibUpcaseChar FileName)
                     (map YoriLibUpcaseChar Wildcard)).
Proof.
  intros Hliteral. unfold YoriLibDoesFileMatchExpression.
  apply (MatchLoop_literal FileName Wildcard Hliteral (length Wildcard) 0); lia.
Qed.

Lemma wild_at (Wildcard : YORI_STRING) (i : nat) :
  Forall (fun c => IsWild (YoriLibUpcaseChar c) = true) Wildcard ->
  (i < length Wildcard)%nat ->
  IsWild (YoriLibUpcaseChar (CharAt Wildcard i)) = true.
Proof.
  intros Hall Hi. rewrite Forall_forall in Hall.
  apply Hall. unfold CharAt. now apply nth_In.
Qed.

Lemma SkipWild_over_wildcards (Wildcard : YORI_STRING) :
  Forall (fun c => IsWild (YoriLibUpcaseChar c) = true) Wildcard ->
  forall (fuel WildIndex : nat),
    (WildIndex <= length Wildcard)%nat ->
    (length Wildcard - WildIndex <= fuel)%nat ->
    SkipWild fuel Wildcard WildIndex = length Wildcard.
Proof.
  intros Hwild.
  induction fuel as [|fuel IH]; intros WildIndex Hle Hfuel; simpl; [lia|].
  destruct (Nat.ltb_spec WildIndex (length Wildcard)) as [Hlt|]; [|lia].
  rewrite (wild_at Wildcard WildIndex Hwild Hlt). simpl.
  apply IH; lia.
Qed.

Lemma MatchLoop_wildcards (FileName Wildcard : YORI_STRING) :
  Forall (fun c => IsWild (YoriLibUpcaseChar c) = true) Wildcard ->
  forall (fuel i j : nat),
    (i <= length FileName)%nat -> (j <= length Wildcard)%nat ->
    (length Wildcard - j <= fuel)%nat ->
    MatchLoop fuel FileName Wildcard i j
    = Some (existsb IsStar (skipn j Wildcard) ||
            (length FileName - i <=? length Wildcard - j)%nat).
Proof.
  intros Hwild.
  assert (Htail : forall i j,
             (i <= length FileName)%nat -> (j <= length Wildcard)%nat ->
             ((i <? length FileName) && (j <? length Wildcard))%nat = false ->
             MatchTail FileName Wildcard i j
             = existsb IsStar (skipn j Wildcard) ||
               (length FileName - i <=? length Wildcard - j)%nat).
  { intros i j HF HW Hcond. unfold MatchTail.
    rewrite (SkipWild_over_wildcards Wildcard Hwild) by lia.
    rewrite Nat.eqb_refl, andb_true_r.
    destruct (Nat.eqb_spec i (length FileName)) as [->|Hne].
    - rewrite Nat.sub_diag. simpl. now rewrite orb_true_r.
    - destruct (Nat.ltb_spec i (length FileName)); [|lia].
      destruct (Nat.ltb_spec j (length Wildcard)); [discriminate|].
      rewrite skipn_all2 by lia. simpl.
      symmetry. apply Nat.leb_gt. lia. }
  induction fuel as [|fuel IH]; intros i j HF HW Hfuel.
  - simpl.
    destruct ((i <? length FileName) && (j <? length Wildcard))%nat eqn:Hcond.
    + apply andb_prop in Hcond. destruct Hcond as [_ Hcond].
      apply Nat.ltb_lt in Hcond. lia.
    + f_equal. now apply Htail.
  - cbn [MatchLoop].
    destruct ((i <? length FileName) && (j <? length Wildcard))%nat eqn:Hcond;
      [|f_equal; now apply Htail].
    apply andb_prop in Hcond. destruct Hcond as [HltF HltW].
    apply Nat.ltb_lt in HltF, HltW.
    pose proof (wild_at Wildcard j Hwild HltW) as Hchar.
    cbv zeta. rewrite (skipn_CharAt Wildcard j HltW). cbn [existsb].
    unfold IsStar at 1.
    destruct (tchar_eqb (YoriLibUpcaseChar (CharAt Wildcard j)) "?"%char) eqn:Hq.
    + apply tchar_eqb_eq in Hq. rewrite Hq. simpl.
      rewrite IH by lia. do 2 f_equal.
      destruct (Nat.leb_spec (length FileName - S i) (length Wildcard - S j));
        symmetry; [apply Nat.leb_le|apply Nat.leb_gt]; lia.
    + unfold IsWild in Hchar. rewrite Hq, orb_false_r in Hchar.
      rewrite Hchar.
      rewrite (SkipWild_over_wildcards Wildcard Hwild) by lia.
      now rewrite Nat.eqb_refl.
Qed.

(** X3.  A pattern made only of [*] and [?] matches every name when it
    holds a [*]; a pattern made only of [?] matches exactly the names that
    are not longer than the pattern, the empty name included. *)
Theorem matcher_wildcard_only_pattern (FileName Wildcard : YORI_STRING) :
  Forall (fun c => IsWild (YoriLibUpcaseChar c) = true) Wildcard ->
  YoriLibDoesFileMatchExpression FileName Wildcard
  = Some (existsb IsStar Wildcard || (length FileName <=? length Wildcard)%nat).
Proof.
  intros Hwild. unfold YoriLibDoesFileMatchExpression.
  rewrite (MatchLoop_wildcards FileName Wildcard Hwild (length Wildcard) 0 0)
    by lia.
  now rewrite !Nat.sub_0_r.
Qed.

End MatcherLaws.

(* ================================================================== *)
(** * Further properties of the pattern expander *)

Section ExpanderLaws.
Context {World : Type} {flags : FileEnumFlags} {os : Platform World}.
Variable Callback : FILE_ENUM_FN (World := World).
Variable ErrorCallback : option (FILE_ENUM_ERROR_FN (World := World)).

(** Rewriting with an equation between strings, whatever name the type of
    characters goes by in the goal. *)
Ltac rewrite_string H :=
  let E := fresh in
  pose proof H as E; unfold YORI_STRING, TCHAR in E |- *; rewrite E; clear E.

(** The test whether the closing character is missing fails when it is
    there. *)
Ltac closing_found :=
  match goal with
  | |- context [(?a =? ?b)%nat] =>
      let Heq := fresh in
      destruct (Nat.eqb_spec a b) as [Heq|_];
      [exfalso; rewrite length_app in Heq; simpl in Heq; lia|]
  end.

Lemma Count_weaken (s : YORI_STRING) (chars chars' : YORI_STRING) :
  (forall c, existsb (tchar_eqb c) chars' = true -> existsb (tchar_eqb c) chars = true) ->
  YoriLibCountStringNotContainingChars s chars = length s ->
  YoriLibCountStringNotContainingChars s chars' = length s.
Proof.
  intros Hsub. induction s as [|x s IH]; simpl; [reflexivity|].
  destruct (existsb (tchar_eqb x) chars) eqn:Hx; [discriminate|].
  destruct (existsb (tchar_eqb x) chars') eqn:Hx'.
  - rewrite (Hsub x Hx') in Hx. discriminate.
  - intros H. f_equal. apply IH. congruence.
Qed.

Lemma SingleCharLoop_each (self : Recursion World)
    (BeforeOperator AfterOperator : YORI_STRING) (MatchFlags Depth : DWORD) :
  forall (c : TCHAR) (Inside Rest : YORI_STRING) (w : World),
    SingleCharLoop self BeforeOperator AfterOperator MatchFlags Depth
                   (length (c :: Inside)) ((c :: Inside) ++ Rest) w
    = CallEach self
        (map (fun x => BeforeOperator ++ [x] ++ AfterOperator) (c :: Inside))
        MatchFlags Depth w.
Proof.
  intros c Inside. revert c.
  induction Inside as [|c' Inside IH]; intros c Rest w.
  - simpl. destruct (self _ _ _ _) as [[[] ?]|]; reflexivity.
  - change (length (c :: c' :: Inside)) with (S (length (c' :: Inside))).
    cbn [SingleCharLoop map CallEach app firstn tl length].
    destruct (self _ _ _ _) as [[[] w1]|]; try reflexivity.
    apply (IH c' Rest w1).
Qed.

(** X4.  A bracket group with at least one character, as the first
    operator of a file specification, is expanded to one file specification
    per character of the group, in the order of the group: the expander
    calls itself on each until a call returns [FALSE]. *)
Theorem bracket_group_expands_each_character
    (fuel : nat) (Before After : YORI_STRING) (c : TCHAR) (Inside : YORI_STRING)
    (MatchFlags Depth : DWORD) (w : World) :
  FlagTest MatchFlags YORILIB_FILEENUM_BASIC_EXPANSION = false ->
  YoriLibCountStringNotContainingChars Before (_T "{[") = length Before ->
  YoriLibCountStringNotContainingChars (c :: Inside) (_T "]") = length (c :: Inside) ->
  YoriLibForEachFile Callback ErrorCallback (S fuel)
    (Before ++ _T "[" ++ (c :: Inside) ++ _T "]" ++ After) MatchFlags Depth w
  = CallEach (YoriLibForEachFile Callback ErrorCallback fuel)
      (map (fun x => Before ++ [x] ++ After) (c :: Inside)) MatchFlags Depth w.
Proof.
  intros Hbasic Hbefore Hinside.
  change (Before ++ _T "[" ++ (c :: Inside) ++ _T "]" ++ After)
    with (Before ++ "["%char :: ((c :: Inside) ++ "]"%char :: After)).
  cbn [YoriLibForEachFile]. unfold ExpandBody. rewrite Hbasic.
  rewrite (Count_until_operator Before _ (_T "{[") "["%char Hbefore eq_refl).
  replace (length Before =?
           length (Before ++ "["%char :: (c :: Inside) ++ "]"%char :: After))%nat
    with false
    by (symmetry; apply Nat.eqb_neq; rewrite length_app; simpl; lia).
  rewrite CharAt_app_operator, skipn_past_operator, firstn_before_operator.
  change (tchar_eqb "["%char "["%char) with true. cbv iota.
  rewrite_string (Count_until_operator (c :: Inside) After (_T "]") "]"%char
                    Hinside eq_refl).
  rewrite_string (skipn_past_operator (c :: Inside) After "]"%char).
  closing_found.
  apply SingleCharLoop_each.
Qed.

Lemma JoinWithComma_cons (Value : YORI_STRING) (Next : YORI_STRING)
    (Values : list YORI_STRING) :
  JoinWithComma (Value :: Next :: Values)
  = Value ++ ","%char :: JoinWithComma (Next :: Values).
Proof.
  reflexivity.
Qed.

Lemma JoinWithComma_nonempty (Values : list YORI_STRING) :
  Values <> [] -> last Values [] <> [] -> JoinWithComma Values <> [].
Proof.
  destruct Values as [|Value [|Next Values]]; intros Hne Hlast.
  - contradiction.
  - exact Hlast.
  - rewrite JoinWithComma_cons. now destruct Value.
Qed.

Lemma BraceLoop_each (self : Recursion World)
    (BeforeOperator AfterOperator : YORI_STRING) (MatchFlags Depth : DWORD) :
  forall (Values : list YORI_STRING) (fuel : nat) (w : World),
    Values <> [] ->
    (length Values = 1%nat \/ last Values [] <> []) ->
    Forall (fun Value =>
              YoriLibCountStringNotContainingChars Value (_T ",") = length Value)
           Values ->
    (length (JoinWithComma Values) <= fuel)%nat ->
    BraceLoop self fuel BeforeOperator AfterOperator MatchFlags Depth
              (JoinWithComma Values) w
    = CallEach self
        (map (fun Value => BeforeOperator ++ Value ++ AfterOperator) Values)
        MatchFlags Depth w.
Proof.
  induction Values as [|Value Values IH]; intros fuel w Hne Hlast Hcommas Hfuel;
    [contradiction|].
  inversion Hcommas as [|? ? Hvalue Hrest]; subst.
  destruct Values as [|Next Values].
  - (* the last value *)
    destruct fuel; cbn [BraceLoop JoinWithComma map CallEach];
      rewrite Hvalue, firstn_all;
      destruct (self _ _ _ _) as [[[] w1]|]; try reflexivity;
      replace (length Value <=? length Value + 1)%nat with true
        by (symmetry; apply Nat.leb_le; lia); reflexivity.
  - assert (Hlast' : last (Next :: Values) [] <> []).
    { destruct Hlast as [Hone|Hlast]; [simpl in Hone; lia|exact Hlast]. }
    assert (Hjoin : JoinWithComma (Next :: Values) <> [])
      by (apply JoinWithComma_nonempty; [discriminate|exact Hlast']).
    rewrite JoinWithComma_cons in *.
    assert (Hlen : length (Value ++ ","%char :: JoinWithComma (Next :: Values))
                   = (length Value + 1 + length (JoinWithComma (Next :: Values)))%nat)
      by (rewrite length_app; simpl; lia).
    destruct fuel as [|fuel]; [lia|].
    cbn [BraceLoop map CallEach].
    rewrite (Count_until_operator Value _ (_T ",") ","%char Hvalue eq_refl).
    rewrite firstn_before_operator.
    destruct (self _ _ _ _) as [[[] w1]|]; try reflexivity.
    replace (length (Value ++ ","%char :: JoinWithComma (Next :: Values))
             <=? length Value + 1)%nat with false.
    + rewrite skipn_past_operator.
      apply IH; try assumption; [discriminate| |lia].
      destruct Values; [left; reflexivity|right; exact Hlast'].
    + symmetry. apply Nat.leb_gt.
      destruct (JoinWithComma (Next :: Values)); [contradiction|].
      simpl in Hlen. lia.
Qed.

(** X5.  A brace group, as the first operator of a file specification, is
    expanded to one file specification per comma separated value, in
    order: the expander calls itself on each until a call returns [FALSE].
    This holds for a single value, which may be empty, and for several
    values of which the last is not empty. *)
Theorem brace_group_expands_each_value
    (fuel : nat) (Before After : YORI_STRING) (Values : list YORI_STRING)
    (MatchFlags Depth : DWORD) (w : World) :
  FlagTest MatchFlags YORILIB_FILEENUM_BASIC_EXPANSION = false ->
  YoriLibCountStringNotContainingChars Before (_T "{[") = length Before ->
  Values <> [] ->
  length Values = 1%nat \/ last Values [] <> [] ->
  Forall (fun Value =>
            YoriLibCountStringNotContainingChars Value (_T ",}") = length Value)
         Values ->
  YoriLibForEachFile Callback ErrorCallback (S fuel)
    (Before ++ _T "{" ++ JoinWithComma Values ++ _T "}" ++ After) MatchFlags Depth w
  = CallEach (YoriLibForEachFile Callback ErrorCallback fuel)
      (map (fun Value => Before ++ Value ++ After) Values) MatchFlags Depth w.
Proof.
  intros Hbasic Hbefore Hne Hlast Hvalues.
  assert (Hcommas : Forall (fun Value =>
                      YoriLibCountStringNotContainingChars Value (_T ",")
                      = length Value) Values).
  { eapply Forall_impl; [|exact Hvalues]. intros Value H.
    apply (Count_weaken Value (_T ",}")); [|exact H].
    intros x. simpl. intros Hx. rewrite orb_false_r in Hx. now rewrite Hx. }
  assert (Hbraces : YoriLibCountStringNotContainingChars (JoinWithComma Values)
                      (_T "}") = length (JoinWithComma Values)).
  { clear - Hvalues.
    induction Values as [|Value [|Next Values] IH].
    - reflexivity.
    - inversion Hvalues; subst.
      apply (Count_weaken Value (_T ",}")); [|assumption].
      intros x. simpl. intros Hx. rewrite orb_false_r in Hx.
      now rewrite Hx, orb_true_r.
    - inversion Hvalues as [|? ? Hvalue Hrest]; subst.
      rewrite JoinWithComma_cons.
      specialize (IH Hrest).
      assert (Hv : YoriLibCountStringNotContainingChars Value (_T "}")
                   = length Value).
      { apply (Count_weaken Value (_T ",}")); [|assumption].
        intros x. simpl. intros Hx. rewrite orb_false_r in Hx.
        now rewrite Hx, orb_true_r. }
      clear Hvalue Hvalues.
      induction Value as [|v Value IHv]; simpl in *.
      + now rewrite IH.
      + destruct (tchar_eqb v "}"%char || false); [discriminate|].
        f_equal. apply IHv. congruence. }
  change (Before ++ _T "{" ++ JoinWithComma Values ++ _T "}" ++ After)
    with (Before ++ "{"%char :: (JoinWithComma Values ++ "}"%char :: After)).
  cbn [YoriLibForEachFile]. unfold ExpandBody. rewrite Hbasic.
  rewrite (Count_until_operator Before _ (_T "{[") "{"%char Hbefore eq_refl).
  replace (length Before =?
           length (Before ++ "{"%char :: JoinWithComma Values ++ "}"%char :: After))%nat
    with false
    by (symmetry; apply Nat.eqb_neq; rewrite length_app; simpl; lia).
  rewrite CharAt_app_operator, skipn_past_operator, firstn_before_operator.
  change (tchar_eqb "{"%char "["%char) with false. cbv iota.
  rewrite_string (Count_until_operator (JoinWithComma Values) After (_T "}")
                    "}"%char Hbraces eq_refl).
  rewrite_string (skipn_past_operator (JoinWithComma Values) After "}"%char).
  rewrite_string (firstn_before_operator (JoinWithComma Values)
                    ("}"%char :: After)).
  closing_found.
  apply BraceLoop_each; try assumption. apply Nat.le_refl.
Qed.

(** X6.  An opening [{] or [[] whose closing character does not follow is
    no operator: the file specification goes to the enumerator as it is,
    without home directory expansion, and the call cannot fail for it. *)
Theorem unmatched_operator_passes_through
    (fuel : nat) (Before Rest : YORI_STRING) (Operator : TCHAR)
    (MatchFlags Depth : DWORD) (w : World) :
  YoriLibCountStringNotContainingChars Before (_T "{[") = length Before ->
  (Operator = "["%char /\
   YoriLibCountStringNotContainingChars Rest (_T "]") = length Rest) \/
  (Operator = "{"%char /\
   YoriLibCountStringNotContainingChars Rest (_T "}") = length Rest) ->
  YoriLibForEachFile Callback ErrorCallback (S fuel)
    (Before ++ Operator :: Rest) MatchFlags Depth w
  = YoriLibForEachFileEnum Callback ErrorCallback fuel
      (Before ++ Operator :: Rest) MatchFlags Depth w.
Proof.
  intros Hbefore Hoperator.
  cbn [YoriLibForEachFile]. unfold ExpandBody.
  destruct (FlagTest MatchFlags YORILIB_FILEENUM_BASIC_EXPANSION); [reflexivity|].
  assert (Hop : existsb (tchar_eqb Operator) (_T "{[") = true)
    by (destruct Hoperator as [[-> _]|[-> _]]; reflexivity).
  rewrite (Count_until_operator Before Rest (_T "{[") Operator Hbefore Hop).
  replace (length Before =? length (Before ++ Operator :: Rest))%nat
    with false
    by (symmetry; apply Nat.eqb_neq; rewrite length_app; simpl; lia).
  rewrite CharAt_app_operator, skipn_past_operator.
  destruct Hoperator as [[-> Hrest]|[-> Hrest]].
  - change (tchar_eqb "["%char "["%char) with true. cbv iota.
    now rewrite Hrest, Nat.eqb_refl.
  - change (tchar_eqb "{"%char "["%char) with false. cbv iota.
    now rewrite Hrest, Nat.eqb_refl.
Qed.

End ExpanderLaws.

(* ================================================================== *)
(** * Further properties of the enumerator *)

Section EnumeratorLaws.
Context {World : Type} {flags : FileEnumFlags} {os : Platform World}.

(** ** The filters *)

Lemma ShouldReportObject_passes (MatchFlags : DWORD) (FileInfo : WIN32_FIND_DATA) :
  ShouldReportObject MatchFlags FileInfo = true -> PassesFilters MatchFlags FileInfo.
Proof.
  unfold ShouldReportObject, PassesFilters.
  destruct (IsDotFile FileInfo), (IsDirectory FileInfo),
    (FlagTest MatchFlags YORILIB_FILEENUM_INCLUDE_DOTFILES),
    (FlagTest MatchFlags YORILIB_FILEENUM_RETURN_DIRECTORIES),
    (FlagTest MatchFlags YORILIB_FILEENUM_RETURN_FILES);
    simpl; intros H; try discriminate; repeat split; auto; discriminate.
Qed.

Section Filters.

Variables Callback1 Callback2 : FILE_ENUM_FN (World := World).
Variable ErrorCallback : option (FILE_ENUM_ERROR_FN (World := World)).
Variable MatchFlags : DWORD.

Hypothesis same_on_passing :
  forall FullPath FileInfo Depth w,
    PassesFilters MatchFlags FileInfo ->
    Callback1 FullPath FileInfo Depth w = Callback2 FullPath FileInfo Depth w.

Section OneLevel.

Variables self1 self2 : Recursion World.
Hypothesis same_self :
  forall FileSpec Depth w,
    self1 FileSpec MatchFlags Depth w = self2 FileSpec MatchFlags Depth w.

Lemma EnumEntry_filtered (ctx : YORILIB_FOREACHFILE_CONTEXT) (Depth : DWORD)
    (RecursePhase : bool) (FileInfo : WIN32_FIND_DATA) (w : World) :
  EnumEntry Callback1 self1 ctx MatchFlags Depth RecursePhase FileInfo w =
  EnumEntry Callback2 self2 ctx MatchFlags Depth RecursePhase FileInfo w.
Proof.
  unfold EnumEntry. rewrite same_self.
  destruct (if ShouldRecurse MatchFlags RecursePhase FileInfo then _ else _)
    as [[[] w1]|]; try reflexivity.
  destruct (ShouldReportObject MatchFlags FileInfo) eqn:Hreport; [|reflexivity].
  destruct (negb RecursePhase); [|reflexivity]. simpl.
  now rewrite (same_on_passing _ _ _ _ (ShouldReportObject_passes _ _ Hreport)).
Qed.

Lemma FindLoop_filtered (ctx : YORILIB_FOREACHFILE_CONTEXT) (Depth : DWORD)
    (RecursePhase : bool) (Remaining : list WIN32_FIND_DATA) :
  forall (FileInfo : WIN32_FIND_DATA) (w : World),
    FindLoop Callback1 self1 ctx MatchFlags Depth RecursePhase FileInfo Remaining w =
    FindLoop Callback2 self2 ctx MatchFlags Depth RecursePhase FileInfo Remaining w.
Proof.
  induction Remaining as [|next Remaining IH]; intros FileInfo w; simpl;
    rewrite EnumEntry_filtered;
    destruct (EnumEntry _ _ _ _ _ _ _ _) as [[[] ?]|]; auto.
Qed.

Lemma PhaseLoop_filtered (ctx : YORILIB_FOREACHFILE_CONTEXT) (Depth : DWORD)
    (PhasesLeft : nat) :
  forall (CurrentPhase : nat) (FileInfo : WIN32_FIND_DATA) (w : World),
    PhaseLoop Callback1 ErrorCallback self1 PhasesLeft ctx MatchFlags Depth
              CurrentPhase FileInfo w =
    PhaseLoop Callback2 ErrorCallback self2 PhasesLeft ctx MatchFlags Depth
              CurrentPhase FileInfo w.
Proof.
  induction PhasesLeft as [|PhasesLeft IH]; intros CurrentPhase FileInfo w;
    simpl; [reflexivity|].
  destruct (OpenFind _ _ _ _ _) as [[LastError| |Remaining] FileInfo1].
  - destruct ErrorCallback; [reflexivity|apply IH].
  - rewrite FindLoop_filtered.
    destruct (FindLoop _ _ _ _ _ _ _ _ _) as [[[[] ?] ?]|]; auto.
  - rewrite FindLoop_filtered.
    destruct (FindLoop _ _ _ _ _ _ _ _ _) as [[[[] ?] ?]|]; auto.
Qed.

Lemma EnumBody_filtered (FileSpec : YORI_STRING) (Depth : DWORD) (w : World) :
  EnumBody Callback1 ErrorCallback self1 FileSpec MatchFlags Depth w =
  EnumBody Callback2 ErrorCallback self2 FileSpec MatchFlags Depth w.
Proof.
  unfold EnumBody.
  destruct (FirstLevelFileSpec _ _ _ _ _); [|reflexivity].
  destruct (FindFinalSlash _ _) as [Chars Found].
  destruct (ResolveParentFullPath _ _ _ _); [|reflexivity].
  apply PhaseLoop_filtered.
Qed.

End OneLevel.

Lemma YoriLibForEachFileEnum_filtered (fuel : nat) :
  forall (FileSpec : YORI_STRING) (Depth : DWORD) (w : World),
    YoriLibForEachFileEnum Callback1 ErrorCallback fuel FileSpec MatchFlags Depth w =
    YoriLibForEachFileEnum Callback2 ErrorCallback fuel FileSpec MatchFlags Depth w.
Proof.
  induction fuel as [|fuel IH]; intros FileSpec Depth w; simpl; [reflexivity|].
  now apply EnumBody_filtered.
Qed.

Lemma YoriLibForEachFile_filtered (fuel : nat) :
  forall (FileSpec : YORI_STRING) (Depth : DWORD) (w : World),
    YoriLibForEachFile Callback1 ErrorCallback fuel FileSpec MatchFlags Depth w =
    YoriLibForEachFile Callback2 ErrorCallback fuel FileSpec MatchFlags Depth w.
Proof.
  induction fuel as [|fuel IH]; intros FileSpec Depth w; simpl; [reflexivity|].
  apply (ExpandBody_same MatchFlags MatchFlags eq_refl); [exact IH|].
  intros. apply YoriLibForEachFileEnum_filtered.
Qed.

End Filters.

(** X7.  The callback is only ever called for entries that pass the
    filters: an entry named [.] or [..] without
    [YORILIB_FILEENUM_INCLUDE_DOTFILES], a directory without
    [YORILIB_FILEENUM_RETURN_DIRECTORIES] and a file without
    [YORILIB_FILEENUM_RETURN_FILES] never reach it, at any depth.  Two
    callbacks that agree on the entries that pass the filters give the same
    enumeration. *)
Theorem callback_sees_only_entries_passing_the_filters
    (Callback1 Callback2 : FILE_ENUM_FN (World := World))
    (ErrorCallback : option (FILE_ENUM_ERROR_FN (World := World)))
    (MatchFlags : DWORD) (fuel : nat) (FileSpec : YORI_STRING)
    (Depth : DWORD) (w : World) :
  (forall FullPath FileInfo EntryDepth w0,
     PassesFilters MatchFlags FileInfo ->
     Callback1 FullPath FileInfo EntryDepth w0
     = Callback2 FullPath FileInfo EntryDepth w0) ->
  YoriLibForEachFileEnum Callback1 ErrorCallback fuel FileSpec MatchFlags Depth w =
  YoriLibForEachFileEnum Callback2 ErrorCallback fuel FileSpec MatchFlags Depth w /\
  YoriLibForEachFile Callback1 ErrorCallback fuel FileSpec MatchFlags Depth w =
  YoriLibForEachFile Callback2 ErrorCallback fuel FileSpec MatchFlags Depth w.
Proof.
  intros Hsame. split.
  - now apply YoriLibForEachFileEnum_filtered.
  - now apply YoriLibForEachFile_filtered.
Qed.

End EnumeratorLaws.

Section RecursionLaws.
Context {World : Type} {flags : FileEnumFlags} {os : Platform World}.
Variable Callback : FILE_ENUM_FN (World := World).

(** ** Enumeration without recursion *)

Lemma land_submask (MatchFlags Mask Part : DWORD) :
  Z.land Mask Part = Part -> Z.land MatchFlags Mask = 0 ->
  Z.land MatchFlags Part = 0.
Proof.
  intros Hpart Hzero.
  now rewrite <- Hpart, Z.land_assoc, Hzero, Z.land_0_l.
Qed.

Lemma RecurseMask_after :
  Z.land RecurseMask YORILIB_FILEENUM_RECURSE_AFTER_RETURN
  = YORILIB_FILEENUM_RECURSE_AFTER_RETURN.
Proof.
  apply land_lor_absorb.
Qed.

Lemma RecurseMask_before :
  Z.land RecurseMask YORILIB_FILEENUM_RECURSE_BEFORE_RETURN
  = YORILIB_FILEENUM_RECURSE_BEFORE_RETURN.
Proof.
  unfold RecurseMask. rewrite Z.lor_comm. apply land_lor_absorb.
Qed.

Lemma IsRecursePhase_neither (MatchFlags : DWORD) (CurrentPhase : nat) :
  RecurseMask <> 0 ->
  FlagTest MatchFlags RecurseMask = false ->
  IsRecursePhase MatchFlags CurrentPhase = false.
Proof.
  intros Hmask Hnone. apply FlagTest_false in Hnone.
  unfold IsRecursePhase, FlagTest.
  rewrite (land_submask _ _ _ RecurseMask_after Hnone).
  rewrite (land_submask _ _ _ RecurseMask_before Hnone).
  rewrite Hnone.
  destruct (Z.eqb_spec 0 RecurseMask); [congruence|].
  now rewrite !Z.eqb_refl.
Qed.

Lemma EnumEntry_report_phase (ctx : YORILIB_FOREACHFILE_CONTEXT)
    (MatchFlags Depth : DWORD) (FileInfo : WIN32_FIND_DATA) (w : World) :
  exists r, forall self : Recursion World,
    EnumEntry Callback self ctx MatchFlags Depth false FileInfo w = Some r.
Proof.
  unfold EnumEntry, ShouldRecurse.
  rewrite andb_false_r, andb_false_l, andb_true_r.
  destruct (ShouldReportObject MatchFlags FileInfo); [|eauto].
  destruct (Callback _ _ _ _) as [[] w2]; simpl; [|eauto].
  destruct (YoriLibIsOperationCancelled w2); eauto.
Qed.

Lemma FindLoop_report_phase (ctx : YORILIB_FOREACHFILE_CONTEXT)
    (MatchFlags Depth : DWORD) (Remaining : list WIN32_FIND_DATA) :
  forall (FileInfo : WIN32_FIND_DATA) (w : World),
  exists r, forall self : Recursion World,
    FindLoop Callback self ctx MatchFlags Depth false FileInfo Remaining w = Some r.
Proof.
  induction Remaining as [|next Remaining IH]; intros FileInfo w;
    destruct (EnumEntry_report_phase ctx MatchFlags Depth FileInfo w)
      as [[[] w1] Hentry].
  - exists (true, w1, FileInfo). intros self. simpl. now rewrite Hentry.
  - exists (false, w1, FileInfo). intros self. simpl. now rewrite Hentry.
  - destruct (IH next w1) as [r Hr].
    exists r. intros self. simpl. now rewrite Hentry.
  - exists (false, w1, FileInfo). intros self. simpl. now rewrite Hentry.
Qed.

Lemma PhaseLoop_report_phases
    (ErrorCallback : option (FILE_ENUM_ERROR_FN (World := World)))
    (ctx : YORILIB_FOREACHFILE_CONTEXT)
    (MatchFlags Depth : DWORD) (PhasesLeft : nat) :
  (forall CurrentPhase, IsRecursePhase MatchFlags CurrentPhase = false) ->
  forall (CurrentPhase : nat) (FileInfo : WIN32_FIND_DATA) (w : World),
  exists r, forall self : Recursion World,
    PhaseLoop Callback ErrorCallback self PhasesLeft ctx MatchFlags Depth
              CurrentPhase FileInfo w = Some r.
Proof.
  intros Hreport.
  induction PhasesLeft as [|PhasesLeft IH]; intros CurrentPhase FileInfo w;
    simpl; [eauto|].
  rewrite Hreport.
  destruct (OpenFind _ _ _ _ _) as [[LastError| |Remaining] FileInfo1].
  - destruct ErrorCallback as [ec|]; [|apply IH].
    destruct (ec _ _ _ _); eauto.
  - destruct (FindLoop_report_phase ctx MatchFlags Depth [] FileInfo1 w)
      as [[[[] w1] FileInfo2] Hloop].
    + destruct (IH (S CurrentPhase) FileInfo2 w1) as [r Hr].
      exists r. intros self. simpl in Hloop |- *. now rewrite Hloop.
    + exists (false, w1). intros self. simpl in Hloop |- *. now rewrite Hloop.
  - destruct (FindLoop_report_phase ctx MatchFlags Depth Remaining FileInfo1 w)
      as [[[[] w1] FileInfo2] Hloop].
    + destruct (IH (S CurrentPhase) FileInfo2 w1) as [r Hr].
      exists r. intros self. simpl. now rewrite Hloop.
    + exists (false, w1). intros self. simpl. now rewrite Hloop.
Qed.

(** X8.  With neither recursion flag the enumerator runs its single phase
    as a report phase and never calls itself: the call returns whatever
    the recursion budget is, with the same result. *)
Theorem enumeration_without_recursion_flags
    (ErrorCallback : option (FILE_ENUM_ERROR_FN (World := World)))
    (FileSpec : YORI_STRING) (MatchFlags Depth : DWORD) (w : World) :
  RecurseMask <> 0 ->
  FlagTest MatchFlags RecurseMask = false ->
  CountPhases MatchFlags = 1%nat /\
  IsRecursePhase MatchFlags 0 = false /\
  exists r, forall fuel,
    YoriLibForEachFileEnum Callback ErrorCallback (S fuel)
                           FileSpec MatchFlags Depth w = Some r.
Proof.
  intros Hmask Hnone.
  pose proof (fun CurrentPhase =>
                IsRecursePhase_neither MatchFlags CurrentPhase Hmask Hnone)
    as Hreport.
  split; [unfold CountPhases; now rewrite Hnone|].
  split; [apply Hreport|].
  cbn [YoriLibForEachFileEnum]. unfold EnumBody.
  destruct (FirstLevelFileSpec _ _ _ _ _); [|eauto].
  destruct (FindFinalSlash _ _) as [Chars Found].
  destruct (ResolveParentFullPath _ _ _ _); [|eauto].
  match goal with
  | |- context [PhaseLoop _ _ _ ?n ?ctx _ _ ?p ?fi _] =>
      destruct (PhaseLoop_report_phases ErrorCallback ctx MatchFlags Depth n
                  Hreport p fi w) as [r Hr]
  end.
  exists r. intros fuel. apply Hr.
Qed.

(** X12.  With [YORILIB_FILEENUM_RECURSE_AFTER_RETURN] alone the
    enumeration has two phases, the first a report phase and the second a
    recurse phase: on a directory that can be listed the enumerator first
    hands every match of the listing to the callback, in order, and then
    calls itself on the recurse criteria of every subdirectory of the
    listing, in order, at depth plus one. *)
Theorem recurse_after_reports_then_recurses
    (ErrorCallback : option (FILE_ENUM_ERROR_FN (World := World)))
    (MatchFlags : DWORD) (fuel : nat) (FileSpec : YORI_STRING)
    (Depth : DWORD) (w : World) :
  YORILIB_FILEENUM_RECURSE_BEFORE_RETURN <> 0 ->
  FlagTest MatchFlags YORILIB_FILEENUM_RECURSE_AFTER_RETURN = true ->
  FlagTest MatchFlags YORILIB_FILEENUM_RECURSE_BEFORE_RETURN = false ->
  (CountPhases MatchFlags = 2%nat /\
   IsRecursePhase MatchFlags 0 = false /\
   IsRecursePhase MatchFlags 1 = true) /\
  (forall (ctx : YORILIB_FOREACHFILE_CONTEXT)
          (first first' : WIN32_FIND_DATA) (rest rest' : list WIN32_FIND_DATA),
     EnumeratorContext FileSpec MatchFlags Depth w = Some ctx ->
     FindFirstFile (SearchPath ctx MatchFlags false) w = inr (first', rest') ->
     (forall w', FindFirstFile (SearchPath ctx MatchFlags true) w'
                 = inr (first, rest)) ->
     YoriLibForEachFileEnum Callback ErrorCallback (S fuel)
                            FileSpec MatchFlags Depth w =
     let (ok, w1) :=
       ReportEach Callback ctx MatchFlags Depth (first' :: rest') w in
     if ok then
       RecurseEach (YoriLibForEachFileEnum Callback ErrorCallback fuel)
                   ctx MatchFlags Depth (first :: rest) w1
     else Some (false, w1)).
Proof.
  intros Hmask Hafter Hbefore.
  pose proof (FlagTest_false _ _ Hbefore) as Hzero.
  assert (Hland : Z.land MatchFlags RecurseMask
                  = Z.land MatchFlags YORILIB_FILEENUM_RECURSE_AFTER_RETURN).
  { unfold RecurseMask. now rewrite Z.land_lor_distr_r, Hzero, Z.lor_0_r. }
  assert (Hnotboth : (Z.land MatchFlags RecurseMask =? RecurseMask) = false).
  { apply Z.eqb_neq. intros Heq. apply Hmask.
    rewrite <- RecurseMask_before, <- Heq, <- Z.land_assoc.
    rewrite (Z.land_comm RecurseMask), Z.land_assoc, Hzero.
    apply Z.land_0_l. }
  assert (Hplan : CountPhases MatchFlags = 2%nat /\
                  IsRecursePhase MatchFlags 0 = false /\
                  IsRecursePhase MatchFlags 1 = true).
  { unfold CountPhases, IsRecursePhase.
    rewrite Hnotboth, Hafter.
    replace (FlagTest MatchFlags RecurseMask) with true; [auto|].
    unfold FlagTest in *. now rewrite Hland. }
  split; [exact Hplan|].
  destruct Hplan as (Hcount & Hfirst & Hsecond).
  intros ctx first first' rest rest' Hctx Hreport Hrecurse.
  rewrite YoriLibForEachFileEnum_phases, Hctx, Hcount.
  rewrite (PhaseLoop_reporting _ _ _ _ _ _ _ _ _ _ _ _ Hfirst Hreport).
  destruct (ReportEach _ _ _ _ _ _) as [[] w1]; [|reflexivity].
  rewrite (PhaseLoop_recursing _ _ _ _ _ _ _ _ _ _ _ _ Hsecond (Hrecurse w1)).
  destruct (RecurseEach _ _ _ _ _ _) as [[[] w2]|]; reflexivity.
Qed.

End RecursionLaws.

Section RefusingCallback.
Context {World : Type} {flags : FileEnumFlags} {os : Platform World}.
Variable Callback : FILE_ENUM_FN (World := World).

(** ** A callback that returns [FALSE] *)

Hypothesis refuses : forall FullPath FileInfo Depth w,
  fst (Callback FullPath FileInfo Depth w) = false.

Lemma AtMostOneCall_true (w w1 : World) :
  AtMostOneCall Callback w (Some (true, w1)) -> w1 = w.
Proof.
  intros [Hsame|[Hfalse _]]; [exact Hsame|discriminate].
Qed.

Lemma EnumEntry_stops (self : Recursion World) (ctx : YORILIB_FOREACHFILE_CONTEXT)
    (MatchFlags Depth : DWORD) (RecursePhase : bool) (FileInfo : WIN32_FIND_DATA)
    (w : World) :
  Stops Callback self ->
  AtMostOneCall Callback w
    (EnumEntry Callback self ctx MatchFlags Depth RecursePhase FileInfo w).
Proof.
  intros Hself.
  assert (Hreport : forall FullPath,
    AtMostOneCall Callback w
      (if ShouldReportObject MatchFlags FileInfo && negb RecursePhase
       then let (ok, w2) := Callback FullPath FileInfo Depth w in
            if negb ok then Some (false, w2)
            else if YoriLibIsOperationCancelled w2 then Some (false, w2)
            else Some (true, w2)
       else Some (true, w))).
  { intros FullPath.
    destruct (_ && _); [|now left].
    pose proof (refuses FullPath FileInfo Depth w) as Hfalse.
    destruct (Callback FullPath FileInfo Depth w) as [ok w2] eqn:Hcall.
    simpl in Hfalse. subst ok. simpl.
    right. split; [reflexivity|].
    exists FullPath, FileInfo, Depth. now rewrite Hcall. }
  unfold EnumEntry.
  destruct (ShouldRecurse MatchFlags RecursePhase FileInfo); [|apply Hreport].
  pose proof (Hself (BuildRecurseCriteria ctx MatchFlags FileInfo) MatchFlags
                    (u32 (Depth + 1)) w) as Hcall.
  destruct (self _ _ _ _) as [[[] w1]|]; [|exact Hcall|exact I].
  apply AtMostOneCall_true in Hcall. subst w1. apply Hreport.
Qed.

Lemma FindLoop_stops (self : Recursion World) (ctx : YORILIB_FOREACHFILE_CONTEXT)
    (MatchFlags Depth : DWORD) (RecursePhase : bool)
    (Remaining : list WIN32_FIND_DATA) :
  Stops Callback self ->
  forall (FileInfo : WIN32_FIND_DATA) (w : World),
  AtMostOneCall Callback w
    (option_map fst
       (FindLoop Callback self ctx MatchFlags Depth RecursePhase FileInfo Remaining w)).
Proof.
  intros Hself.
  induction Remaining as [|next Remaining IH]; intros FileInfo w; simpl;
    pose proof (EnumEntry_stops self ctx MatchFlags Depth RecursePhase FileInfo w
                  Hself) as Hentry;
    destruct (EnumEntry _ _ _ _ _ _ _ _) as [[[] w1]|];
    try exact Hentry; try exact I.
  apply AtMostOneCall_true in Hentry. subst w1. apply IH.
Qed.

Lemma PhaseLoop_stops (self : Recursion World) (ctx : YORILIB_FOREACHFILE_CONTEXT)
    (MatchFlags Depth : DWORD) (PhasesLeft : nat) :
  Stops Callback self ->
  forall (CurrentPhase : nat) (FileInfo : WIN32_FIND_DATA) (w : World),
  AtMostOneCall Callback w
    (PhaseLoop Callback None self PhasesLeft ctx MatchFlags Depth
               CurrentPhase FileInfo w).
Proof.
  intros Hself.
  induction PhasesLeft as [|PhasesLeft IH]; intros CurrentPhase FileInfo w;
    simpl; [now left|].
  destruct (OpenFind _ _ _ _ _) as [[LastError| |Remaining] FileInfo1];
    [apply IH| |].
  - pose proof (FindLoop_stops self ctx MatchFlags Depth
                  (IsRecursePhase MatchFlags CurrentPhase) [] Hself FileInfo1 w)
      as Hloop.
    simpl in Hloop |- *.
    destruct (EnumEntry _ _ _ _ _ _ _ _) as [[[] w1]|];
      try exact Hloop; try exact I.
    apply AtMostOneCall_true in Hloop. subst w1. apply IH.
  - pose proof (FindLoop_stops self ctx MatchFlags Depth
                  (IsRecursePhase MatchFlags CurrentPhase) Remaining Hself
                  FileInfo1 w) as Hloop.
    simpl RemainingEntries.
    destruct (FindLoop _ _ _ _ _ _ _ _ _) as [[[[] w1] FileInfo2]|];
      try exact Hloop; try exact I.
    apply AtMostOneCall_true in Hloop. subst w1. apply IH.
Qed.

Lemma YoriLibForEachFileEnum_stops (fuel : nat) :
  Stops Callback (YoriLibForEachFileEnum Callback None fuel).
Proof.
  induction fuel as [|fuel IH]; intros FileSpec MatchFlags Depth w;
    [exact I|].
  cbn [YoriLibForEachFileEnum]. unfold EnumBody.
  destruct (FirstLevelFileSpec _ _ _ _ _); [|now left].
  destruct (FindFinalSlash _ _) as [Chars Found].
  destruct (ResolveParentFullPath _ _ _ _); [|now left].
  apply PhaseLoop_stops, IH.
Qed.

Lemma SingleCharLoop_stops (self : Recursion World)
    (BeforeOperator AfterOperator : YORI_STRING) (MatchFlags Depth : DWORD)
    (LengthAllocated : nat) :
  Stops Callback self ->
  forall (MatchValue : YORI_STRING) (w : World),
  AtMostOneCall Callback w
    (SingleCharLoop self BeforeOperator AfterOperator MatchFlags Depth
                    LengthAllocated MatchValue w).
Proof.
  intros Hself.
  induction LengthAllocated as [|n IH]; intros MatchValue w; simpl;
    match goal with
    | |- context [self ?s ?f ?d ?w] => pose proof (Hself s f d w) as Hcall
    end;
    destruct (self _ _ _ _) as [[[] w1]|]; try exact Hcall; try exact I.
  destruct n; [exact Hcall|].
  apply AtMostOneCall_true in Hcall. subst w1. apply IH.
Qed.

Lemma BraceLoop_stops (self : Recursion World)
    (BeforeOperator AfterOperator : YORI_STRING) (MatchFlags Depth : DWORD)
    (fuel : nat) :
  Stops Callback self ->
  forall (SubstituteValues : YORI_STRING) (w : World),
  AtMostOneCall Callback w
    (BraceLoop self fuel BeforeOperator AfterOperator MatchFlags Depth
               SubstituteValues w).
Proof.
  intros Hself.
  induction fuel as [|fuel IH]; intros SubstituteValues w; simpl;
    match goal with
    | |- context [self ?s ?f ?d ?w] => pose proof (Hself s f d w) as Hcall
    end;
    destruct (self _ _ _ _) as [[[] w1]|]; try exact Hcall; try exact I;
    destruct (_ <=? _)%nat; try exact Hcall; try exact I.
  apply AtMostOneCall_true in Hcall. subst w1. apply IH.
Qed.

Lemma YoriLibForEachFile_stops (fuel : nat) :
  Stops Callback (YoriLibForEachFile Callback None fuel).
Proof.
  induction fuel as [|fuel IH]; intros FileSpec MatchFlags Depth w;
    [exact I|].
  cbn [YoriLibForEachFile]. unfold ExpandBody.
  pose proof (YoriLibForEachFileEnum_stops fuel) as Henum.
  destruct (FlagTest MatchFlags _); [apply Henum|].
  destruct (_ =? _)%nat.
  { destruct (YoriLibExpandHomeDirectories _ _); apply Henum. }
  destruct (_ =? _)%nat; [apply Henum|].
  destruct (tchar_eqb _ _).
  - now apply SingleCharLoop_stops.
  - now apply BraceLoop_stops.
Qed.

(** X9.  When the callback returns [FALSE] the enumeration stops: without
    an error callback, a callback that refuses every object is called at
    most once by the enumerator and by the expander, whatever the file
    specification, the flags and the directory tree are. *)
Theorem refusing_callback_is_called_at_most_once
    (fuel : nat) (FileSpec : YORI_STRING) (MatchFlags Depth : DWORD) (w : World) :
  AtMostOneCall Callback w
    (YoriLibForEachFileEnum Callback None fuel FileSpec MatchFlags Depth w) /\
  AtMostOneCall Callback w
    (YoriLibForEachFile Callback None fuel FileSpec MatchFlags Depth w).
Proof.
  split.
  - apply YoriLibForEachFileEnum_stops.
  - apply YoriLibForEachFile_stops.
Qed.

End RefusingCallback.

Section SplittingLaws.

(** ** The file specification is split at its final separator *)

Lemma YoriLibIsSep_not_letter (c : TCHAR) :
  YoriLibIsSep c = true -> IsLetter c = false.
Proof.
  unfold YoriLibIsSep. intros Hsep. apply orb_true_iff in Hsep.
  destruct Hsep as [H|H]; apply tchar_eqb_eq in H; subst c; reflexivity.
Qed.

Lemma CharAt_app_left (a b : YORI_STRING) (i : nat) :
  (i < length a)%nat -> CharAt (a ++ b) i = CharAt a i.
Proof.
  intros H. unfold CharAt. now apply app_nth1.
Qed.

Lemma CharAt_app_right (a b : YORI_STRING) (i : nat) :
  (length a <= i)%nat -> CharAt (a ++ b) i = CharAt b (i - length a).
Proof.
  intros H. unfold CharAt. now apply app_nth2.
Qed.

Lemma CharAt_Forall (P : TCHAR -> Prop) (s : YORI_STRING) (i : nat) :
  Forall P s -> (i < length s)%nat -> P (CharAt s i).
Proof.
  intros Hall Hlt. rewrite Forall_forall in Hall.
  apply Hall. unfold CharAt. now apply nth_In.
Qed.

(** The loop passes over characters that end it in neither way. *)
Lemma FindFinalSlash_passes (Effective : YORI_STRING) (n k : nat) :
  (forall i, (n <= i < n + k)%nat ->
     YoriLibIsSep (CharAt Effective i) = false /\
     (i =? 1)%nat && YoriLibIsDriveLetterWithColon Effective = false) ->
  FindFinalSlash Effective (n + k) = FindFinalSlash Effective n.
Proof.
  induction k as [|k IH]; intros Hpass; [now rewrite Nat.add_0_r|].
  rewrite Nat.add_succ_r. cbn [FindFinalSlash].
  destruct (Hpass (n + k)%nat ltac:(lia)) as [Hsep Hdrive].
  rewrite Hsep, Hdrive. apply IH. intros i Hi. apply Hpass. lia.
Qed.

Lemma FindFinalSlash_at_separator (Dir Name : YORI_STRING) (sep : TCHAR) :
  YoriLibIsSep sep = true ->
  Forall (fun c => YoriLibIsSep c = false) Name ->
  FindFinalSlash (Dir ++ sep :: Name) (length (Dir ++ sep :: Name))
  = (S (length Dir), true).
Proof.
  intros Hsep Hname.
  replace (length (Dir ++ sep :: Name)) with (S (length Dir) + length Name)%nat
    by (rewrite length_app; simpl; lia).
  rewrite FindFinalSlash_passes.
  - cbn [FindFinalSlash].
    rewrite CharAt_app_right, Nat.sub_diag by lia.
    unfold CharAt at 1. simpl nth. now rewrite Hsep.
  - intros i Hi. split.
    + rewrite CharAt_app_right by lia.
      replace (i - length Dir)%nat with (S (i - S (length Dir))) by lia.
      unfold CharAt. simpl nth.
      apply (CharAt_Forall (fun c => YoriLibIsSep c = false)); [exact Hname|lia].
    + destruct (Nat.eqb_spec i 1) as [->|]; [|reflexivity].
      destruct Dir as [|d Dir]; [|simpl in Hi; lia].
      unfold YoriLibIsDriveLetterWithColon.
      change (CharAt ([] ++ sep :: Name) 0) with sep.
      rewrite (YoriLibIsSep_not_letter sep Hsep).
      now rewrite andb_false_r.
Qed.

Lemma FindFinalSlash_at_drive_colon (letter : TCHAR) (Name : YORI_STRING) :
  IsLetter letter = true ->
  Forall (fun c => YoriLibIsSep c = false) Name ->
  FindFinalSlash (letter :: ":"%char :: Name) (length (letter :: ":"%char :: Name))
  = (2%nat, true).
Proof.
  intros Hletter Hname.
  change (length (letter :: ":"%char :: Name)) with (2 + length Name)%nat.
  rewrite FindFinalSlash_passes.
  - cbn [FindFinalSlash]. unfold CharAt at 1. simpl nth.
    unfold YoriLibIsDriveLetterWithColon, CharAt. simpl.
    now rewrite Hletter.
  - intros i Hi. split.
    + replace i with (S (S (i - 2))) by lia.
      unfold CharAt. simpl nth.
      apply (CharAt_Forall (fun c => YoriLibIsSep c = false)); [exact Hname|lia].
    + destruct (Nat.eqb_spec i 1); [lia|reflexivity].
Qed.

Lemma FindFinalSlash_without_separator (Name : YORI_STRING) :
  Forall (fun c => YoriLibIsSep c = false) Name ->
  YoriLibIsDriveLetterWithColon Name = false ->
  FindFinalSlash Name (length Name) = (0%nat, false).
Proof.
  intros Hname Hdrive.
  change (length Name) with (0 + length Name)%nat.
  rewrite FindFinalSlash_passes; [reflexivity|].
  intros i Hi. split.
  - apply (CharAt_Forall (fun c => YoriLibIsSep c = false)); [exact Hname|lia].
  - rewrite Hdrive. apply andb_false_r.
Qed.

(** X10.  The enumerator splits its file specification after the last
    separator ([\] or [/]): what is before is the directory, what is after
    is the search pattern.  A specification [X:name] without a separator is
    split after the colon, and one with neither is all pattern. *)
Theorem final_slash_is_the_last_separator (Name : YORI_STRING) :
  Forall (fun c => YoriLibIsSep c = false) Name ->
  (forall (Dir : YORI_STRING) (sep : TCHAR),
     YoriLibIsSep sep = true ->
     FindFinalSlash (Dir ++ sep :: Name) (length (Dir ++ sep :: Name))
     = (S (length Dir), true)) /\
  (forall letter : TCHAR,
     IsLetter letter = true ->
     FindFinalSlash (letter :: ":"%char :: Name)
                    (length (letter :: ":"%char :: Name))
     = (2%nat, true)) /\
  (YoriLibIsDriveLetterWithColon Name = false ->
   FindFinalSlash Name (length Name) = (0%nat, false)).
Proof.
  intros Hname. split; [|split].
  - intros Dir sep Hsep. now apply FindFinalSlash_at_separator.
  - intros letter Hletter. now apply FindFinalSlash_at_drive_colon.
  - intros Hdrive. now apply FindFinalSlash_without_separator.
Qed.

Lemma FindFinalSlash_spec (Effective : YORI_STRING) (n Chars : nat) (Found : bool) :
  FindFinalSlash Effective n = (Chars, Found) ->
  (Chars <= n)%nat /\
  (forall i, (Chars <= i < n)%nat -> YoriLibIsSep (CharAt Effective i) = false) /\
  (Found = false -> Chars = 0%nat).
Proof.
  induction n as [|n IH]; cbn [FindFinalSlash]; intros Hscan.
  - injection Hscan as <- <-. repeat split; [lia|intros i Hi; lia].
  - destruct (YoriLibIsSep (CharAt Effective n)) eqn:Hsep.
    { injection Hscan as <- <-.
      repeat split; [lia|intros i Hi; lia|discriminate]. }
    destruct ((n =? 1)%nat && YoriLibIsDriveLetterWithColon Effective).
    { injection Hscan as <- <-.
      repeat split; [lia|intros i Hi; lia|discriminate]. }
    destruct (IH Hscan) as (Hle & Hpass & Hnone).
    repeat split; [lia| |exact Hnone].
    intros i Hi.
    destruct (Nat.eq_dec i n) as [->|]; [exact Hsep|apply Hpass; lia].
Qed.

Lemma suffix_without_separator (Effective : YORI_STRING) (Chars : nat) :
  (forall i, (Chars <= i < length Effective)%nat ->
     YoriLibIsSep (CharAt Effective i) = false) ->
  Forall (fun c => YoriLibIsSep c = false) (skipn Chars Effective).
Proof.
  intros Hpass. apply Forall_forall. intros c Hin.
  apply (In_nth _ _ NUL) in Hin. destruct Hin as (k & Hk & Hnth).
  rewrite <- Hnth. fold (CharAt (skipn Chars Effective) k).
  rewrite CharAt_skipn. apply Hpass.
  rewrite length_skipn in Hk. lia.
Qed.

Lemma SearchPattern_without_separator (ctx : YORILIB_FOREACHFILE_CONTEXT) :
  FindFinalSlash (EffectiveFileSpec ctx) (length (EffectiveFileSpec ctx))
  = (CharsToFinalSlash ctx, FinalSlashFound ctx) ->
  Forall (fun c => YoriLibIsSep c = false) (SearchPattern ctx).
Proof.
  intros Hscan. apply FindFinalSlash_spec in Hscan.
  destruct Hscan as (_ & Hpass & Hnone).
  unfold SearchPattern.
  destruct (FinalSlashFound ctx).
  - now apply suffix_without_separator.
  - change (EffectiveFileSpec ctx) with (skipn 0 (EffectiveFileSpec ctx)).
    apply suffix_without_separator. now rewrite <- (Hnone eq_refl).
Qed.

Section Criteria.
Context {flags : FileEnumFlags}.

(** X11.  The criteria built for the recursion into a subdirectory is the
    directory part of the file specification, the name of the
    subdirectory, a backslash, and the search pattern of this level
    ([YORILIB_FILEENUM_RECURSE_PRESERVE_WILD]) or [*]; the enumerator
    called on it splits it at that backslash, so the pattern applies inside
    the subdirectory. *)
Theorem recursion_criteria_splits_after_the_subdirectory
    (ctx : YORILIB_FOREACHFILE_CONTEXT) (MatchFlags : DWORD)
    (FileInfo : WIN32_FIND_DATA) :
  FindFinalSlash (EffectiveFileSpec ctx) (length (EffectiveFileSpec ctx))
  = (CharsToFinalSlash ctx, FinalSlashFound ctx) ->
  let Criteria := BuildRecurseCriteria ctx MatchFlags FileInfo in
  let Directory := DirectoryPrefix ctx ++ cFileName FileInfo in
  let Pattern :=
    if FlagTest MatchFlags YORILIB_FILEENUM_RECURSE_PRESERVE_WILD
    then SearchPattern ctx else _T "*" in
  Criteria = Directory ++ _T "\" ++ Pattern /\
  FindFinalSlash Criteria (length Criteria) = (S (length Directory), true) /\
  firstn (length Directory) Criteria = Directory /\
  skipn (S (length Directory)) Criteria = Pattern.
Proof.
  intros Hscan Criteria Directory Pattern.
  assert (Hcriteria : Criteria = Directory ++ "\"%char :: Pattern).
  { subst Criteria Directory Pattern.
    unfold BuildRecurseCriteria, DirectoryPrefix, SearchPattern.
    now rewrite <- app_assoc. }
  assert (Hpattern : Forall (fun c => YoriLibIsSep c = false) Pattern).
  { subst Pattern.
    destruct (FlagTest MatchFlags _).
    - now apply SearchPattern_without_separator.
    - repeat constructor. }
  rewrite Hcriteria. split; [reflexivity|]. split; [|split].
  - now apply FindFinalSlash_at_separator.
  - now rewrite firstn_app, Nat.sub_diag, firstn_all, app_nil_r.
  - change (Directory ++ "\"%char :: Pattern)
      with (Directory ++ ["\"%char] ++ Pattern).
    rewrite app_assoc.
    replace (S (length Directory)) with (length (Directory ++ ["\"%char]))
      by (rewrite length_app; simpl; lia).
    now rewrite skipn_app, Nat.sub_diag, skipn_all.
Qed.

End Criteria.

(** ** The [file:///] prefix *)

Lemma string_eqb_refl (s : YORI_STRING) : string_eqb s s = true.
Proof.
  induction s as [|c s IH]; [reflexivity|].
  simpl. unfold tchar_eqb. now rewrite Ascii.eqb_refl.
Qed.

(** X13.  A [file:///] prefix, in any case, is removed from a file
    specification that goes on after it; the specification that is only
    the prefix is left as it is, since the length test counts the
    terminator of the literal. *)
Theorem file_prefix_is_trimmed (Prefix Rest : YORI_STRING) :
  map YoriLibUpcaseChar Prefix = _T "FILE:///" ->
  TrimFilePrefix (Prefix ++ Rest)
  = match Rest with
    | [] => Prefix
    | _ :: _ => Rest
    end.
Proof.
  intros Hprefix.
  assert (Hlength : length Prefix = 8%nat).
  { now rewrite <- (length_map YoriLibUpcaseChar), Hprefix. }
  unfold TrimFilePrefix, sizeof_file_prefix.
  rewrite length_app, Hlength.
  destruct Rest as [|c Rest]; [now rewrite app_nil_r|].
  change (9 <=? 8 + length (c :: Rest))%nat with true.
  unfold YoriLibCompareStringWithLiteralInsensitiveCount.
  change (9 - 1)%nat with 8%nat.
  assert (Hfirst : firstn 8 (Prefix ++ c :: Rest) = Prefix).
  { rewrite <- Hlength.
    now rewrite firstn_app, Nat.sub_diag, firstn_all, app_nil_r. }
  assert (Hskip : skipn 8 (Prefix ++ c :: Rest) = c :: Rest).
  { rewrite <- Hlength.
    now rewrite skipn_app, Nat.sub_diag, skipn_all. }
  rewrite Hfirst, Hskip, Hprefix.
  change (map YoriLibUpcaseChar (firstn 8 (_T "file:///"))) with (_T "FILE:///").
  now rewrite string_eqb_refl.
Qed.

End SplittingLaws.

Section UpdateFindDataLaws.
Context {World : Type} {os : Platform World}.

(** ** [YoriLibUpdateFindDataFromFileInformation] *)

Lemma AfterFinalBackslash_none (Name : YORI_STRING) :
  Forall (fun c => tchar_eqb c "\"%char = false) Name ->
  AfterFinalBackslash Name = None.
Proof.
  induction 1 as [|c Name Hc _ IH]; [reflexivity|].
  simpl. now rewrite IH, Hc.
Qed.

Lemma AfterFinalBackslash_final (Dir Name : YORI_STRING) :
  Forall (fun c => tchar_eqb c "\"%char = false) Name ->
  AfterFinalBackslash (Dir ++ "\"%char :: Name) = Some Name.
Proof.
  intros Hname.
  induction Dir as [|d Dir IH]; simpl.
  - now rewrite (AfterFinalBackslash_none Name Hname).
  - now rewrite IH.
Qed.

(** X15.  When the file can be opened, the routine fills the attributes,
    times and size in from the query and leaves the other members as they
    were; with [CopyName] the name becomes the part of the full path after
    its last backslash, or the whole path when it has none (a forward
    slash does not count), provided that part fits the [MAX_PATH]
    characters of [cFileName] together with its terminator. *)
Theorem update_find_data_copies_the_final_component
    (FindData : WIN32_FIND_DATA) (Dir Name : YORI_STRING)
    (Information : BY_HANDLE_FILE_INFORMATION) (w : World) :
  Forall (fun c => tchar_eqb c "\"%char = false) Name ->
  (length Name < MAX_PATH)%nat ->
  (OpenAndQueryFile (Dir ++ _T "\" ++ Name) w = inr Information ->
   exists Updated,
     YoriLibUpdateFindDataFromFileInformation FindData (Dir ++ _T "\" ++ Name) true w
     = inr Updated /\
     cFileName Updated = Name /\
     Updated = {| dwFileAttributes := bh_dwFileAttributes Information;
                  ftCreationTime := bh_ftCreationTime Information;
                  ftLastAccessTime := bh_ftLastAccessTime Information;
                  ftLastWriteTime := bh_ftLastWriteTime Information;
                  nFileSizeHigh := bh_nFileSizeHigh Information;
                  nFileSizeLow := bh_nFileSizeLow Information;
                  dwReserved0 := dwReserved0 FindData;
                  dwReserved1 := dwReserved1 FindData;
                  cFileName := Name;
                  cAlternateFileName := cAlternateFileName FindData |}) /\
  (OpenAndQueryFile Name w = inr Information ->
   exists Updated,
     YoriLibUpdateFindDataFromFileInformation FindData Name true w = inr Updated /\
     cFileName Updated = Name).
Proof.
  intros Hname Hfits.
  assert (Hprint : PrintString MAX_PATH Name = Name).
  { unfold PrintString.
    now replace (length Name <? MAX_PATH)%nat with true
      by (symmetry; now apply Nat.ltb_lt). }
  split; intros Hquery;
    unfold YoriLibUpdateFindDataFromFileInformation; rewrite Hquery;
    eexists; split; try reflexivity.
  - change (Dir ++ _T "\" ++ Name) with (Dir ++ "\"%char :: Name).
    rewrite (AfterFinalBackslash_final Dir Name Hname), Hprint.
    split; reflexivity.
  - cbn [cFileName]. now rewrite (AfterFinalBackslash_none Name Hname), Hprint.
Qed.

End UpdateFindDataLaws.

Section PathLaws.
Import Path.

(** ** Trailing slashes *)

Lemma StripTrailingSlashes_result (buf : YORI_STRING) (Limit : Z) (fuel : nat) :
  0 <= Limit ->
  forall Length : Z,
    1 <= Length < 2 ^ 32 ->
    (Z.to_nat Length <= fuel)%nat ->
    let Result := StripTrailingSlashes buf fuel Limit Length (Length - 1) in
    1 <= Result <= Length /\
    (forall i, Result <= i < Length -> IsBackslash (At buf i) = true) /\
    (Result - 1 <= Limit \/ IsBackslash (At buf (Result - 1)) = false).
Proof.
  intros HLimit.
  induction fuel as [|fuel IH]; intros Length HLength Hfuel; [lia|].
  cbn [StripTrailingSlashes].
  destruct (Z.gtb_spec (Length - 1) Limit) as [Hgt|Hle].
  2:{ cbv zeta. split; [lia|]. split; [intros i Hi; lia|left; lia]. }
  destruct (IsBackslash (At buf (Length - 1))) eqn:Hslash.
  2:{ cbv zeta. split; [lia|]. split; [intros i Hi; lia|now right]. }
  destruct (Z.eqb_spec (Length - 1) 0) as [|Hne]; [lia|].
  rewrite !u32_small by lia.
  destruct (IH (Length - 1) ltac:(lia) ltac:(lia)) as (Hrange & Hslashes & Hstop).
  cbv zeta. split; [lia|]. split; [|exact Hstop].
  intros i Hi.
  destruct (Z.eq_dec i (Length - 1)) as [->|]; [exact Hslash|].
  apply Hslashes. lia.
Qed.

(** X16.  Only trailing backslashes are removed from the path, and never
    its first character.  [EntirePathWithoutTrailingSlash] ends in a
    character that is not a backslash unless it is one character long;
    [EntireNaturalPath] is the same string unless the path is the root of
    a drive ([X:\], or [\\?\X:\] in the long form), where trailing
    backslashes up to the index after the root are kept. *)
Theorem trailing_slashes_are_removed (buf : YORI_STRING) (UseLongPath : bool) :
  1 <= Z.of_nat (length buf) < 2 ^ 32 ->
  let pc := StripPath buf UseLongPath in
  let Natural := LengthInChars (EntireNaturalPath pc) in
  let Stripped := LengthInChars (EntirePathWithoutTrailingSlash pc) in
  let Keep := KeepTrailingSlashesBefore buf UseLongPath (Z.of_nat (length buf)) in
  1 <= Stripped <= Natural /\ Natural <= Z.of_nat (length buf) /\
  (forall i, Stripped <= i < Z.of_nat (length buf) ->
     IsBackslash (At buf i) = true) /\
  (Stripped = 1 \/ IsBackslash (At buf (Stripped - 1)) = false) /\
  (Natural = Stripped \/ (0 < Keep /\ Natural <= Keep + 1)).
Proof.
  intros Hbuf pc Natural Stripped Keep.
  assert (HKeep : 0 <= Keep).
  { subst Keep. unfold KeepTrailingSlashesBefore.
    destruct UseLongPath;
      [destruct (YoriLibIsPrefixedDriveLetterWithColonAndSlash _)
      |destruct (YoriLibIsDriveLetterWithColonAndSlash _)]; lia. }
  subst Natural Stripped pc. unfold StripPath.
  cbn [EntireNaturalPath EntirePathWithoutTrailingSlash LengthInChars].
  fold Keep. rewrite (u32_small (Z.of_nat (length buf) - 1)) by lia.
  destruct (StripTrailingSlashes_result buf Keep (length buf) HKeep
              (Z.of_nat (length buf)) Hbuf ltac:(lia))
    as (Hrange1 & Hslashes1 & Hstop1).
  set (Natural := StripTrailingSlashes buf (length buf) Keep
                    (Z.of_nat (length buf)) (Z.of_nat (length buf) - 1)) in *.
  rewrite (u32_small (Natural - 1)) by lia.
  destruct (StripTrailingSlashes_result buf 0 (length buf) (Z.le_refl 0)
              Natural ltac:(lia) ltac:(lia))
    as (Hrange2 & Hslashes2 & Hstop2).
  set (Stripped := StripTrailingSlashes buf (length buf) 0 Natural (Natural - 1)) in *.
  split; [lia|]. split; [lia|]. split; [|split].
  - intros i Hi.
    destruct (Z_lt_le_dec i Natural); [apply Hslashes2|apply Hslashes1]; lia.
  - destruct Hstop2 as [|Hstop2]; [left; lia|now right].
  - destruct (Z.eq_dec Natural Stripped) as [|Hne]; [now left|right].
    assert (Hlast : IsBackslash (At buf (Natural - 1)) = true)
      by (apply Hslashes2; lia).
    destruct Hstop1 as [|Hstop1]; [lia|congruence].
Qed.

(** ** The file name, its base and its extension *)

Lemma dot_is_not_backslash (c : TCHAR) :
  tchar_eqb c "."%char = true -> IsBackslash c = false.
Proof.
  intros H. apply tchar_eqb_eq in H. now subst c.
Qed.

(** What the backwards scan finds.  [Slash] is the index of the last
    backslash at or below [CharIndex], or [-1] when there is none. *)
Lemma ScanFileName_result (buf : YORI_STRING) (Length : Z) (fuel : nat) :
  Length < 2 ^ 32 ->
  forall (CharIndex : Z) (ExtensionFound : bool) (pc : YORI_PATH_COMPONENTS),
    0 <= CharIndex < Length ->
    (Z.to_nat CharIndex < fuel)%nat ->
    let r := ScanFileName buf fuel Length CharIndex ExtensionFound false pc in
    exists Slash,
      -1 <= Slash <= CharIndex /\
      (forall j, Slash < j <= CharIndex -> IsBackslash (At buf j) = false) /\
      (0 <= Slash ->
       IsBackslash (At buf Slash) = true /\
       FullFileName r = {| StartOfString := Some (Slash + 1);
                           LengthInChars := Length - Slash - 1 |} /\
       ParentName r = {| StartOfString := Some 0; LengthInChars := Slash |} /\
       BaseName r =
         match StartOfString (Extension r) with
         | Some _ =>
             {| StartOfString := Some (Slash + 1);
                LengthInChars :=
                  u32 (Length - Slash - 1 - u32 (LengthInChars (Extension r) + 1)) |}
         | None => FullFileName r
         end) /\
      (Slash = -1 ->
       FullFileName r = FullFileName pc /\
       ParentName r = ParentName pc /\
       BaseName r = BaseName pc) /\
      ((Extension r = Extension pc /\
        (ExtensionFound = false ->
         forall j, Slash < j <= CharIndex -> tchar_eqb (At buf j) "."%char = false)) \/
       (ExtensionFound = false /\
        exists Dot,
          Slash < Dot <= CharIndex /\
          tchar_eqb (At buf Dot) "."%char = true /\
          (forall j, Dot < j <= CharIndex -> tchar_eqb (At buf j) "."%char = false) /\
          Extension r = {| StartOfString := Some (Dot + 1);
                           LengthInChars := Length - Dot - 1 |})).
Proof.
  intros HLength.
  induction fuel as [|fuel IH]; intros CharIndex ExtensionFound pc HIndex Hfuel;
    [lia|].
  cbn [ScanFileName]. rewrite !andb_true_r.
  destruct (tchar_eqb (At buf CharIndex) "."%char) eqn:Hdot;
    [destruct ExtensionFound|]; cbn [andb negb].
  - (* a dot after the extension was found *)
    rewrite (dot_is_not_backslash _ Hdot).
    destruct (Z.eqb_spec CharIndex 0) as [Hzero|Hnonzero].
    + exists (-1). split; [lia|]. split.
      { intros j Hj. replace j with CharIndex by lia.
        now apply dot_is_not_backslash. }
      split; [lia|]. split; [tauto|]. left. split; [reflexivity|discriminate].
    + rewrite u32_small by lia.
      destruct (IH (CharIndex - 1) true pc ltac:(lia) ltac:(lia))
        as (Slash & Hrange & Hnone & Hfound & Hmissing & Hext).
      exists Slash. split; [lia|]. split.
      { intros j Hj. destruct (Z.eq_dec j CharIndex) as [->|];
          [now apply dot_is_not_backslash|apply Hnone; lia]. }
      split; [exact Hfound|]. split; [exact Hmissing|].
      destruct Hext as [[Hsame _]|[Hfalse _]]; [|discriminate].
      left. split; [exact Hsame|discriminate].
  - (* the first dot from the end *)
    rewrite (dot_is_not_backslash _ Hdot).
    rewrite !u32_small by lia.
    destruct (Z.eqb_spec CharIndex 0) as [Hzero|Hnonzero].
    + exists (-1). split; [lia|]. split.
      { intros j Hj. replace j with CharIndex by lia.
        now apply dot_is_not_backslash. }
      split; [lia|]. split; [cbn; tauto|]. right. split; [reflexivity|].
      exists CharIndex. split; [lia|]. split; [exact Hdot|].
      split; [intros j Hj; lia|reflexivity].
    + rewrite u32_small by lia.
      match goal with
      | |- context [ScanFileName buf fuel Length (CharIndex - 1) true false ?p] =>
          destruct (IH (CharIndex - 1) true p ltac:(lia) ltac:(lia))
            as (Slash & Hrange & Hnone & Hfound & Hmissing & Hext)
      end.
      exists Slash. split; [lia|]. split.
      { intros j Hj. destruct (Z.eq_dec j CharIndex) as [->|];
          [now apply dot_is_not_backslash|apply Hnone; lia]. }
      split; [exact Hfound|]. split; [exact Hmissing|].
      destruct Hext as [[Hsame _]|[Hfalse _]]; [|discriminate].
      right. split; [reflexivity|].
      exists CharIndex. split; [lia|]. split; [exact Hdot|].
      split; [intros j Hj; lia|exact Hsame].
  - (* not a dot *)
    destruct (IsBackslash (At buf CharIndex)) eqn:Hslash.
    + exists CharIndex. split; [lia|]. split; [intros j Hj; lia|].
      split.
      { intros _. cbn. rewrite !u32_small by lia.
        split; [exact Hslash|]. split; [reflexivity|]. split; [reflexivity|].
        destruct (StartOfString (Extension pc)); reflexivity. }
      split; [lia|]. left. split; [reflexivity|]. intros _ j Hj. lia.
    + destruct (Z.eqb_spec CharIndex 0) as [Hzero|Hnonzero].
      * exists (-1). split; [lia|]. split.
        { intros j Hj. now replace j with CharIndex by lia. }
        split; [lia|]. split; [tauto|]. left. split; [reflexivity|].
        intros _ j Hj. now replace j with CharIndex by lia.
      * rewrite u32_small by lia.
        destruct (IH (CharIndex - 1) ExtensionFound pc ltac:(lia) ltac:(lia))
          as (Slash & Hrange & Hnone & Hfound & Hmissing & Hext).
        exists Slash. split; [lia|]. split.
        { intros j Hj. destruct (Z.eq_dec j CharIndex) as [->|];
            [exact Hslash|apply Hnone; lia]. }
        split; [exact Hfound|]. split; [exact Hmissing|].
        destruct Hext as [[Hsame Hnodot]|(Hfalse & Dot & HDot & Hat & Hafter & Hext)].
        -- left. split; [exact Hsame|]. intros Hfalse j Hj.
           destruct (Z.eq_dec j CharIndex) as [->|];
             [exact Hdot|apply (Hnodot Hfalse); lia].
        -- right. split; [exact Hfalse|].
           exists Dot. split; [lia|]. split; [exact Hat|]. split; [|exact Hext].
           intros j Hj. destruct (Z.eq_dec j CharIndex) as [->|];
             [exact Hdot|apply Hafter; lia].
Qed.

(** The scan for the drive letter or share leaves the parent alone, and
    either leaves the file name, base name and extension alone or clears
    all three. *)
Lemma ScanVolume_keeps (buf : YORI_STRING) (UseLongPath : bool)
    (pc0 pc : YORI_PATH_COMPONENTS) :
  ScanVolume buf UseLongPath pc0 = Some pc ->
  ParentName pc = ParentName pc0 /\
  EntireNaturalPath pc = EntireNaturalPath pc0 /\
  ((FullFileName pc = FullFileName pc0 /\
    BaseName pc = BaseName pc0 /\
    Extension pc = Extension pc0) \/
   (FullFileName pc = WithLength (FullFileName pc0) 0 /\
    BaseName pc = WithLength (BaseName pc0) 0 /\
    Extension pc = WithLength (Extension pc0) 0)).
Proof.
  assert (Hshare : forall CharIndex EndOfServerNameFound,
    let r := SetShare buf CharIndex EndOfServerNameFound pc0 in
    ParentName r = ParentName pc0 /\
    EntireNaturalPath r = EntireNaturalPath pc0 /\
    ((FullFileName r = FullFileName pc0 /\
      BaseName r = BaseName pc0 /\
      Extension r = Extension pc0) \/
     (FullFileName r = WithLength (FullFileName pc0) 0 /\
      BaseName r = WithLength (BaseName pc0) 0 /\
      Extension r = WithLength (Extension pc0) 0))).
  { intros CharIndex EndOfServerNameFound. unfold SetShare.
    destruct (negb _ || _); [|cbn; tauto].
    destruct (_ <? _); [cbn; tauto|].
    destruct (_ >? _); cbn; tauto. }
  unfold ScanVolume.
  destruct UseLongPath.
  - destruct (_ <? 4); [discriminate|].
    destruct (YoriLibIsFullPathUnc _).
    { destruct (ScanShare _ _ _ _) as [CharIndex EndOfServerNameFound].
      intros [= <-]. apply Hshare. }
    destruct (YoriLibIsDriveLetterWithColonAndSlash _);
      intros [= <-]; cbn; tauto.
  - destruct (YoriLibIsDriveLetterWithColonAndSlash _);
      [intros [= <-]; cbn; tauto|].
    destruct (_ || _); [|intros [= <-]; tauto].
    destruct (ScanShare _ _ _ _) as [CharIndex EndOfServerNameFound].
    intros [= <-]. apply Hshare.
Qed.

(** The components of a decomposed path that has a file name. *)
Lemma Decompose_file_name (buf : YORI_STRING) (UseLongPath : bool)
    (pc : YORI_PATH_COMPONENTS) :
  1 <= Z.of_nat (length buf) < 2 ^ 32 ->
  Decompose buf UseLongPath = Some pc ->
  LengthInChars (FullFileName pc) <> 0 ->
  exists Slash Length,
    0 <= Slash /\ Slash < Length <= Z.of_nat (length buf) /\
    IsBackslash (At buf Slash) = true /\
    (forall j, Slash < j < Length -> IsBackslash (At buf j) = false) /\
    EntireNaturalPath pc = {| StartOfString := Some 0; LengthInChars := Length |} /\
    ParentName pc = {| StartOfString := Some 0; LengthInChars := Slash |} /\
    FullFileName pc = {| StartOfString := Some (Slash + 1);
                         LengthInChars := Length - Slash - 1 |} /\
    ((StartOfString (Extension pc) = None /\
      BaseName pc = FullFileName pc /\
      (forall j, Slash < j < Length -> tchar_eqb (At buf j) "."%char = false)) \/
     (exists Dot,
        Slash < Dot < Length /\
        tchar_eqb (At buf Dot) "."%char = true /\
        (forall j, Dot < j < Length -> tchar_eqb (At buf j) "."%char = false) /\
        Extension pc = {| StartOfString := Some (Dot + 1);
                          LengthInChars := Length - Dot - 1 |} /\
        BaseName pc = {| StartOfString := Some (Slash + 1);
                         LengthInChars := Dot - Slash - 1 |})).
Proof.
  intros Hbuf Hdecompose Hfile.
  unfold Decompose in Hdecompose.
  apply ScanVolume_keeps in Hdecompose.
  destruct Hdecompose as (Hparent & Hentire & Hnames).
  pose proof (StripPath_length buf UseLongPath Hbuf) as Hstrip.
  unfold FileNameScan in *.
  set (pc1 := StripPath buf UseLongPath) in *.
  set (Length := LengthInChars (EntireNaturalPath pc1)) in *.
  rewrite u32_small in * by lia.
  destruct (ScanFileName_keeps buf (length buf) Length (Length - 1) false false pc1)
    as (Hentire0 & _).
  destruct (ScanFileName_result buf Length (length buf) ltac:(lia)
              (Length - 1) false pc1 ltac:(lia) ltac:(lia))
    as (Slash & Hrange & Hnone & Hfound & Hmissing & Hext).
  set (pc0 := ScanFileName buf (length buf) Length (Length - 1) false false pc1) in *.
  assert (Hkept : FullFileName pc = FullFileName pc0 /\
                  BaseName pc = BaseName pc0 /\
                  Extension pc = Extension pc0).
  { destruct Hnames as [Hkept|(Hcleared & _)]; [exact Hkept|].
    rewrite Hcleared in Hfile. now cbn in Hfile. }
  destruct Hkept as (Hfull & Hbase & Hextension).
  destruct (Z_lt_le_dec Slash 0) as [Hneg|Hpos].
  { destruct (Hmissing ltac:(lia)) as (Hempty & _).
    rewrite Hfull, Hempty in Hfile. now cbn in Hfile. }
  destruct (Hfound Hpos) as (Hslash & Hfull0 & Hparent0 & Hbase0).
  exists Slash, Length.
  split; [lia|]. split; [lia|]. split; [exact Hslash|].
  split; [intros j Hj; apply Hnone; lia|].
  split; [rewrite Hentire, Hentire0; reflexivity|].
  split; [now rewrite Hparent, Hparent0|].
  split; [now rewrite Hfull, Hfull0|].
  destruct Hext as [[Hsame Hnodot]|(_ & Dot & HDot & Hat & Hafter & Hext)].
  - left. rewrite Hextension, Hsame. split; [reflexivity|].
    rewrite Hsame in Hbase0. cbn in Hbase0.
    split; [now rewrite Hbase, Hbase0, Hfull|].
    intros j Hj. apply (Hnodot eq_refl). lia.
  - right. exists Dot. split; [lia|]. split; [exact Hat|].
    split; [intros j Hj; apply Hafter; lia|].
    split; [now rewrite Hextension, Hext|].
    rewrite Hbase, Hbase0, Hext. cbn [StartOfString LengthInChars].
    rewrite (u32_small (Length - Dot - 1 + 1)) by lia.
    f_equal. rewrite u32_small by lia. lia.
Qed.

Lemma segment_Forall (P : TCHAR -> Prop) (buf : YORI_STRING) (a k : nat) :
  (forall i, (a <= i < a + k)%nat -> P (CharAt buf i)) ->
  Forall P (firstn k (skipn a buf)).
Proof.
  intros Hall. apply Forall_forall. intros c Hin.
  apply (In_nth _ _ NUL) in Hin. destruct Hin as (j & Hj & Hnth).
  rewrite <- Hnth. fold (CharAt (firstn k (skipn a buf)) j).
  rewrite length_firstn in Hj.
  rewrite CharAt_firstn, CharAt_skipn by lia.
  apply Hall. lia.
Qed.

Lemma Text_slice (buf : YORI_STRING) (start n : Z) :
  Text buf {| StartOfString := Some start; LengthInChars := n |}
  = firstn (Z.to_nat n) (skipn (Z.to_nat start) buf).
Proof.
  reflexivity.
Qed.

(** X17.  Of a decomposed path with a file name, the parent, a backslash
    and the file name make up the entire path, and the file name holds no
    backslash: it is the last component of the path. *)
Theorem parent_and_file_name_make_the_path (buf : YORI_STRING)
    (UseLongPath : bool) (pc : YORI_PATH_COMPONENTS) :
  1 <= Z.of_nat (length buf) < 2 ^ 32 ->
  Decompose buf UseLongPath = Some pc ->
  LengthInChars (FullFileName pc) <> 0 ->
  Text buf (ParentName pc) ++ _T "\" ++ Text buf (FullFileName pc)
  = Text buf (EntireNaturalPath pc) /\
  Forall (fun c => IsBackslash c = false) (Text buf (FullFileName pc)).
Proof.
  intros Hbuf Hdecompose Hfile.
  destruct (Decompose_file_name buf UseLongPath pc Hbuf Hdecompose Hfile)
    as (Slash & Length & Hpos & Hrange & Hslash & Hnone & Hentire & Hparent
        & Hfull & _).
  rewrite Hentire, Hparent, Hfull, !Text_slice.
  change (Z.to_nat 0) with 0%nat. cbn [skipn].
  unfold At in *.
  set (s := Z.to_nat Slash) in *.
  replace (Z.to_nat (Slash + 1)) with (s + 1)%nat by lia.
  replace (Z.to_nat (Length - Slash - 1)) with (Z.to_nat Length - (s + 1))%nat by lia.
  split.
  - replace (firstn (Z.to_nat Length) buf)
      with (firstn (Z.to_nat Length - 0) (skipn 0 buf))
      by (simpl; f_equal; lia).
    rewrite (segment_split buf 0 s (Z.to_nat Length)) by lia.
    rewrite (segment_split buf s (s + 1) (Z.to_nat Length)) by lia.
    replace (s + 1 - s)%nat with 1%nat by lia.
    rewrite (segment_one buf s) by lia.
    apply tchar_eqb_eq in Hslash. rewrite Hslash.
    replace (s - 0)%nat with s by lia. reflexivity.
  - apply segment_Forall. intros i Hi.
    specialize (Hnone (Z.of_nat i) ltac:(lia)).
    now rewrite Nat2Z.id in Hnone.
Qed.

(** X18.  Of a decomposed path with a file name, the extension is what
    follows the last dot of the file name and the base name what precedes
    it; a file name without a dot has no extension and is its own base
    name. *)
Theorem base_name_and_extension_make_the_file_name (buf : YORI_STRING)
    (UseLongPath : bool) (pc : YORI_PATH_COMPONENTS) :
  1 <= Z.of_nat (length buf) < 2 ^ 32 ->
  Decompose buf UseLongPath = Some pc ->
  LengthInChars (FullFileName pc) <> 0 ->
  match StartOfString (Extension pc) with
  | Some _ =>
      Text buf (BaseName pc) ++ _T "." ++ Text buf (Extension pc)
      = Text buf (FullFileName pc) /\
      Forall (fun c => tchar_eqb c "."%char = false) (Text buf (Extension pc))
  | None =>
      Text buf (BaseName pc) = Text buf (FullFileName pc) /\
      Forall (fun c => tchar_eqb c "."%char = false) (Text buf (FullFileName pc))
  end.
Proof.
  intros Hbuf Hdecompose Hfile.
  destruct (Decompose_file_name buf UseLongPath pc Hbuf Hdecompose Hfile)
    as (Slash & Length & Hpos & Hrange & Hslash & Hnone & Hentire & Hparent
        & Hfull & Hext).
  unfold At in *.
  destruct Hext as [(Hnoext & Hbase & Hnodot)
                   |(Dot & HDot & Hat & Hafter & Hextension & Hbase)].
  - rewrite Hnoext, Hbase. split; [reflexivity|].
    rewrite Hfull, Text_slice.
    apply segment_Forall. intros i Hi.
    specialize (Hnodot (Z.of_nat i) ltac:(lia)).
    now rewrite Nat2Z.id in Hnodot.
  - rewrite Hextension, Hbase, Hfull, !Text_slice.
    cbn [StartOfString].
    set (s := Z.to_nat (Slash + 1)).
    set (d := Z.to_nat Dot).
    replace (Z.to_nat (Dot + 1)) with (d + 1)%nat by lia.
    replace (Z.to_nat (Dot - Slash - 1)) with (d - s)%nat by lia.
    replace (Z.to_nat (Length - Dot - 1)) with (Z.to_nat Length - (d + 1))%nat by lia.
    replace (Z.to_nat (Length - Slash - 1)) with (Z.to_nat Length - s)%nat by lia.
    split.
    + rewrite (segment_split buf s d (Z.to_nat Length)) by lia.
      rewrite (segment_split buf d (d + 1) (Z.to_nat Length)) by lia.
      replace (d + 1 - d)%nat with 1%nat by lia.
      rewrite (segment_one buf d) by lia.
      apply tchar_eqb_eq in Hat. fold d in Hat. rewrite Hat. reflexivity.
    + apply segment_Forall. intros i Hi.
      specialize (Hafter (Z.of_nat i) ltac:(lia)).
      now rewrite Nat2Z.id in Hafter.
Qed.

(** X19.  A decomposed path has a drive letter or a share name, never
    both; a share name starts at the start of the path, a drive letter is
    one character. *)
Theorem drive_letter_and_share_exclude_each_other (buf : YORI_STRING)
    (UseLongPath : bool) (pc : YORI_PATH_COMPONENTS) :
  1 <= Z.of_nat (length buf) < 2 ^ 32 ->
  Decompose buf UseLongPath = Some pc ->
  (DriveLetter pc = EmptySlice \/ ShareName pc = EmptySlice) /\
  (DriveLetter pc = EmptySlice \/
   DriveLetter pc = {| StartOfString := Some (if UseLongPath then 4 else 0);
                       LengthInChars := 1 |}) /\
  (ShareName pc = EmptySlice \/ StartOfString (ShareName pc) = Some 0).
Proof.
  intros Hbuf Hdecompose.
  destruct (FileNameScan_result buf UseLongPath Hbuf)
    as (_ & _ & Hdrive & Hshare & _).
  unfold Decompose in Hdecompose.
  set (pc0 := FileNameScan buf UseLongPath) in *.
  assert (Hset : forall CharIndex EndOfServerNameFound,
    let r := SetShare buf CharIndex EndOfServerNameFound pc0 in
    DriveLetter r = EmptySlice /\
    (ShareName r = EmptySlice \/ StartOfString (ShareName r) = Some 0)).
  { intros CharIndex EndOfServerNameFound r. subst r.
    rewrite SetShare_keeps_drive. split; [exact Hdrive|].
    unfold SetShare.
    destruct (negb _ || _); [|now left].
    destruct (_ <? _); [now right|].
    destruct (_ >? _); now right. }
  unfold ScanVolume in Hdecompose.
  destruct UseLongPath.
  - destruct (_ <? 4); [discriminate|].
    destruct (YoriLibIsFullPathUnc _).
    { destruct (ScanShare _ _ _ _) as [CharIndex EndOfServerNameFound].
      injection Hdecompose as <-.
      destruct (Hset CharIndex EndOfServerNameFound) as (Hd & Hs).
      rewrite Hd. tauto. }
    destruct (YoriLibIsDriveLetterWithColonAndSlash _);
      injection Hdecompose as <-.
    + rewrite SetDrive_keeps_share, Hshare. cbn. tauto.
    + rewrite Hdrive, Hshare. tauto.
  - destruct (YoriLibIsDriveLetterWithColonAndSlash _).
    { injection Hdecompose as <-.
      rewrite SetDrive_keeps_share, Hshare. cbn. tauto. }
    destruct (_ || _).
    + destruct (ScanShare _ _ _ _) as [CharIndex EndOfServerNameFound].
      injection Hdecompose as <-.
      destruct (Hset CharIndex EndOfServerNameFound) as (Hd & Hs).
      rewrite Hd. tauto.
    + injection Hdecompose as <-. rewrite Hdrive, Hshare. tauto.
Qed.

(** ** Paths on a share *)

(** A decomposition that found a share went through [SetShare]. *)
Lemma Decompose_share (buf : YORI_STRING) (UseLongPath : bool)
    (pc : YORI_PATH_COMPONENTS) :
  1 <= Z.of_nat (length buf) < 2 ^ 32 ->
  Decompose buf UseLongPath = Some pc ->
  StartOfString (ShareName pc) <> None ->
  exists CharIndex EndOfServerNameFound,
    0 <= CharIndex <= Z.max 8 (Z.of_nat (length buf)) /\
    pc = SetShare buf CharIndex EndOfServerNameFound (FileNameScan buf UseLongPath).
Proof.
  intros Hbuf Hdecompose Hshare.
  destruct (FileNameScan_result buf UseLongPath Hbuf)
    as (_ & _ & _ & Hnoshare & _).
  unfold Decompose in Hdecompose.
  set (pc0 := FileNameScan buf UseLongPath) in *.
  assert (Hempty : StartOfString (ShareName pc0) = None) by now rewrite Hnoshare.
  unfold ScanVolume in Hdecompose.
  destruct UseLongPath.
  - destruct (_ <? 4); [discriminate|].
    destruct (YoriLibIsFullPathUnc _).
    + pose proof (ScanShare_range buf (S (length buf)) ltac:(lia) 8 false
                    ltac:(lia)) as Hrange.
      destruct (ScanShare _ _ _ _) as [CharIndex EndOfServerNameFound].
      injection Hdecompose as <-. simpl in Hrange.
      exists CharIndex, EndOfServerNameFound. split; [lia|reflexivity].
    + destruct (YoriLibIsDriveLetterWithColonAndSlash _);
        injection Hdecompose as <-; contradiction.
  - destruct (YoriLibIsDriveLetterWithColonAndSlash _);
      [injection Hdecompose as <-; contradiction|].
    destruct (_ || _); [|injection Hdecompose as <-; contradiction].
    pose proof (ScanShare_range buf (S (length buf)) ltac:(lia) 2 false
                  ltac:(lia)) as Hrange.
    destruct (ScanShare _ _ _ _) as [CharIndex EndOfServerNameFound].
    injection Hdecompose as <-. simpl in Hrange.
    exists CharIndex, EndOfServerNameFound. split; [lia|reflexivity].
Qed.

(** X20.  Of a path on a share that was decomposed into a share name, a
    path from the root and a file name, the share name, the path from the
    root, a backslash and the file name make up the entire path. *)
Theorem share_round_trip (buf : YORI_STRING) (UseLongPath : bool)
    (pc : YORI_PATH_COMPONENTS) :
  1 <= Z.of_nat (length buf) < 2 ^ 31 ->
  Decompose buf UseLongPath = Some pc ->
  StartOfString (ShareName pc) <> None ->
  StartOfString (PathFromRoot pc) <> None ->
  StartOfString (FullFileName pc) <> None ->
  Text buf (ShareName pc) ++ Text buf (PathFromRoot pc) ++ _T "\" ++
  Text buf (FullFileName pc)
  = Text buf (EntireNaturalPath pc).
Proof.
  intros Hbuf Hdecompose Hshare Hroot Hfile.
  destruct (Decompose_share buf UseLongPath pc ltac:(lia) Hdecompose Hshare)
    as (CharIndex & EndOfServerNameFound & HIndex & ->).
  destruct (FileNameScan_result buf UseLongPath ltac:(lia))
    as (HLength & Hentire & _ & _ & Hscan).
  destruct (ScanFileName_keeps buf (length buf)
              (LengthInChars (EntireNaturalPath (StripPath buf UseLongPath)))
              (u32 (LengthInChars (EntireNaturalPath (StripPath buf UseLongPath)) - 1))
              false false (StripPath buf UseLongPath))
    as (_ & _ & _ & Hnoroot).
  fold (FileNameScan buf UseLongPath) in Hnoroot.
  set (pc0 := FileNameScan buf UseLongPath) in *.
  set (Length := LengthInChars (EntireNaturalPath pc0)) in *.
  change (PathFromRoot (StripPath buf UseLongPath)) with EmptySlice in Hnoroot.
  unfold SetShare in *.
  destruct (negb _ || _).
  2:{ rewrite Hnoroot in Hroot. now cbn in Hroot. }
  destruct Hscan as [(Slash & HSlash & Hat & _ & Hfull)|Hnofile].
  2:{ destruct (_ <? _); [|destruct (_ >? _)]; cbn in Hfile;
        rewrite Hnofile in Hfile; now cbn in Hfile. }
  rewrite Hfull in *. cbn [LengthInChars StartOfString] in *.
  rewrite Hentire in *. cbn [LengthInChars StartOfString] in *.
  rewrite (u32_small (CharIndex + (Length - Slash - 1))) in * by lia.
  destruct (Z.ltb_spec (CharIndex + (Length - Slash - 1)) Length) as [Hlt|Hge].
  2:{ destruct (_ >? _); cbn in Hroot; rewrite Hnoroot in Hroot;
        now cbn in Hroot. }
  cbn [ShareName PathFromRoot FullFileName EntireNaturalPath].
  rewrite !Text_slice. rewrite u32_small by lia.
  change (Z.to_nat 0) with 0%nat. cbn [skipn].
  unfold At in Hat. apply tchar_eqb_eq in Hat.
  set (c := Z.to_nat CharIndex).
  set (s := Z.to_nat Slash) in *.
  replace (Z.to_nat (Length - CharIndex - (Length - Slash - 1) - 1))
    with (s - c)%nat by lia.
  replace (Z.to_nat (Slash + 1)) with (s + 1)%nat by lia.
  replace (Z.to_nat (Length - Slash - 1)) with (Z.to_nat Length - (s + 1))%nat
    by lia.
  replace (firstn (Z.to_nat Length) buf)
    with (firstn (Z.to_nat Length - 0) (skipn 0 buf))
    by (simpl; f_equal; lia).
  rewrite (segment_split buf 0 c (Z.to_nat Length)) by lia.
  rewrite (segment_split buf c s (Z.to_nat Length)) by lia.
  rewrite (segment_split buf s (s + 1) (Z.to_nat Length)) by lia.
  replace (s + 1 - s)%nat with 1%nat by lia.
  rewrite (segment_one buf s) by lia.
  rewrite Hat. replace (c - 0)%nat with c by lia. reflexivity.
Qed.

End PathLaws.

Section MatcherPrefixLaws.
Import Matcher.

(** ** Patterns that end in [*] *)

Lemma SkipWild_beyond (fuel : nat) (Wildcard : YORI_STRING) (WildIndex : nat) :
  (length Wildcard <= WildIndex)%nat ->
  SkipWild fuel Wildcard WildIndex = WildIndex.
Proof.
  intros H. destruct fuel as [|fuel]; simpl; [reflexivity|].
  destruct (Nat.ltb_spec WildIndex (length Wildcard)); [lia|reflexivity].
Qed.

Lemma CharAt_final_star (Literal : YORI_STRING) :
  CharAt (Literal ++ _T "*") (length Literal) = "*"%char.
Proof.
  rewrite CharAt_app_right, Nat.sub_diag by lia. reflexivity.
Qed.

Lemma SkipWild_final_star (fuel : nat) (Literal : YORI_STRING) :
  SkipWild (S fuel) (Literal ++ _T "*") (length Literal) = S (length Literal).
Proof.
  cbn [SkipWild]. rewrite length_app. simpl length.
  replace (length Literal <? length Literal + 1)%nat with true
    by (symmetry; apply Nat.ltb_lt; lia).
  rewrite CharAt_final_star. cbn [negb].
  change (negb (IsWild (YoriLibUpcaseChar "*"%char))) with false. cbv iota.
  apply SkipWild_beyond. rewrite length_app. simpl. lia.
Qed.

Lemma MatchLoop_prefix (FileName Literal : YORI_STRING) :
  Forall (fun c => IsWild (YoriLibUpcaseChar c) = false) Literal ->
  forall (fuel i : nat),
    (i <= length FileName)%nat -> (i <= length Literal)%nat ->
    (S (length Literal) - i <= fuel)%nat ->
    MatchLoop fuel FileName (Literal ++ _T "*") i i
    = Some (string_eqb
              (map YoriLibUpcaseChar (firstn (length Literal - i) (skipn i FileName)))
              (map YoriLibUpcaseChar (skipn i Literal))).
Proof.
  intros Hliteral.
  assert (Hlength : length (Literal ++ _T "*") = S (length Literal))
    by (rewrite length_app; simpl; lia).
  induction fuel as [|fuel IH]; intros i HF HL Hfuel; [lia|].
  cbn [MatchLoop]. rewrite Hlength.
  replace (i <? S (length Literal))%nat with true
    by (symmetry; apply Nat.ltb_lt; lia).
  rewrite andb_true_r.
  destruct (Nat.ltb_spec i (length FileName)) as [HltF|HgeF].
  - destruct (Nat.eq_dec i (length Literal)) as [->|Hne].
    + (* the final star *)
      rewrite CharAt_final_star.
      change (tchar_eqb (YoriLibUpcaseChar "*"%char) "?"%char) with false.
      change (tchar_eqb (YoriLibUpcaseChar "*"%char) "*"%char) with true.
      cbv iota zeta.
      rewrite SkipWild_beyond by lia. rewrite Nat.eqb_refl.
      rewrite Nat.sub_diag, skipn_all. reflexivity.
    + (* a character of the literal *)
      assert (HltL : (i < length Literal)%nat) by lia.
      rewrite (CharAt_app_left Literal _ i HltL).
      pose proof (literal_at Literal i Hliteral HltL) as Hwild.
      unfold IsWild in Hwild. apply orb_false_iff in Hwild.
      destruct Hwild as [Hstar Hquestion].
      cbv zeta. rewrite Hstar, Hquestion.
      rewrite (skipn_CharAt FileName i HltF), (skipn_CharAt Literal i HltL).
      replace (length Literal - i)%nat with (S (length Literal - S i)) by lia.
      cbn [firstn map string_eqb].
      destruct (tchar_eqb (YoriLibUpcaseChar (CharAt FileName i))
                          (YoriLibUpcaseChar (CharAt Literal i))); simpl.
      * apply IH; lia.
      * reflexivity.
  - (* the name is used up *)
    f_equal. unfold MatchTail. rewrite Hlength.
    rewrite (skipn_all2 FileName) by lia. rewrite firstn_nil.
    replace (i =? length FileName)%nat with true
      by (symmetry; apply Nat.eqb_eq; lia).
    destruct (Nat.eq_dec i (length Literal)) as [->|Hne].
    + rewrite SkipWild_final_star, Nat.eqb_refl, skipn_all. reflexivity.
    + assert (HltL : (i < length Literal)%nat) by lia.
      rewrite SkipWild_at_literal.
      * replace (i =? S (length Literal))%nat with false
          by (symmetry; apply Nat.eqb_neq; lia).
        rewrite (skipn_CharAt Literal i HltL). reflexivity.
      * intros _. rewrite (CharAt_app_left Literal _ i HltL).
        now apply literal_at.
Qed.

(** X14.  A pattern made of literal characters and a final [*] matches
    exactly the names that start with the literal characters, up to case;
    the final [*] also matches the empty remainder. *)
Theorem matcher_literal_then_star (FileName Literal : YORI_STRING) :
  Forall (fun c => IsWild (YoriLibUpcaseChar c) = false) Literal ->
  YoriLibDoesFileMatchExpression FileName (Literal ++ _T "*")
  = Some (string_eqb
            (map YoriLibUpcaseChar (firstn (length Literal) FileName))
            (map YoriLibUpcaseChar Literal)).
Proof.
  intros Hliteral. unfold YoriLibDoesFileMatchExpression.
  rewrite (MatchLoop_prefix FileName Literal Hliteral _ 0%nat);
    [now rewrite Nat.sub_0_r|lia|lia|].
  rewrite length_app. simpl. lia.
Qed.

End MatcherPrefixLaws.

(* ================================================================== *)
(** * The further properties at concrete inputs *)

Lemma matcher_literal_pattern_witness :
  Forall (fun c => Matcher.IsWild (YoriLibUpcaseChar c) = false) (_T "a.txt") /\
  Matcher.YoriLibDoesFileMatchExpression (_T "A.TXT") (_T "a.txt") = Some true.
Proof.
  assert (H1 : Forall (fun c => Matcher.IsWild (YoriLibUpcaseChar c) = false)
                      (_T "a.txt")) by (repeat constructor).
  split; [exact H1|].
  exact (matcher_literal_pattern (_T "A.TXT") (_T "a.txt") H1).
Defined.

Lemma matcher_wildcard_only_pattern_witness :
  Forall (fun c => Matcher.IsWild (YoriLibUpcaseChar c) = true) (_T "??") /\
  Matcher.YoriLibDoesFileMatchExpression (_T "abc") (_T "??") = Some false.
Proof.
  assert (H1 : Forall (fun c => Matcher.IsWild (YoriLibUpcaseChar c) = true)
                      (_T "??")) by (repeat constructor).
  split; [exact H1|].
  exact (matcher_wildcard_only_pattern (_T "abc") (_T "??") H1).
Defined.

Lemma matcher_literal_then_star_witness :
  Forall (fun c => Matcher.IsWild (YoriLibUpcaseChar c) = false) (_T "ab") /\
  Matcher.YoriLibDoesFileMatchExpression (_T "AB") (_T "ab*") = Some true.
Proof.
  assert (H1 : Forall (fun c => Matcher.IsWild (YoriLibUpcaseChar c) = false)
                      (_T "ab")) by (repeat constructor).
  split; [exact H1|].
  exact (matcher_literal_then_star (_T "AB") (_T "ab") H1).
Defined.

Lemma bracket_group_expands_each_character_witness :
  FlagTest FILES_ONLY (@YORILIB_FILEENUM_BASIC_EXPANSION ExampleFlags) = false /\
  YoriLibCountStringNotContainingChars (_T "x") (_T "{[") = length (_T "x") /\
  YoriLibCountStringNotContainingChars (_T "ab") (_T "]") = length (_T "ab") /\
  YoriLibForEachFile (flags := ExampleFlags) (os := BracketDirectory)
    RecordObject None 3 (_T "x[ab].txt") FILES_ONLY 0 []
  = CallEach (YoriLibForEachFile (flags := ExampleFlags) (os := BracketDirectory)
                RecordObject None 2)
      [_T "xa.txt"; _T "xb.txt"] FILES_ONLY 0 [].
Proof.
  assert (H1 : FlagTest FILES_ONLY (@YORILIB_FILEENUM_BASIC_EXPANSION ExampleFlags)
               = false) by reflexivity.
  assert (H2 : YoriLibCountStringNotContainingChars (_T "x") (_T "{[")
               = length (_T "x")) by reflexivity.
  assert (H3 : YoriLibCountStringNotContainingChars (_T "ab") (_T "]")
               = length (_T "ab")) by reflexivity.
  split; [exact H1|]. split; [exact H2|]. split; [exact H3|].
  exact (bracket_group_expands_each_character
           (flags := ExampleFlags) (os := BracketDirectory) RecordObject None
           2 (_T "x") (_T ".txt") "a"%char (_T "b") FILES_ONLY 0 [] H1 H2 H3).
Defined.

Lemma brace_group_expands_each_value_witness :
  FlagTest FILES_ONLY (@YORILIB_FILEENUM_BASIC_EXPANSION ExampleFlags) = false /\
  YoriLibCountStringNotContainingChars (_T "x.") (_T "{[") = length (_T "x.") /\
  [_T "c"; _T "h"] <> [] /\
  (length [_T "c"; _T "h"] = 1%nat \/ last [_T "c"; _T "h"] [] <> []) /\
  Forall (fun Value =>
            YoriLibCountStringNotContainingChars Value (_T ",}") = length Value)
         [_T "c"; _T "h"] /\
  YoriLibForEachFile (flags := ExampleFlags) (os := BracketDirectory)
    RecordObject None 3 (_T "x.{c,h}") FILES_ONLY 0 []
  = CallEach (YoriLibForEachFile (flags := ExampleFlags) (os := BracketDirectory)
                RecordObject None 2)
      [_T "x.c"; _T "x.h"] FILES_ONLY 0 [].
Proof.
  assert (H1 : FlagTest FILES_ONLY (@YORILIB_FILEENUM_BASIC_EXPANSION ExampleFlags)
               = false) by reflexivity.
  assert (H2 : YoriLibCountStringNotContainingChars (_T "x.") (_T "{[")
               = length (_T "x.")) by reflexivity.
  assert (H3 : [_T "c"; _T "h"] <> []) by discriminate.
  assert (H4 : length [_T "c"; _T "h"] = 1%nat \/ last [_T "c"; _T "h"] [] <> [])
    by (right; discriminate).
  assert (H5 : Forall (fun Value =>
                         YoriLibCountStringNotContainingChars Value (_T ",}")
                         = length Value) [_T "c"; _T "h"])
    by (repeat constructor).
  split; [exact H1|]. split; [exact H2|]. split; [exact H3|].
  split; [exact H4|]. split; [exact H5|].
  exact (brace_group_expands_each_value
           (flags := ExampleFlags) (os := BracketDirectory) RecordObject None
           2 (_T "x.") [] [_T "c"; _T "h"] FILES_ONLY 0 [] H1 H2 H3 H4 H5).
Defined.

Lemma unmatched_operator_passes_through_witness :
  YoriLibCountStringNotContainingChars (_T "a") (_T "{[") = length (_T "a") /\
  (("["%char = "["%char /\
    YoriLibCountStringNotContainingChars (_T "b") (_T "]") = length (_T "b")) \/
   ("["%char = "{"%char /\
    YoriLibCountStringNotContainingChars (_T "b") (_T "}") = length (_T "b"))) /\
  YoriLibForEachFile (flags := ExampleFlags) (os := BracketDirectory)
    RecordObject None 3 (_T "a[b") FILES_ONLY 0 []
  = YoriLibForEachFileEnum (flags := ExampleFlags) (os := BracketDirectory)
      RecordObject None 2 (_T "a[b") FILES_ONLY 0 [].
Proof.
  assert (H1 : YoriLibCountStringNotContainingChars (_T "a") (_T "{[")
               = length (_T "a")) by reflexivity.
  assert (H2 : ("["%char = "["%char /\
                YoriLibCountStringNotContainingChars (_T "b") (_T "]")
                = length (_T "b")) \/
               ("["%char = "{"%char /\
                YoriLibCountStringNotContainingChars (_T "b") (_T "}")
                = length (_T "b")))
    by (left; split; reflexivity).
  split; [exact H1|]. split; [exact H2|].
  exact (unmatched_operator_passes_through
           (flags := ExampleFlags) (os := BracketDirectory) RecordObject None
           2 (_T "a") (_T "b") "["%char FILES_ONLY 0 [] H1 H2).
Defined.

Lemma callback_sees_only_entries_passing_the_filters_witness :
  (forall FullPath FileInfo EntryDepth w0,
     PassesFilters (flags := ExampleFlags) FILES_AND_DIRECTORIES FileInfo ->
     RecordObject FullPath FileInfo EntryDepth w0
     = RefuseDots FullPath FileInfo EntryDepth w0) /\
  YoriLibForEachFileEnum (flags := ExampleFlags) (os := BracketDirectory)
    RecordObject None 3 (_T "*") FILES_AND_DIRECTORIES 0 [] =
  YoriLibForEachFileEnum (flags := ExampleFlags) (os := BracketDirectory)
    RefuseDots None 3 (_T "*") FILES_AND_DIRECTORIES 0 [].
Proof.
  assert (H1 : forall FullPath FileInfo EntryDepth w0,
             PassesFilters (flags := ExampleFlags) FILES_AND_DIRECTORIES FileInfo ->
             RecordObject FullPath FileInfo EntryDepth w0
             = RefuseDots FullPath FileInfo EntryDepth w0).
  { intros FullPath FileInfo EntryDepth w0 [Hdot _].
    unfold RecordObject, RefuseDots.
    destruct (IsDotFile FileInfo); [|reflexivity].
    discriminate (Hdot eq_refl). }
  split; [exact H1|].
  exact (proj1 (callback_sees_only_entries_passing_the_filters
                  (flags := ExampleFlags) (os := BracketDirectory)
                  RecordObject RefuseDots None FILES_AND_DIRECTORIES 3 (_T "*")
                  0 [] H1)).
Defined.

Lemma enumeration_without_recursion_flags_witness :
  RecurseMask (flags := ExampleFlags) <> 0 /\
  FlagTest FILES_AND_DIRECTORIES (RecurseMask (flags := ExampleFlags)) = false /\
  exists r, forall fuel,
    YoriLibForEachFileEnum (flags := ExampleFlags) (os := BracketDirectory)
      RecordObject None (S fuel) (_T "*") FILES_AND_DIRECTORIES 0 [] = Some r.
Proof.
  assert (H1 : RecurseMask (flags := ExampleFlags) <> 0) by discriminate.
  assert (H2 : FlagTest FILES_AND_DIRECTORIES (RecurseMask (flags := ExampleFlags))
               = false) by reflexivity.
  split; [exact H1|]. split; [exact H2|].
  exact (proj2 (proj2 (enumeration_without_recursion_flags
                         (flags := ExampleFlags) (os := BracketDirectory)
                         RecordObject None (_T "*") FILES_AND_DIRECTORIES 0 []
                         H1 H2))).
Defined.

Lemma recurse_after_reports_then_recurses_witness :
  @YORILIB_FILEENUM_RECURSE_BEFORE_RETURN ExampleFlags <> 0 /\
  FlagTest FILES_RECURSE_AFTER (@YORILIB_FILEENUM_RECURSE_AFTER_RETURN ExampleFlags)
  = true /\
  FlagTest FILES_RECURSE_AFTER (@YORILIB_FILEENUM_RECURSE_BEFORE_RETURN ExampleFlags)
  = false /\
  YoriLibForEachFileEnum (flags := ExampleFlags) (os := BracketDirectory)
    RecordObject None 3 (_T "*") FILES_RECURSE_AFTER 0 []
  = (let (ok, w1) :=
       ReportEach (flags := ExampleFlags) (os := BracketDirectory)
         RecordObject StarContext FILES_RECURSE_AFTER 0 CurrentDirectoryListing [] in
     if ok then
       RecurseEach (flags := ExampleFlags)
         (YoriLibForEachFileEnum (flags := ExampleFlags) (os := BracketDirectory)
            RecordObject None 2)
         StarContext FILES_RECURSE_AFTER 0 CurrentDirectoryListing w1
     else Some (false, w1)).
Proof.
  assert (H1 : @YORILIB_FILEENUM_RECURSE_BEFORE_RETURN ExampleFlags <> 0)
    by discriminate.
  assert (H2 : FlagTest FILES_RECURSE_AFTER
                 (@YORILIB_FILEENUM_RECURSE_AFTER_RETURN ExampleFlags) = true)
    by reflexivity.
  assert (H3 : FlagTest FILES_RECURSE_AFTER
                 (@YORILIB_FILEENUM_RECURSE_BEFORE_RETURN ExampleFlags) = false)
    by reflexivity.
  split; [exact H1|]. split; [exact H2|]. split; [exact H3|].
  exact (proj2 (recurse_after_reports_then_recurses
                  (flags := ExampleFlags) (os := BracketDirectory)
                  RecordObject None FILES_RECURSE_AFTER 2 (_T "*") 0 [] H1 H2 H3)
           StarContext (DirectoryEntry ".") (DirectoryEntry ".")
           [DirectoryEntry ".."; DirectoryEntry "a[b]"; FileEntry "y.txt"]
           [DirectoryEntry ".."; DirectoryEntry "a[b]"; FileEntry "y.txt"]
           eq_refl eq_refl (fun _ => eq_refl)).
Defined.

Lemma refusing_callback_is_called_at_most_once_witness :
  (forall FullPath FileInfo Depth w,
     fst (RefuseAll FullPath FileInfo Depth w) = false) /\
  AtMostOneCall RefuseAll []
    (YoriLibForEachFileEnum (flags := ExampleFlags) (os := BracketDirectory)
       RefuseAll None 3 (_T "*") FILES_RECURSE_BEFORE 0 []).
Proof.
  assert (H1 : forall FullPath FileInfo Depth w,
             fst (RefuseAll FullPath FileInfo Depth w) = false)
    by (intros; reflexivity).
  split; [exact H1|].
  exact (proj1 (refusing_callback_is_called_at_most_once
                  (flags := ExampleFlags) (os := BracketDirectory)
                  RefuseAll H1 3 (_T "*") FILES_RECURSE_BEFORE 0 [])).
Defined.

Lemma final_slash_is_the_last_separator_witness :
  Forall (fun c => YoriLibIsSep c = false) (_T "*.txt") /\
  FindFinalSlash (_T "C:/dir\*.txt") (length (_T "C:/dir\*.txt")) = (7%nat, true).
Proof.
  assert (H1 : Forall (fun c => YoriLibIsSep c = false) (_T "*.txt"))
    by (repeat constructor).
  split; [exact H1|].
  exact (proj1 (final_slash_is_the_last_separator (_T "*.txt") H1)
           (_T "C:/dir") "\"%char eq_refl).
Defined.

Lemma recursion_criteria_splits_after_the_subdirectory_witness :
  FindFinalSlash (EffectiveFileSpec SubdirectoryContext)
                 (length (EffectiveFileSpec SubdirectoryContext))
  = (CharsToFinalSlash SubdirectoryContext, FinalSlashFound SubdirectoryContext) /\
  BuildRecurseCriteria (flags := ExampleFlags) SubdirectoryContext
    FILES_RECURSE_BEFORE (DirectoryEntry "sub")
  = _T "d\sub\*".
Proof.
  assert (H1 : FindFinalSlash (EffectiveFileSpec SubdirectoryContext)
                 (length (EffectiveFileSpec SubdirectoryContext))
               = (CharsToFinalSlash SubdirectoryContext,
                  FinalSlashFound SubdirectoryContext)) by reflexivity.
  split; [exact H1|].
  exact (proj1 (recursion_criteria_splits_after_the_subdirectory
                  (flags := ExampleFlags) SubdirectoryContext
                  FILES_RECURSE_BEFORE (DirectoryEntry "sub") H1)).
Defined.

Lemma file_prefix_is_trimmed_witness :
  map YoriLibUpcaseChar (_T "File:///") = _T "FILE:///" /\
  TrimFilePrefix (_T "File:///C:\a") = _T "C:\a".
Proof.
  assert (H1 : map YoriLibUpcaseChar (_T "File:///") = _T "FILE:///")
    by reflexivity.
  split; [exact H1|].
  exact (file_prefix_is_trimmed (_T "File:///") (_T "C:\a") H1).
Defined.

Lemma update_find_data_copies_the_final_component_witness :
  Forall (fun c => tchar_eqb c "\"%char = false) (_T "a.txt:s") /\
  (length (_T "a.txt:s") < MAX_PATH)%nat /\
  exists Updated,
    YoriLibUpdateFindDataFromFileInformation (os := StreamFile)
      (FileEntry "old") (_T "C:\r\a.txt:s") true [] = inr Updated /\
    cFileName Updated = _T "a.txt:s" /\
    Updated = {| dwFileAttributes := bh_dwFileAttributes VolumeInformation;
                 ftCreationTime := bh_ftCreationTime VolumeInformation;
                 ftLastAccessTime := bh_ftLastAccessTime VolumeInformation;
                 ftLastWriteTime := bh_ftLastWriteTime VolumeInformation;
                 nFileSizeHigh := bh_nFileSizeHigh VolumeInformation;
                 nFileSizeLow := bh_nFileSizeLow VolumeInformation;
                 dwReserved0 := dwReserved0 (FileEntry "old");
                 dwReserved1 := dwReserved1 (FileEntry "old");
                 cFileName := _T "a.txt:s";
                 cAlternateFileName := cAlternateFileName (FileEntry "old") |}.
Proof.
  assert (H1 : Forall (fun c => tchar_eqb c "\"%char = false) (_T "a.txt:s"))
    by (repeat constructor).
  assert (H2 : (length (_T "a.txt:s") < MAX_PATH)%nat)
    by (apply Nat.ltb_lt; reflexivity).
  split; [exact H1|]. split; [exact H2|].
  exact (proj1 (update_find_data_copies_the_final_component (os := StreamFile)
                  (FileEntry "old") (_T "C:\r") (_T "a.txt:s") VolumeInformation []
                  H1 H2) eq_refl).
Defined.

Lemma trailing_slashes_are_removed_witness :
  1 <= Z.of_nat (length DriveRootPath) < 2 ^ 32 /\
  1 <= 2 <= 4 /\ 4 <= Z.of_nat (length DriveRootPath) /\
  (forall i, 2 <= i < Z.of_nat (length DriveRootPath) ->
     Path.IsBackslash (Path.At DriveRootPath i) = true) /\
  (2 = 1 \/ Path.IsBackslash (Path.At DriveRootPath (2 - 1)) = false) /\
  (4 = 2 \/ (0 < 3 /\ 4 <= 3 + 1)).
Proof.
  assert (H1 : 1 <= Z.of_nat (length DriveRootPath) < 2 ^ 32)
    by (split; [discriminate|reflexivity]).
  split; [exact H1|].
  exact (trailing_slashes_are_removed DriveRootPath false H1).
Defined.

Lemma parent_and_file_name_make_the_path_witness :
  1 <= Z.of_nat (length ShortDrivePath) < 2 ^ 32 /\
  Path.Decompose ShortDrivePath false = Some ShortDriveComponents /\
  Path.LengthInChars (Path.FullFileName ShortDriveComponents) <> 0 /\
  Path.Text ShortDrivePath (Path.ParentName ShortDriveComponents) ++ _T "\" ++
  Path.Text ShortDrivePath (Path.FullFileName ShortDriveComponents)
  = Path.Text ShortDrivePath (Path.EntireNaturalPath ShortDriveComponents).
Proof.
  assert (H1 : 1 <= Z.of_nat (length ShortDrivePath) < 2 ^ 32)
    by (split; [discriminate|reflexivity]).
  assert (H2 : Path.Decompose ShortDrivePath false = Some ShortDriveComponents)
    by reflexivity.
  assert (H3 : Path.LengthInChars (Path.FullFileName ShortDriveComponents) <> 0)
    by discriminate.
  split; [exact H1|]. split; [exact H2|]. split; [exact H3|].
  exact (proj1 (parent_and_file_name_make_the_path ShortDrivePath false
                  ShortDriveComponents H1 H2 H3)).
Defined.

Lemma base_name_and_extension_make_the_file_name_witness :
  1 <= Z.of_nat (length LongDrivePath) < 2 ^ 32 /\
  Path.Decompose LongDrivePath true = Some LongDriveComponents /\
  Path.LengthInChars (Path.FullFileName LongDriveComponents) <> 0 /\
  Path.Text LongDrivePath (Path.BaseName LongDriveComponents) ++ _T "." ++
  Path.Text LongDrivePath (Path.Extension LongDriveComponents)
  = Path.Text LongDrivePath (Path.FullFileName LongDriveComponents).
Proof.
  assert (H1 : 1 <= Z.of_nat (length LongDrivePath) < 2 ^ 32)
    by (split; [discriminate|reflexivity]).
  assert (H2 : Path.Decompose LongDrivePath true = Some LongDriveComponents)
    by reflexivity.
  assert (H3 : Path.LengthInChars (Path.FullFileName LongDriveComponents) <> 0)
    by discriminate.
  split; [exact H1|]. split; [exact H2|]. split; [exact H3|].
  exact (proj1 (base_name_and_extension_make_the_file_name LongDrivePath true
                  LongDriveComponents H1 H2 H3)).
Defined.

Lemma drive_letter_and_share_exclude_each_other_witness :
  1 <= Z.of_nat (length ShareFilePath) < 2 ^ 32 /\
  Path.Decompose ShareFilePath false = Some ShareFileComponents /\
  (Path.DriveLetter ShareFileComponents = Path.EmptySlice \/
   Path.ShareName ShareFileComponents = Path.EmptySlice).
Proof.
  assert (H1 : 1 <= Z.of_nat (length ShareFilePath) < 2 ^ 32)
    by (split; [discriminate|reflexivity]).
  assert (H2 : Path.Decompose ShareFilePath false = Some ShareFileComponents)
    by reflexivity.
  split; [exact H1|]. split; [exact H2|].
  exact (proj1 (drive_letter_and_share_exclude_each_other ShareFilePath false
                  ShareFileComponents H1 H2)).
Defined.

Lemma share_round_trip_witness :
  1 <= Z.of_nat (length ShareFilePath) < 2 ^ 31 /\
  Path.Decompose ShareFilePath false = Some ShareFileComponents /\
  Path.StartOfString (Path.ShareName ShareFileComponents) <> None /\
  Path.StartOfString (Path.PathFromRoot ShareFileComponents) <> None /\
  Path.StartOfString (Path.FullFileName ShareFileComponents) <> None /\
  Path.Text ShareFilePath (Path.ShareName ShareFileComponents) ++
  Path.Text ShareFilePath (Path.PathFromRoot ShareFileComponents) ++ _T "\" ++
  Path.Text ShareFilePath (Path.FullFileName ShareFileComponents)
  = Path.Text ShareFilePath (Path.EntireNaturalPath ShareFileComponents).
Proof.
  assert (H1 : 1 <= Z.of_nat (length ShareFilePath) < 2 ^ 31)
    by (split; [discriminate|reflexivity]).
  assert (H2 : Path.Decompose ShareFilePath false = Some ShareFileComponents)
    by reflexivity.
  assert (H3 : Path.StartOfString (Path.ShareName ShareFileComponents) <> None)
    by discriminate.
  assert (H4 : Path.StartOfString (Path.PathFromRoot ShareFileComponents) <> None)
    by discriminate.
  assert (H5 : Path.StartOfString (Path.FullFileName ShareFileComponents) <> None)
    by discriminate.
  split; [exact H1|]. split; [exact H2|]. split; [exact H3|].
  split; [exact H4|]. split; [exact H5|].
  exact (share_round_trip ShareFilePath false ShareFileComponents
           H1 H2 H3 H4 H5).
Defined.

(** The order of the callbacks for the directory of [BracketDirectory]:
    with [YORILIB_FILEENUM_RECURSE_AFTER_RETURN] alone the file of the
    directory is reported before the file of its subdirectory, with both
    recursion flags after it. *)
Example recursion_order_example :
  YoriLibForEachFileEnum (flags := ExampleFlags) (os := BracketDirectory)
    RecordObject None 3 (_T "*") FILES_RECURSE_AFTER 0 []
  = Some (true, [Reported (_T "C:\r\y.txt") (_T "y.txt") 0;
                 Reported (_T "C:\r\a[b]\x.txt") (_T "x.txt") 1]) /\
  YoriLibForEachFileEnum (flags := ExampleFlags) (os := BracketDirectory)
    RecordObject None 3 (_T "*") FILES_RECURSE_BOTH 0 []
  = Some (true, [Reported (_T "C:\r\a[b]\x.txt") (_T "x.txt") 1;
                 Reported (_T "C:\r\y.txt") (_T "y.txt") 0]).
Proof.
  split; reflexivity.
Qed.
